(** * mcp-msoffice-interop-word: the Word automation service and its tool handlers

    The service (src/word/word-service.ts) drives Microsoft Word through the
    winax automation bridge: every statement of a method is a property read, a
    property write or a method call on an object of Word's object model.  The
    object model is not part of the repository, so the development takes it as
    a parameter: an automation layer is any function that answers a call in a
    world and returns the next world.  The service methods are embedded as
    computations in a state-and-exception monad over
      - the one field of the WordService class ([wordApp]),
      - the world of the automation layer, and
      - a journal of the calls issued, in the order they were issued.
    The tool handlers (src/tools/*.ts) are embedded on top of the service.

    Two in-memory automation layers ([Fake], [Editor]) are used to run the
    service on concrete documents. *)

From Stdlib Require Import ZArith String Ascii List Bool Floats Lia DecimalString.
Import ListNotations.

Local Open Scope string_scope.
Local Open Scope Z_scope.
Local Open Scope list_scope.

(** ** JavaScript values and thrown errors *)

Module Js.

(** A reference to an automation object (the identity of the wrapper object). *)
Definition ref : Type := nat.

(** An object-typed value: an object, or null/undefined. *)
Definition obj : Type := option ref.

(** Arguments and property values handed to the automation layer.  Indices,
    counts and enumeration codes are integers (the tool schemas declare them
    with [z.number().int()], Word declares them Long); sizes in points are
    IEEE 754 doubles, as every JavaScript number is. *)
Inductive value : Type :=
| VUndefined
| VBool (b : bool)
| VInt (n : Z)
| VNum (x : float)
| VStr (s : string)
| VObj (r : ref).

Definition of_obj (o : obj) : value :=
  match o with Some r => VObj r | None => VUndefined end.

(** What a [throw] carries.  [Error m] is [new Error(m)]; the automation
    bridge raises the same class for a failed call.  [TypeError m] is what
    the runtime raises for a member access through null or undefined. *)
Inductive error : Type :=
| Error (message : string)
| TypeError (message : string).

(** [error.message] *)
Definition message (e : error) : string :=
  match e with Error m => m | TypeError m => m end.

(** The template literal [`${error}`] *)
Definition to_string (e : error) : string :=
  match e with
  | Error m => "Error: " ++ m
  | TypeError m => "TypeError: " ++ m
  end.

(** The template literal [`${n}`] of an integer. *)
Definition show (n : Z) : string := NilZero.string_of_int (Z.to_int n).

(** [a > b] and [a <= b] on doubles (both false when an operand is NaN). *)
Definition gt (a b : float) : bool := PrimFloat.ltb b a.
Definition le (a b : float) : bool := PrimFloat.leb a b.

Definition quote : string := String (ascii_of_nat 34) EmptyString.

End Js.
Import Js.

(** ** The automation interface *)

(** The type of the answer the service expects from a member, as Word's type
    library declares it. [TVoid] is an answer the code does not look at. *)
Inductive ty : Type := TObj | TInt | TNum | TBool | TStr | TVoid.

Definition denote (t : ty) : Type :=
  match t with
  | TObj => obj
  | TInt => Z
  | TNum => float
  | TBool => bool
  | TStr => string
  | TVoid => unit
  end.

(** One interaction with the automation layer. *)
Inductive call : Type -> Type :=
| New (progid : string) : call ref
    (* new WinaxObject(progid, { activate: true }) *)
| Get (t : ty) (o : ref) (p : string) : call (denote t)
    (* o.p *)
| Put (o : ref) (p : string) (v : value) : call unit
    (* o.p = v *)
| Invoke (t : ty) (o : ref) (m : string) (args : list value) : call (denote t).
    (* o.m(args) *)

(** The journal entry of a call: the call without the type of its answer. *)
Inductive event : Type :=
| ENew (progid : string)
| EGet (o : ref) (p : string)
| EPut (o : ref) (p : string) (v : value)
| EInvoke (o : ref) (m : string) (args : list value).

Definition event_of {X : Type} (c : call X) : event :=
  match c with
  | New progid => ENew progid
  | Get _ o p => EGet o p
  | Put o p v => EPut o p v
  | Invoke _ o m args => EInvoke o m args
  end.

(** A call that only looks something up: a property read, or the [Item]
    lookup of a collection.  Everything else (creating the application,
    property writes, the other method calls) is an attempt to change
    something. *)
Definition is_lookup (e : event) : bool :=
  match e with
  | EGet _ _ => true
  | EInvoke _ m _ => String.eqb m "Item"
  | _ => false
  end.

(** An automation layer over worlds [W]: the answer to a call (the
    description of the exception it raised, or its value) and the next
    world. *)
Class Automation (W : Type) : Type :=
  dispatch : forall X : Type, call X -> W -> (string + X) * W.

Arguments dispatch {W _ X} _ _.

(** ** The monad of the service *)

Record state (W : Type) : Type := State {
  wordApp : option ref;      (* private wordApp: WordApplication | null = null *)
  world : W;
  journal : list event
}.

Arguments State {W} _ _ _.
Arguments wordApp {W} _.
Arguments world {W} _.
Arguments journal {W} _.

Definition M (W A : Type) : Type := state W -> (error + A) * state W.

Section Monad.
Context {W : Type} `{Automation W}.

Definition ret {A : Type} (a : A) : M W A := fun s => (inr a, s).

Definition throw {A : Type} (e : error) : M W A := fun s => (inl e, s).

Definition bind {A B : Type} (m : M W A) (k : A -> M W B) : M W B :=
  fun s =>
    match m s with
    | (inr a, s') => k a s'
    | (inl e, s') => (inl e, s')
    end.

(** try { m } catch (error) { handler error } *)
Definition try_catch {A : Type} (m : M W A) (handler : error -> M W A) : M W A :=
  fun s =>
    match m s with
    | (inr a, s') => (inr a, s')
    | (inl e, s') => handler e s'
    end.

Definition get_wordApp : M W (option ref) := fun s => (inr (wordApp s), s).

Definition set_wordApp (a : option ref) : M W unit :=
  fun s => (inr tt, State a (world s) (journal s)).

(** Issue one call: it is written to the journal, the world moves on, and an
    exception of the automation layer is thrown as an [Error]. *)
Definition perform {X : Type} (c : call X) : M W X :=
  fun s =>
    let (answer, w) := dispatch c (world s) in
    (match answer with inl description => inl (Error description) | inr x => inr x end,
     State (wordApp s) w (journal s ++ [event_of c])).

(** A member access [o.p ...] evaluates [o] first; through null or
    undefined the runtime throws before the automation layer is reached. *)
Definition member (o : obj) (p : string) : M W ref :=
  match o with
  | Some r => ret r
  | None => throw (TypeError ("Cannot read properties of undefined (reading '" ++ p ++ "')"))
  end.

Definition get (t : ty) (o : obj) (p : string) : M W (denote t) :=
  bind (member o p) (fun r => perform (Get t r p)).

Definition put (o : obj) (p : string) (v : value) : M W unit :=
  bind (member o p) (fun r => perform (Put r p v)).

Definition invoke (t : ty) (o : obj) (m : string) (args : list value) : M W (denote t) :=
  bind (member o m) (fun r => perform (Invoke t r m args)).

Definition new_object (progid : string) : M W ref := perform (New progid).

End Monad.

Declare Scope service_scope.
Delimit Scope service_scope with service.
Notation "x <- m ;; k" := (bind m (fun x => k))
  (at level 61, m at next level, right associativity) : service_scope.
Notation "m ;; k" := (bind m (fun _ => k))
  (at level 61, right associativity) : service_scope.
Local Open Scope service_scope.

(** ** src/word/word-service.ts: class WordService

    [console.log], [console.warn] and [console.error] have no effect on the
    service or on Word and are left out.  Every method is [async] and awaits
    each callee before its next statement: the statements run in sequence. *)

Section WordService.
Context {W : Type} `{Automation W}.

(** *** The application handle *)

(** The liveness probe of the held handle (the body of the first [try]):
    [this.wordApp.Visible; docs = this.wordApp.Documents; docs.Count]. *)
Definition probe (app : ref) : M W unit :=
  _ <- get TBool (Some app) "Visible" ;;
  docs <- get TObj (Some app) "Documents" ;;
  _ <- get TInt docs "Count" ;;
  ret tt.

(** The body of the second [try]: create (or attach to) the application,
    store it, make it visible. *)
Definition create : M W ref :=
  app <- new_object "Word.Application" ;;
  set_wordApp (Some app) ;;
  this_wordApp <- get_wordApp ;;
  put this_wordApp "Visible" (VBool true) ;;
  ret app.

Definition initialization_failure (error : error) : Js.error :=
  Error ("Failed to initialize Word.Application. Make sure Microsoft Word is installed. Error: "
           ++ to_string error).

Definition acquire : M W ref :=
  try_catch create (fun error => throw (initialization_failure error)).

(** getWordApplication, lines 36-67.  [held] is [Some app] when the first
    [if] returned [app] from inside its [try], and [None] when control falls
    through to the second [try]. *)
Definition getWordApplication : M W ref :=
  this_wordApp <- get_wordApp ;;
  held <- match this_wordApp with
          | Some app =>
              try_catch (probe app ;; ret (Some app))
                        (fun _ => set_wordApp None ;; ret None)
          | None => ret None
          end ;;
  match held with
  | Some app => ret app
  | None => acquire
  end.

(** getActiveDocument, lines 73-85. *)
Definition getActiveDocument : M W ref :=
  app <- getWordApplication ;;
  try_catch
    (activeDoc <- get TObj (Some app) "ActiveDocument" ;;
     match activeDoc with
     | None => throw (Error "No active document found in Word.")
     | Some doc => ret doc
     end)
    (fun error => throw (Error ("Failed to get active document. Error: " ++ to_string error))).

(** quitWord, lines 173-189. *)
Definition quitWord : M W unit :=
  this_wordApp <- get_wordApp ;;
  match this_wordApp with
  | Some app =>
      try_catch
        (invoke TVoid (Some app) "Quit" [VInt 0] ;;
         set_wordApp None)
        (fun _ => set_wordApp None)
  | None => ret tt
  end.

(** *** Text *)

(** [app.ActiveDocument.ActiveWindow.Selection], evaluated anew by every
    statement that mentions it. *)
Definition Selection (app : ref) : M W obj :=
  doc <- get TObj (Some app) "ActiveDocument" ;;
  window <- get TObj doc "ActiveWindow" ;;
  get TObj window "Selection".

(** deleteText, lines 212-230.  The defaults of [count] and [unit] are those
    of the tool schema, filled in before the call. *)
Definition deleteText (count unit : Z) : M W Datatypes.unit :=
  app <- getWordApplication ;;
  try_catch
    (if count >? 0 then
       selection <- Selection app ;;
       invoke TVoid selection "Delete" [VInt unit; VInt count]
     else if count <? 0 then
       selection <- Selection app ;;
       invoke TVoid selection "MoveStart" [VInt unit; VInt count] ;;
       selection <- Selection app ;;
       invoke TVoid selection "Delete" [VInt unit; VInt (Z.abs count)]
     else ret tt)
    (fun error => throw (Error ("Failed to delete text. Error: " ++ to_string error))).

(** findAndReplace, lines 241-277. *)
Definition findAndReplace (findText replaceText : string)
           (matchCase matchWholeWord replaceAll : bool) : M W bool :=
  doc <- getActiveDocument ;;
  try_catch
    (content <- get TObj (Some doc) "Content" ;;
     find <- get TObj content "Find" ;;
     invoke TVoid find "ClearFormatting" [] ;;
     replacement <- get TObj find "Replacement" ;;
     invoke TVoid replacement "ClearFormatting" [] ;;
     put find "Text" (VStr findText) ;;
     replacement <- get TObj find "Replacement" ;;
     put replacement "Text" (VStr replaceText) ;;
     put find "Forward" (VBool true) ;;
     put find "Wrap" (VInt 1) ;;
     put find "Format" (VBool false) ;;
     put find "MatchCase" (VBool matchCase) ;;
     put find "MatchWholeWord" (VBool matchWholeWord) ;;
     put find "MatchWildcards" (VBool false) ;;
     put find "MatchSoundsLike" (VBool false) ;;
     put find "MatchAllWordForms" (VBool false) ;;
     let replaceOption := if replaceAll then 2 else 1 in
     found <- invoke TBool find "Execute"
                [VUndefined; VUndefined; VUndefined; VUndefined; VUndefined;
                 VUndefined; VUndefined; VUndefined; VUndefined; VUndefined;
                 VInt replaceOption] ;;
     ret found)
    (fun error => throw (Error ("Failed to find and replace text. Error: " ++ to_string error))).

(** toggleUnderline, lines 313-328. *)
Definition toggleUnderline (underlineStyle : Z) : M W unit :=
  app <- getWordApplication ;;
  try_catch
    (selection <- Selection app ;;
     font <- get TObj selection "Font" ;;
     current <- get TInt font "Underline" ;;
     if current =? underlineStyle then put font "Underline" (VInt 0)
     else put font "Underline" (VInt underlineStyle))
    (fun error => throw (Error ("Failed to toggle underline formatting. Error: " ++ to_string error))).

(** *** Tables *)

(** [a || b]: [b] is evaluated only when [a] is false. *)
Definition lazy_or (a : bool) (b : M W bool) : M W bool :=
  if a then ret true else b.

(** [owner.name.Count] and [owner.name.Item(index)] *)
Definition Count (owner : obj) (name : string) : M W Z :=
  collection <- get TObj owner name ;;
  get TInt collection "Count".

Definition Item (owner : obj) (name : string) (index : Z) : M W obj :=
  collection <- get TObj owner name ;;
  invoke TObj collection "Item" [VInt index].

Definition out_of_bounds (what : string) (index : Z) : string :=
  what ++ " index " ++ show index ++ " is out of bounds.".

Definition out_of_bounds_for_insertion (what : string) (index : Z) : string :=
  what ++ " index " ++ show index ++ " is out of bounds for insertion.".

(** getTableCell, lines 467-480. *)
Definition getTableCell (tableIndex rowIndex colIndex : Z) : M W obj :=
  doc <- getActiveDocument ;;
  try_catch
    (bad <- lazy_or (tableIndex <=? 0)
              (count <- Count (Some doc) "Tables" ;; ret (tableIndex >? count)) ;;
     if bad then throw (Error (out_of_bounds "Table" tableIndex))
     else
       table <- Item (Some doc) "Tables" tableIndex ;;
       cell <- invoke TObj table "Cell" [VInt rowIndex; VInt colIndex] ;;
       ret cell)
    (fun error => throw (Error ("Failed to get cell. Error: " ++ to_string error))).

(** setTableCellText, lines 489-497. *)
Definition setTableCellText (tableIndex rowIndex colIndex : Z) (text : string) : M W unit :=
  try_catch
    (cell <- getTableCell tableIndex rowIndex colIndex ;;
     range <- get TObj cell "Range" ;;
     put range "Text" (VStr text))
    (fun error => throw (Error ("Failed to set cell text. Error: " ++ to_string error))).

(** insertTableRow, lines 504-526.  [beforeRowIndex] is [None] when the
    argument is left out. *)
Definition insertTableRow (tableIndex : Z) (beforeRowIndex : option Z) : M W obj :=
  doc <- getActiveDocument ;;
  try_catch
    (bad <- lazy_or (tableIndex <=? 0)
              (count <- Count (Some doc) "Tables" ;; ret (tableIndex >? count)) ;;
     if bad then throw (Error (out_of_bounds "Table" tableIndex))
     else
       table <- Item (Some doc) "Tables" tableIndex ;;
       match beforeRowIndex with
       | Some beforeRowIndex =>
           bad <- lazy_or (beforeRowIndex <=? 0)
                    (count <- Count table "Rows" ;; ret (beforeRowIndex >? count + 1)) ;;
           if bad then throw (Error (out_of_bounds_for_insertion "Row" beforeRowIndex))
           else
             count <- Count table "Rows" ;;
             refRow <- (if beforeRowIndex <=? count then Item table "Rows" beforeRowIndex
                        else ret None) ;;
             rows <- get TObj table "Rows" ;;
             invoke TObj rows "Add" [of_obj refRow]
       | None =>
           rows <- get TObj table "Rows" ;;
           invoke TObj rows "Add" []
       end)
    (fun error => throw (Error ("Failed to insert table row. Error: " ++ to_string error))).

(** insertTableColumn, lines 533-555. *)
Definition insertTableColumn (tableIndex : Z) (beforeColIndex : option Z) : M W obj :=
  doc <- getActiveDocument ;;
  try_catch
    (bad <- lazy_or (tableIndex <=? 0)
              (count <- Count (Some doc) "Tables" ;; ret (tableIndex >? count)) ;;
     if bad then throw (Error (out_of_bounds "Table" tableIndex))
     else
       table <- Item (Some doc) "Tables" tableIndex ;;
       match beforeColIndex with
       | Some beforeColIndex =>
           bad <- lazy_or (beforeColIndex <=? 0)
                    (count <- Count table "Columns" ;; ret (beforeColIndex >? count + 1)) ;;
           if bad then throw (Error (out_of_bounds_for_insertion "Column" beforeColIndex))
           else
             count <- Count table "Columns" ;;
             refCol <- (if beforeColIndex <=? count then Item table "Columns" beforeColIndex
                        else ret None) ;;
             columns <- get TObj table "Columns" ;;
             invoke TObj columns "Add" [of_obj refCol]
       | None =>
           columns <- get TObj table "Columns" ;;
           invoke TObj columns "Add" []
       end)
    (fun error => throw (Error ("Failed to insert table column. Error: " ++ to_string error))).

Definition defaultApplyFlags : Z := 1 + 2 + 4 + 8 + 16 + 32 + 64 + 128 + 256.

(** applyTableAutoFormat, lines 563-579.  [formatName] is a string or a
    number. *)
Definition applyTableAutoFormat (tableIndex : Z) (formatName : value)
           (applyFormatting : option Z) : M W unit :=
  doc <- getActiveDocument ;;
  try_catch
    (bad <- lazy_or (tableIndex <=? 0)
              (count <- Count (Some doc) "Tables" ;; ret (tableIndex >? count)) ;;
     if bad then throw (Error (out_of_bounds "Table" tableIndex))
     else
       table <- Item (Some doc) "Tables" tableIndex ;;
       invoke TVoid table "AutoFormat"
              [formatName;
               VInt (match applyFormatting with
                     | Some flags => flags
                     | None => defaultApplyFlags
                     end)])
    (fun error => throw (Error ("Failed to apply table auto format. Error: " ++ to_string error))).

(** *** Images *)

(** setInlinePictureSize, lines 609-650. *)
Definition setInlinePictureSize (shapeIndex : Z) (heightPoints widthPoints : float)
           (lockAspectRatio : bool) : M W unit :=
  doc <- getActiveDocument ;;
  try_catch
    (bad <- lazy_or (shapeIndex <=? 0)
              (count <- Count (Some doc) "InlineShapes" ;; ret (shapeIndex >? count)) ;;
     if bad then throw (Error (out_of_bounds "InlineShape" shapeIndex))
     else
       shape <- Item (Some doc) "InlineShapes" shapeIndex ;;
       originalHeight <- get TNum shape "Height" ;;
       originalWidth <- get TNum shape "Width" ;;
       put shape "LockAspectRatio" (VInt (if lockAspectRatio then -1 else 0)) ;;
       if gt heightPoints 0 && gt widthPoints 0 then
         if lockAspectRatio then
           let heightRatio := PrimFloat.div heightPoints originalHeight in
           let widthRatio := PrimFloat.div widthPoints originalWidth in
           if gt widthRatio heightRatio then put shape "Width" (VNum widthPoints)
           else put shape "Height" (VNum heightPoints)
         else
           put shape "Height" (VNum heightPoints) ;;
           put shape "Width" (VNum widthPoints)
       else if gt heightPoints 0 then put shape "Height" (VNum heightPoints)
       else if gt widthPoints 0 then put shape "Width" (VNum widthPoints)
       else ret tt)
    (fun error => throw (Error ("Failed to set inline picture size. Error: " ++ to_string error))).

(** *** Headers and footers *)

Definition kind (isHeader : bool) : string := if isHeader then "header" else "footer".

(** getHeaderFooter, lines 663-689.  [headerFooter?.Exists] is undefined,
    hence falsy, when [headerFooter] is null. *)
Definition getHeaderFooter (sectionIndex headerFooterType : Z) (isHeader : bool) : M W obj :=
  doc <- getActiveDocument ;;
  try_catch
    (bad <- lazy_or (sectionIndex <=? 0)
              (count <- Count (Some doc) "Sections" ;; ret (sectionIndex >? count)) ;;
     if bad then throw (Error (out_of_bounds "Section" sectionIndex))
     else
       section <- Item (Some doc) "Sections" sectionIndex ;;
       headersFooters <- get TObj section (if isHeader then "Headers" else "Footers") ;;
       if (headerFooterType <? 1) || (headerFooterType >? 3) then
         throw (Error ("Invalid header/footer type: " ++ show headerFooterType
                         ++ ". Use 1, 2, or 3."))
       else
         headerFooter <- invoke TObj headersFooters "Item" [VInt headerFooterType] ;;
         exists_ <- match headerFooter with
                    | Some hf => get TBool (Some hf) "Exists"
                    | None => ret false
                    end ;;
         if negb exists_ then
           throw (Error ("The requested " ++ kind isHeader ++ " type ("
                           ++ show headerFooterType
                           ++ ") does not exist or is not active for section "
                           ++ show sectionIndex ++ ". Check document settings."))
         else ret headerFooter)
    (fun error => throw (Error ("Failed to get header/footer. Error: " ++ to_string error))).

(** setHeaderFooterText, lines 698-707: the caught error is thrown again as
    it is. *)
Definition setHeaderFooterText (sectionIndex headerFooterType : Z) (isHeader : bool)
           (text : string) : M W unit :=
  try_catch
    (headerFooter <- getHeaderFooter sectionIndex headerFooterType isHeader ;;
     range <- get TObj headerFooter "Range" ;;
     put range "Text" (VStr text))
    (fun error => throw error).

(** *** Selection *)

(** selectParagraph, lines 832-844. *)
Definition selectParagraph (paragraphIndex : Z) : M W unit :=
  doc <- getActiveDocument ;;
  try_catch
    (bad <- lazy_or (paragraphIndex <=? 0)
              (count <- Count (Some doc) "Paragraphs" ;; ret (paragraphIndex >? count)) ;;
     if bad then throw (Error (out_of_bounds "Paragraph" paragraphIndex))
     else
       paragraph <- Item (Some doc) "Paragraphs" paragraphIndex ;;
       range <- get TObj paragraph "Range" ;;
       invoke TVoid range "Select" [])
    (fun error => throw (Error ("Failed to select paragraph. Error: " ++ to_string error))).

End WordService.

(** ** src/tools/*.ts: the tool handlers

    A handler receives the arguments after the schema has validated them and
    filled in the defaults, calls the service, and turns the outcome into a
    result; it never throws. *)

Record CallToolResult : Type := {
  content : list string;        (* the text of each { type: "text", text } item *)
  isError : option bool         (* None when the handler leaves the flag out *)
}.

Definition flagged (r : CallToolResult) : Prop := isError r = Some true.

Section Tools.
Context {W : Type} `{Automation W}.

Definition Tool : Type := state W -> CallToolResult * state W.

(** src/tools/text-tools.ts *)



(** findReplaceTool, lines 59-82. *)
Definition findReplaceTool (findText replaceText : string)
           (matchCase matchWholeWord replaceAll : bool) : Tool :=
  fun s =>
    match findAndReplace findText replaceText matchCase matchWholeWord replaceAll s with
    | (inr found, s') =>
        let message : string :=
          if found : bool
          then ("Successfully found and replaced text " ++ quote ++ findText ++ quote ++ ".")%string
          else ("Text " ++ quote ++ findText ++ quote ++ " not found.")%string in
        ({| content := [message];
            isError := Some (negb found && replaceAll) |}, s')
    | (inl error, s') =>
        ({| content := [("Failed to find and replace text: " ++ message error)%string];
            isError := Some true |}, s')
    end.

(** src/tools/image-tools.ts *)

(** setInlinePictureSizeTool, lines 38-57. *)
Definition setInlinePictureSizeTool (shapeIndex : Z) (heightPoints widthPoints : float)
           (lockAspectRatio : bool) : Tool :=
  fun s =>
    if le heightPoints 0 && le widthPoints 0 then
      ({| content := ["No size change specified (height and width were not positive values)."];
          isError := Some false |}, s)
    else
      match setInlinePictureSize shapeIndex heightPoints widthPoints lockAspectRatio s with
      | (inr _, s') =>
          ({| content := [("Successfully resized inline picture at index "
                             ++ show shapeIndex ++ ".")%string];
              isError := None |}, s')
      | (inl error, s') =>
          ({| content := [("Failed to resize inline picture: " ++ message error)%string];
              isError := Some true |}, s')
      end.

End Tools.

(** ** src/word/word-service.ts: the other methods of WordService *)

Section WordServiceRest.
Context {W : Type} `{Automation W}.

(** [given ?? fallback], for an argument that is a value or undefined. *)
Definition or_default (given fallback : value) : value :=
  match given with VUndefined => fallback | _ => given end.

(** An optional integer argument: undefined when left out. *)
Definition optional (given : option Z) : value :=
  match given with Some n => VInt n | None => VUndefined end.

(** *** Documents *)

(** createDocument, lines 92-101. *)
Definition createDocument : M W obj :=
  app <- getWordApplication ;;
  try_catch
    (documents <- get TObj (Some app) "Documents" ;;
     newDoc <- invoke TObj documents "Add" [] ;;
     ret newDoc)
    (fun error => throw (Error ("Failed to create new document. Error: " ++ to_string error))).

(** openDocument, lines 107-117. *)
Definition openDocument (filePath : string) : M W obj :=
  app <- getWordApplication ;;
  try_catch
    (documents <- get TObj (Some app) "Documents" ;;
     openedDoc <- invoke TObj documents "Open" [VStr filePath] ;;
     ret openedDoc)
    (fun error => throw (Error ("Failed to open document: " ++ filePath ++ ". Error: "
                                  ++ to_string error))).

(** saveActiveDocument, lines 122-130. *)
Definition saveActiveDocument : M W unit :=
  doc <- getActiveDocument ;;
  try_catch
    (invoke TVoid (Some doc) "Save" [])
    (fun error => throw (Error ("Failed to save active document. Error: " ++ to_string error))).

(** saveActiveDocumentAs, lines 137-148.  [fileFormat] is [VUndefined] when
    the argument is left out. *)
Definition saveActiveDocumentAs (filePath : string) (fileFormat : value) : M W unit :=
  doc <- getActiveDocument ;;
  try_catch
    (let format := or_default fileFormat (VInt 16) in
     invoke TVoid (Some doc) "SaveAs2" [VStr filePath; format])
    (fun error => throw (Error ("Failed to save document as: " ++ filePath ++ ". Error: "
                                  ++ to_string error))).

(** closeDocument, lines 155-166: the catch block only logs. *)
Definition closeDocument (doc : ref) (saveChanges : value) : M W unit :=
  try_catch
    (let saveOpt := or_default saveChanges (VInt 0) in
     invoke TVoid (Some doc) "Close" [saveOpt])
    (fun _ => ret tt).

(** *** Text and character formatting *)

(** insertText, lines 197-205. *)
Definition insertText (text : string) : M W unit :=
  app <- getWordApplication ;;
  try_catch
    (selection <- Selection app ;;
     invoke TVoid selection "TypeText" [VStr text])
    (fun error => throw (Error ("Failed to insert text. Error: " ++ to_string error))).

(** wdToggle *)
Definition wdToggle : Z := 9999998.

(** toggleBold, lines 282-292. *)
Definition toggleBold : M W unit :=
  app <- getWordApplication ;;
  try_catch
    (selection <- Selection app ;;
     font <- get TObj selection "Font" ;;
     put font "Bold" (VInt wdToggle))
    (fun error => throw (Error ("Failed to toggle bold formatting. Error: " ++ to_string error))).

(** toggleItalic, lines 297-307. *)
Definition toggleItalic : M W unit :=
  app <- getWordApplication ;;
  try_catch
    (selection <- Selection app ;;
     font <- get TObj selection "Font" ;;
     put font "Italic" (VInt wdToggle))
    (fun error => throw (Error ("Failed to toggle italic formatting. Error: " ++ to_string error))).

(** *** Paragraph formatting *)

(** [app.ActiveDocument.ActiveWindow.Selection.ParagraphFormat] *)
Definition ParagraphFormat (app : ref) : M W obj :=
  selection <- Selection app ;;
  get TObj selection "ParagraphFormat".

(** setParagraphAlignment, lines 336-345. *)
Definition setParagraphAlignment (alignment : Z) : M W unit :=
  app <- getWordApplication ;;
  try_catch
    (format <- ParagraphFormat app ;;
     put format "Alignment" (VInt alignment))
    (fun error => throw (Error ("Failed to set paragraph alignment. Error: " ++ to_string error))).

(** setParagraphLeftIndent, lines 351-359. *)
Definition setParagraphLeftIndent (indentPoints : float) : M W unit :=
  app <- getWordApplication ;;
  try_catch
    (format <- ParagraphFormat app ;;
     put format "LeftIndent" (VNum indentPoints))
    (fun error => throw (Error ("Failed to set left indent. Error: " ++ to_string error))).

(** setParagraphRightIndent, lines 365-373. *)
Definition setParagraphRightIndent (indentPoints : float) : M W unit :=
  app <- getWordApplication ;;
  try_catch
    (format <- ParagraphFormat app ;;
     put format "RightIndent" (VNum indentPoints))
    (fun error => throw (Error ("Failed to set right indent. Error: " ++ to_string error))).

(** setParagraphFirstLineIndent, lines 379-387. *)
Definition setParagraphFirstLineIndent (indentPoints : float) : M W unit :=
  app <- getWordApplication ;;
  try_catch
    (format <- ParagraphFormat app ;;
     put format "FirstLineIndent" (VNum indentPoints))
    (fun error => throw (Error ("Failed to set first line indent. Error: " ++ to_string error))).

(** setParagraphSpaceBefore, lines 393-401. *)
Definition setParagraphSpaceBefore (spacePoints : float) : M W unit :=
  app <- getWordApplication ;;
  try_catch
    (format <- ParagraphFormat app ;;
     put format "SpaceBefore" (VNum spacePoints))
    (fun error => throw (Error ("Failed to set space before paragraph. Error: "
                                  ++ to_string error))).

(** setParagraphSpaceAfter, lines 407-415. *)
Definition setParagraphSpaceAfter (spacePoints : float) : M W unit :=
  app <- getWordApplication ;;
  try_catch
    (format <- ParagraphFormat app ;;
     put format "SpaceAfter" (VNum spacePoints))
    (fun error => throw (Error ("Failed to set space after paragraph. Error: "
                                  ++ to_string error))).

(** setParagraphLineSpacing, lines 422-436.  [lineSpacingValue] is [None]
    when the argument is undefined. *)
Definition setParagraphLineSpacing (lineSpacingRule : Z) (lineSpacingValue : option float)
  : M W unit :=
  app <- getWordApplication ;;
  try_catch
    (paraFormat <- ParagraphFormat app ;;
     put paraFormat "LineSpacingRule" (VInt lineSpacingRule) ;;
     match lineSpacingValue with
     | Some value =>
         if lineSpacingRule >=? 3 then put paraFormat "LineSpacing" (VNum value)
         else ret tt
     | None => ret tt
     end)
    (fun error => throw (Error ("Failed to set line spacing. Error: " ++ to_string error))).

(** *** Tables and pictures *)

(** addTable, lines 447-459.  The callee [selection.Tables.Add] is
    evaluated before the argument [selection.Range]. *)
Definition addTable (numRows numCols : Z) (defaultTableBehavior autoFitBehavior : option Z)
  : M W obj :=
  app <- getWordApplication ;;
  try_catch
    (selection <- Selection app ;;
     tables <- get TObj selection "Tables" ;;
     tables <- member tables "Add" ;;
     range <- get TObj selection "Range" ;;
     table <- invoke TObj (Some tables) "Add"
                [of_obj range; VInt numRows; VInt numCols;
                 optional defaultTableBehavior; optional autoFitBehavior] ;;
     ret table)
    (fun error => throw (Error ("Failed to add table. Error: " ++ to_string error))).

(** insertPicture, lines 589-599. *)
Definition insertPicture (filePath : string) (linkToFile saveWithDocument : bool) : M W obj :=
  app <- getWordApplication ;;
  try_catch
    (selection <- Selection app ;;
     shapes <- get TObj selection "InlineShapes" ;;
     shapes <- member shapes "AddPicture" ;;
     range <- get TObj selection "Range" ;;
     inlineShape <- invoke TObj (Some shapes) "AddPicture"
                      [VStr filePath; VBool linkToFile; VBool saveWithDocument; of_obj range] ;;
     ret inlineShape)
    (fun error => throw (Error ("Failed to insert picture. Error: " ++ to_string error))).

(** *** Page setup *)

(** setPageMargins, lines 718-730. *)
Definition setPageMargins (topPoints bottomPoints leftPoints rightPoints : float) : M W unit :=
  doc <- getActiveDocument ;;
  try_catch
    (pageSetup <- get TObj (Some doc) "PageSetup" ;;
     put pageSetup "TopMargin" (VNum topPoints) ;;
     put pageSetup "BottomMargin" (VNum bottomPoints) ;;
     put pageSetup "LeftMargin" (VNum leftPoints) ;;
     put pageSetup "RightMargin" (VNum rightPoints))
    (fun error => throw (Error ("Failed to set page margins. Error: " ++ to_string error))).

(** setPageOrientation, lines 736-745. *)
Definition setPageOrientation (orientation : Z) : M W unit :=
  doc <- getActiveDocument ;;
  try_catch
    (pageSetup <- get TObj (Some doc) "PageSetup" ;;
     put pageSetup "Orientation" (VInt orientation))
    (fun error => throw (Error ("Failed to set page orientation. Error: " ++ to_string error))).

(** setPaperSize, lines 751-760. *)
Definition setPaperSize (paperSize : Z) : M W unit :=
  doc <- getActiveDocument ;;
  try_catch
    (pageSetup <- get TObj (Some doc) "PageSetup" ;;
     put pageSetup "PaperSize" (VInt paperSize))
    (fun error => throw (Error ("Failed to set paper size. Error: " ++ to_string error))).

(** *** Cursor and selection *)

(** moveCursorToStart, lines 767-776. *)
Definition moveCursorToStart : M W unit :=
  app <- getWordApplication ;;
  try_catch
    (selection <- Selection app ;;
     invoke TVoid selection "HomeKey" [VInt 6])
    (fun error => throw (Error ("Failed to move cursor to start. Error: " ++ to_string error))).

(** moveCursorToEnd, lines 781-790. *)
Definition moveCursorToEnd : M W unit :=
  app <- getWordApplication ;;
  try_catch
    (selection <- Selection app ;;
     invoke TVoid selection "EndKey" [VInt 6])
    (fun error => throw (Error ("Failed to move cursor to end. Error: " ++ to_string error))).

(** moveCursor, lines 798-812. *)
Definition moveCursor (unit count : Z) (extend : bool) : M W Datatypes.unit :=
  app <- getWordApplication ;;
  try_catch
    (selection <- Selection app ;;
     if extend then invoke TVoid selection "MoveRight" [VInt unit; VInt count; VInt 1]
     else invoke TVoid selection "MoveRight" [VInt unit; VInt count; VInt 0])
    (fun error => throw (Error ("Failed to move cursor. Error: " ++ to_string error))).

(** selectAll, lines 817-826. *)
Definition selectAll : M W unit :=
  app <- getWordApplication ;;
  try_catch
    (selection <- Selection app ;;
     invoke TVoid selection "WholeStory" [])
    (fun error => throw (Error ("Failed to select all. Error: " ++ to_string error))).

(** collapseSelection, lines 850-860. *)
Definition collapseSelection (toStart : bool) : M W unit :=
  app <- getWordApplication ;;
  try_catch
    (selection <- Selection app ;;
     invoke TVoid selection "Collapse" [VInt (if toStart then 1 else 0)])
    (fun error => throw (Error ("Failed to collapse selection. Error: " ++ to_string error))).

(** getSelectionText, lines 866-875. *)
Definition getSelectionText : M W string :=
  app <- getWordApplication ;;
  try_catch
    (selection <- Selection app ;;
     get TStr selection "Text")
    (fun error => throw (Error ("Failed to get selection text. Error: " ++ to_string error))).

Record SelectionInfo : Type := {
  info_text : string;
  info_start : Z;
  info_end : Z;
  info_isActive : bool;
  info_type : Z
}.

(** getSelectionInfo, lines 881-902: the fields of the object literal are
    evaluated top to bottom, [selection.Type] twice. *)
Definition getSelectionInfo : M W SelectionInfo :=
  app <- getWordApplication ;;
  try_catch
    (selection <- Selection app ;;
     text <- get TStr selection "Text" ;;
     start <- get TInt selection "Start" ;;
     end_ <- get TInt selection "End" ;;
     type_ <- get TInt selection "Type" ;;
     type' <- get TInt selection "Type" ;;
     ret {| info_text := text;
            info_start := start;
            info_end := end_;
            info_isActive := negb (type_ =? 0);
            info_type := type' |})
    (fun error => throw (Error ("Failed to get selection info. Error: " ++ to_string error))).

End WordServiceRest.

(** ** src/tools: more tool handlers *)

(** [hay.includes(needle)] *)
Fixpoint includes (hay needle : string) : bool :=
  String.prefix needle hay
  || match hay with
     | EmptyString => false
     | String _ rest => includes rest needle
     end.

Section ToolsRest.
Context {W : Type} `{Automation W}.

(** The runtime's rendering of a number that need not be an integer
    ([`${x}`] for a double [x]). *)
Variable number_to_string : float -> string.

(** closeDocumentTool, document tools, lines 97-118.  [saveChanges] is a
    number or undefined. *)
Definition closeDocumentTool (saveChanges : value) : Tool :=
  fun s =>
    let failed (error : error) (s' : state W) : CallToolResult * state W :=
      if includes (message error) "No active document" then
        ({| content := ["No active document to close."];
            isError := Some false |}, s')
      else
        ({| content := [("Failed to close active document: " ++ message error)%string];
            isError := Some true |}, s') in
    match getActiveDocument s with
    | (inr doc, s1) =>
        match closeDocument doc saveChanges s1 with
        | (inr _, s2) =>
            ({| content := ["Successfully closed the active document."];
                isError := None |}, s2)
        | (inl error, s2) => failed error s2
        end
    | (inl error, s1) => failed error s1
    end.

(** src/tools/paragraph-tools.ts *)

Definition ruleMap (rule : Z) : option string :=
  if rule =? 0 then Some "Single"
  else if rule =? 1 then Some "1.5 Lines"
  else if rule =? 2 then Some "Double"
  else if rule =? 3 then Some "At Least"
  else if rule =? 4 then Some "Exactly"
  else if rule =? 5 then Some "Multiple"
  else None.

(** setLineSpacingTool, lines 134-156. *)
Definition setLineSpacingTool (lineSpacingRule : Z) (lineSpacingValue : option float) : Tool :=
  fun s =>
    let failed (error : error) (s' : state W) : CallToolResult * state W :=
      ({| content := [("Failed to set line spacing: " ++ message error)%string];
          isError := Some true |}, s') in
    if (lineSpacingRule >=? 3)
       && match lineSpacingValue with None => true | Some _ => false end
    then
      failed (Error "lineSpacingValue is required when lineSpacingRule is AtLeast, Exactly, or Multiple.") s
    else
      match setParagraphLineSpacing lineSpacingRule lineSpacingValue s with
      | (inr _, s') =>
          let message : string :=
            ("Successfully set line spacing rule to "
               ++ match ruleMap lineSpacingRule with
                  | Some name => name
                  | None => "undefined"
                  end ++ ".")%string in
          let message : string :=
            match lineSpacingValue with
            | Some value =>
                if lineSpacingRule >=? 3 then
                  let unit : string := if lineSpacingRule =? 5 then "x" else " points" in
                  (message ++ " Value: " ++ number_to_string value ++ unit ++ ".")%string
                else message
            | None => message
            end in
          ({| content := [message]; isError := None |}, s')
      | (inl error, s') => failed error s'
      end.

(** Cursor and selection tools *)

(** getSelectionTextTool, lines 146-162: an empty text is falsy. *)
Definition getSelectionTextTool : Tool :=
  fun s =>
    match getSelectionText s with
    | (inr text, s') =>
        ({| content := ["Current selection text:";
                        if String.eqb text EmptyString then "(empty selection)" else text];
            isError := None |}, s')
    | (inl error, s') =>
        ({| content := [("Failed to get selection text: " ++ message error)%string];
            isError := Some true |}, s')
    end.

Definition typeMap (type : Z) : option string :=
  if type =? 0 then Some "None"
  else if type =? 1 then Some "Normal"
  else if type =? 2 then Some "Column"
  else if type =? 3 then Some "Row"
  else if type =? 4 then Some "Block"
  else if type =? 5 then Some "InlineShape"
  else if type =? 6 then Some "Shape"
  else if type =? 7 then Some "Frame"
  else None.

(** [`${b}`] of a boolean *)
Definition show_bool (b : bool) : string := if b then "true" else "false".

(** getSelectionInfoTool, lines 167-202. *)
Definition getSelectionInfoTool : Tool :=
  fun s =>
    match getSelectionInfo s with
    | (inr info, s') =>
        let typeStr : string :=
          match typeMap (info_type info) with
          | Some name => name
          | None => ("Unknown (" ++ show (info_type info) ++ ")")%string
          end in
        ({| content :=
              ["Selection Information:";
               ("- Text: " ++ (if String.eqb (info_text info) EmptyString then "(empty)"
                               else info_text info))%string;
               ("- Start Position: " ++ show (info_start info))%string;
               ("- End Position: " ++ show (info_end info))%string;
               ("- Is Active: " ++ show_bool (info_isActive info))%string;
               ("- Selection Type: " ++ typeStr)%string];
            isError := None |}, s')
    | (inl error, s') =>
        ({| content := [("Failed to get selection info: " ++ message error)%string];
            isError := Some true |}, s')
    end.

End ToolsRest.

(** The arguments of [find.Execute] when only the eleventh, [Replace], is given. *)
Definition execute_with (replaceOption : Z) : list value :=
  [VUndefined; VUndefined; VUndefined; VUndefined; VUndefined;
   VUndefined; VUndefined; VUndefined; VUndefined; VUndefined;
   VInt replaceOption].

(** ** An in-memory automation layer

    A property store, a table of method answers and a list of calls that
    raise.  It stands in for Word when the service is run on a concrete
    document. *)

Module Fake.

Record store : Type := Store {
  next : ref;                                          (* the next object handed out *)
  props : list (ref * string * value);                 (* o.p *)
  methods : list (ref * string * list value * value);  (* o.m(args) *)
  faults : list (event * string)                       (* calls that raise, and what *)
}.

Definition value_eqb (a b : value) : bool :=
  match a, b with
  | VUndefined, VUndefined => true
  | VBool x, VBool y => Bool.eqb x y
  | VInt x, VInt y => x =? y
  | VNum x, VNum y => PrimFloat.eqb x y
  | VStr x, VStr y => String.eqb x y
  | VObj x, VObj y => Nat.eqb x y
  | _, _ => false
  end.

Fixpoint values_eqb (a b : list value) : bool :=
  match a, b with
  | [], [] => true
  | x :: a', y :: b' => value_eqb x y && values_eqb a' b'
  | _, _ => false
  end.

Definition event_eqb (a b : event) : bool :=
  match a, b with
  | ENew x, ENew y => String.eqb x y
  | EGet o p, EGet o' p' => Nat.eqb o o' && String.eqb p p'
  | EPut o p v, EPut o' p' v' => Nat.eqb o o' && String.eqb p p' && value_eqb v v'
  | EInvoke o m xs, EInvoke o' m' xs' => Nat.eqb o o' && String.eqb m m' && values_eqb xs xs'
  | _, _ => false
  end.

(** Trailing [undefined] arguments count as left out. *)
Fixpoint supplied (args : list value) : list value :=
  match args with
  | [] => []
  | a :: rest =>
      match a, supplied rest with
      | VUndefined, [] => []
      | _, rest' => a :: rest'
      end
  end.

Fixpoint fault (e : event) (l : list (event * string)) : option string :=
  match l with
  | [] => None
  | (e', description) :: l' => if event_eqb e e' then Some description else fault e l'
  end.

Fixpoint prop (o : ref) (p : string) (l : list (ref * string * value)) : option value :=
  match l with
  | [] => None
  | (o', p', v) :: l' => if Nat.eqb o o' && String.eqb p p' then Some v else prop o p l'
  end.

Fixpoint assign (o : ref) (p : string) (v : value) (l : list (ref * string * value))
  : list (ref * string * value) :=
  match l with
  | [] => [(o, p, v)]
  | (o', p', v') :: l' =>
      if Nat.eqb o o' && String.eqb p p' then (o, p, v) :: l'
      else (o', p', v') :: assign o p v l'
  end.

Fixpoint method (o : ref) (m : string) (args : list value)
         (l : list (ref * string * list value * value)) : option value :=
  match l with
  | [] => None
  | (o', m', args', v) :: l' =>
      if Nat.eqb o o' && String.eqb m m' && values_eqb args args' then Some v
      else method o m args l'
  end.

Definition cast (t : ty) (v : value) : option (denote t) :=
  match t return option (denote t) with
  | TObj => match v with VObj r => Some (Some r) | VUndefined => Some None | _ => None end
  | TInt => match v with VInt n => Some n | _ => None end
  | TNum => match v with VNum x => Some x | _ => None end
  | TBool => match v with VBool b => Some b | _ => None end
  | TStr => match v with VStr s => Some s | _ => None end
  | TVoid => Some tt
  end.

Definition typed (t : ty) (found : option value) (missing : string) (w : store)
  : (string + denote t) * store :=
  match found with
  | Some v =>
      match cast t v with
      | Some x => (inr x, w)
      | None => (inl "Type mismatch.", w)
      end
  | None => (inl missing, w)
  end.

Definition answer (X : Type) (c : call X) (w : store) : (string + X) * store :=
  match fault (event_of c) (faults w) with
  | Some description => (inl description, w)
  | None =>
      match c in call X return (string + X) * store with
      | New _ => (inr (next w), Store (S (next w)) (props w) (methods w) (faults w))
      | Get t o p => typed t (prop o p (props w)) "Unknown name." w
      | Put o p v => (inr tt, Store (next w) (assign o p v (props w)) (methods w) (faults w))
      | Invoke t o m args =>
          typed t (method o m (supplied args) (methods w))
                "The requested member of the collection does not exist." w
      end
  end.

#[global] Instance automation : Automation store := answer.

(** A running Word with one document: one table of two rows and two
    columns, one inline picture of 100 by 200 points whose aspect ratio is
    not locked, one section with a primary header, two paragraphs. *)
Definition app : ref := 1%nat.
Definition documents : ref := 2%nat.
Definition doc : ref := 3%nat.
Definition window : ref := 4%nat.
Definition selection : ref := 5%nat.
Definition font : ref := 6%nat.
Definition content_ : ref := 7%nat.
Definition find : ref := 8%nat.
Definition replacement : ref := 9%nat.
Definition tables : ref := 10%nat.
Definition table : ref := 11%nat.
Definition rows : ref := 12%nat.
Definition row1 : ref := 13%nat.
Definition row2 : ref := 14%nat.
Definition columns : ref := 15%nat.
Definition column1 : ref := 16%nat.
Definition column2 : ref := 17%nat.
Definition cell11 : ref := 18%nat.
Definition range : ref := 19%nat.
Definition shapes : ref := 20%nat.
Definition shape : ref := 21%nat.
Definition sections : ref := 30%nat.
Definition section : ref := 31%nat.
Definition headers : ref := 32%nat.
Definition header : ref := 33%nat.
Definition paragraphs : ref := 40%nat.
Definition paragraph1 : ref := 41%nat.
Definition paragraph2 : ref := 42%nat.
Definition added : ref := 50%nat.

Definition office : store :=
  {| next := 100%nat;
     props :=
       [ (app, "Visible", VBool true);
         (app, "Documents", VObj documents);
         (documents, "Count", VInt 1);
         (app, "ActiveDocument", VObj doc);
         (doc, "ActiveWindow", VObj window);
         (window, "Selection", VObj selection);
         (selection, "Font", VObj font);
         (font, "Underline", VInt 0);
         (doc, "Content", VObj content_);
         (content_, "Find", VObj find);
         (find, "Replacement", VObj replacement);
         (doc, "Tables", VObj tables);
         (tables, "Count", VInt 1);
         (table, "Rows", VObj rows);
         (rows, "Count", VInt 2);
         (table, "Columns", VObj columns);
         (columns, "Count", VInt 2);
         (cell11, "Range", VObj range);
         (range, "Text", VStr "old");
         (doc, "InlineShapes", VObj shapes);
         (shapes, "Count", VInt 1);
         (shape, "Height", VNum 100%float);
         (shape, "Width", VNum 200%float);
         (shape, "LockAspectRatio", VInt 0);
         (doc, "Sections", VObj sections);
         (sections, "Count", VInt 1);
         (section, "Headers", VObj headers);
         (header, "Exists", VBool true);
         (header, "Range", VObj range);
         (doc, "Paragraphs", VObj paragraphs);
         (paragraphs, "Count", VInt 2);
         (paragraph1, "Range", VObj range);
         (paragraph2, "Range", VObj range) ];
     methods :=
       [ (tables, "Item", [VInt 1], VObj table);
         (rows, "Item", [VInt 1], VObj row1);
         (rows, "Item", [VInt 2], VObj row2);
         (rows, "Add", [], VObj added);
         (rows, "Add", [VObj row1], VObj added);
         (rows, "Add", [VObj row2], VObj added);
         (columns, "Item", [VInt 1], VObj column1);
         (columns, "Item", [VInt 2], VObj column2);
         (columns, "Add", [], VObj added);
         (columns, "Add", [VObj column1], VObj added);
         (columns, "Add", [VObj column2], VObj added);
         (table, "Cell", [VInt 1; VInt 1], VObj cell11);
         (table, "AutoFormat", [VStr "Table Grid"; VInt 511], VUndefined);
         (shapes, "Item", [VInt 1], VObj shape);
         (sections, "Item", [VInt 1], VObj section);
         (headers, "Item", [VInt 1], VObj header);
         (paragraphs, "Item", [VInt 1], VObj paragraph1);
         (paragraphs, "Item", [VInt 2], VObj paragraph2);
         (range, "Select", [], VUndefined);
         (selection, "Delete", [VInt 1; VInt 2], VInt 2);
         (selection, "MoveStart", [VInt 1; VInt (-2)], VInt (-2));
         (find, "ClearFormatting", [], VUndefined);
         (replacement, "ClearFormatting", [], VUndefined);
         (find, "Execute", execute_with 2, VBool false);
         (find, "Execute", execute_with 1, VBool false) ];
     faults := [] |}.

(** The service holding the running application, nothing journalled yet. *)
Definition holding (w : store) : state store :=
  {| wordApp := Some app; world := w; journal := [] |}.

(** The service before its first call. *)
Definition fresh (w : store) : state store :=
  {| wordApp := None; world := w; journal := [] |}.

(** Word cannot be started. *)
Definition not_installed : store :=
  Store 100%nat [] [] [(ENew "Word.Application", "Class not registered")].

(** Word starts and answers reads, but refuses to be made visible. *)
Definition headless : store :=
  {| next := 100%nat;
     props := [ (100%nat, "Visible", VBool false);
                (100%nat, "Documents", VObj documents);
                (documents, "Count", VInt 0) ];
     methods := [];
     faults := [(EPut 100%nat "Visible" (VBool true), "Access is denied.")] |}.

(** The Word behind the held handle is gone; a new one can be started. *)
Definition gone : store :=
  {| next := 100%nat;
     props := [];
     methods := [];
     faults := [(EGet app "Visible", "The RPC server is unavailable.")] |}.

End Fake.

(** ** An in-memory editor

    A second automation layer: one document that is a sequence of
    characters, with a selection in it.  The only unit it knows is the
    character (1).  [MoveStart] moves the start of the selection, and
    [Delete] removes the characters that follow the start of the
    selection. *)

Module Editor.

Record buffer : Type := Buffer {
  text : list ascii;
  start : nat;         (* where the selection starts *)
  stop : nat           (* where it ends *)
}.

Definition app : ref := 1%nat.
Definition documents : ref := 2%nat.
Definition doc : ref := 3%nat.
Definition window : ref := 4%nat.
Definition selection : ref := 5%nat.

Definition path (o : ref) (p : string) : option ref :=
  if Nat.eqb o app && String.eqb p "Documents" then Some documents
  else if Nat.eqb o app && String.eqb p "ActiveDocument" then Some doc
  else if Nat.eqb o doc && String.eqb p "ActiveWindow" then Some window
  else if Nat.eqb o window && String.eqb p "Selection" then Some selection
  else None.

Definition MoveStart (count : Z) (b : buffer) : buffer :=
  if count <? 0 then Buffer (text b) (start b - Z.to_nat (- count)) (stop b)
  else Buffer (text b) (Nat.min (start b + Z.to_nat count) (List.length (text b)))
              (Nat.max (stop b) (Nat.min (start b + Z.to_nat count) (List.length (text b)))).

Definition Delete (count : Z) (b : buffer) : buffer :=
  Buffer (firstn (start b) (text b) ++ skipn (start b + Z.to_nat count) (text b))
         (start b) (start b).

Definition unknown {X : Type} (b : buffer) : (string + X) * buffer :=
  (inl "Unknown name.", b).

Definition answer (X : Type) (c : call X) (b : buffer) : (string + X) * buffer :=
  match c in call X return (string + X) * buffer with
  | New _ => unknown b
  | Get t o p =>
      match t return (string + denote t) * buffer with
      | TObj => match path o p with
                | Some r => (inr (Some r), b)
                | None => unknown b
                end
      | TBool => if Nat.eqb o app && String.eqb p "Visible" then (inr true, b)
                 else unknown b
      | TInt => if Nat.eqb o documents && String.eqb p "Count" then (inr 1, b)
                else unknown b
      | _ => unknown b
      end
  | Put _ _ _ => unknown b
  | Invoke t o m args =>
      match t return (string + denote t) * buffer with
      | TVoid =>
          match args with
          | [VInt 1; VInt count] =>
              if Nat.eqb o selection && String.eqb m "MoveStart"
              then (inr tt, MoveStart count b)
              else if Nat.eqb o selection && String.eqb m "Delete"
                   then (inr tt, Delete count b)
                   else unknown b
          | _ => unknown b
          end
      | _ => unknown b
      end
  end.

#[global] Instance automation : Automation buffer := answer.


End Editor.

(** * Properties *)

(** ** Reasoning about runs of the service *)

Section Runs.
Context {W : Type} `{Automation W}.

(** In world [w] the call [c] answers [x] and leaves the world as it is. *)
Definition reads {X : Type} (w : W) (c : call X) (x : X) : Prop :=
  dispatch c w = (inr x, w).

(** The state after the calls [evs] were issued and none of them changed
    the world. *)
Definition noted (evs : list event) (s : state W) : state W :=
  State (wordApp s) (world s) (journal s ++ evs).

(** [s'] is a state reached from [s] after exactly the calls [evs]. *)
Definition issued (s s' : state W) (evs : list event) : Prop :=
  journal s' = journal s ++ evs.

(** *** Every computation of the service only adds to the journal *)

Definition extends {A : Type} (m : M W A) : Prop :=
  forall s, exists evs, issued s (snd (m s)) evs.

Lemma extends_ret {A : Type} (a : A) : extends (ret a).
Proof. intros s. exists []. unfold issued; simpl. now rewrite app_nil_r. Qed.

Lemma extends_throw {A : Type} (e : error) : extends (@throw W A e).
Proof. intros s. exists []. unfold issued; simpl. now rewrite app_nil_r. Qed.

Lemma extends_bind {A B : Type} (m : M W A) (k : A -> M W B) :
  extends m -> (forall a, extends (k a)) -> extends (bind m k).
Proof.
  intros Hm Hk s. unfold bind. destruct (Hm s) as [evs Hevs].
  destruct (m s) as [[e | a] s1]; simpl in *.
  - now exists evs.
  - destruct (Hk a s1) as [evs' Hevs']. exists (evs ++ evs').
    unfold issued in *. now rewrite Hevs', Hevs, app_assoc.
Qed.

Lemma extends_try_catch {A : Type} (m : M W A) (h : error -> M W A) :
  extends m -> (forall e, extends (h e)) -> extends (try_catch m h).
Proof.
  intros Hm Hh s. unfold try_catch. destruct (Hm s) as [evs Hevs].
  destruct (m s) as [[e | a] s1]; simpl in *.
  - destruct (Hh e s1) as [evs' Hevs']. exists (evs ++ evs').
    unfold issued in *. now rewrite Hevs', Hevs, app_assoc.
  - now exists evs.
Qed.

Lemma extends_perform {X : Type} (c : call X) : extends (perform c).
Proof.
  intros s. exists [event_of c]. unfold perform, issued.
  now destruct (dispatch c (world s)).
Qed.

Lemma extends_get_wordApp : extends get_wordApp.
Proof. intros s. exists []. unfold issued; simpl. now rewrite app_nil_r. Qed.

Lemma extends_set_wordApp (a : option ref) : extends (set_wordApp a).
Proof. intros s. exists []. unfold issued; simpl. now rewrite app_nil_r. Qed.

Lemma extends_member (o : obj) (p : string) : extends (member o p).
Proof. destruct o; [apply extends_ret | apply extends_throw]. Qed.

Lemma extends_get (t : ty) (o : obj) (p : string) : extends (get t o p).
Proof. apply extends_bind; [apply extends_member | intro; apply extends_perform]. Qed.

Lemma extends_put (o : obj) (p : string) (v : value) : extends (put o p v).
Proof. apply extends_bind; [apply extends_member | intro; apply extends_perform]. Qed.

Lemma extends_invoke (t : ty) (o : obj) (m : string) (args : list value) :
  extends (invoke t o m args).
Proof. apply extends_bind; [apply extends_member | intro; apply extends_perform]. Qed.

End Runs.

Create HintDb journal discriminated.
#[export] Hint Resolve extends_ret extends_throw extends_perform extends_get_wordApp
  extends_set_wordApp extends_member extends_get extends_put extends_invoke : journal.

(** Decompose a computation along its binds, handlers and branches. *)
Ltac extends_step :=
  match goal with
  | |- forall _, _ => intro
  | |- extends (bind _ _) => apply extends_bind
  | |- extends (try_catch _ _) => apply extends_try_catch
  | |- extends (if ?b then _ else _) => destruct b
  | |- extends (match ?x with _ => _ end) => destruct x
  | |- extends (get ?t ?o ?p) => exact (extends_get t o p)
  | |- extends (put ?o ?p ?v) => exact (extends_put o p v)
  | |- extends (invoke ?t ?o ?m ?args) => exact (extends_invoke t o m args)
  | |- extends _ => solve [auto with journal]
  end.

Ltac extends_tac := repeat extends_step.

Section Extends.
Context {W : Type} `{Automation W}.

Lemma extends_getWordApplication : extends getWordApplication.
Proof. unfold getWordApplication, acquire, create, probe, new_object. extends_tac. Qed.

Lemma extends_getActiveDocument : extends getActiveDocument.
Proof.
  unfold getActiveDocument. pose proof extends_getWordApplication. extends_tac.
Qed.

End Extends.

#[export] Hint Resolve extends_getWordApplication extends_getActiveDocument : journal.

(** Run a computation symbolically: unfold the monad, and answer each call
    from the hypotheses about the automation layer. *)
Ltac run_step :=
  match goal with
  | E : dispatch ?c ?w = _ |- context [dispatch ?c ?w] => rewrite E
  end.

Ltac run :=
  repeat (cbv [bind ret throw try_catch get put invoke member perform get_wordApp
                 set_wordApp new_object world wordApp journal event_of lazy_or
                 Count Item Selection probe create acquire noted issued fst snd];
          try run_step).

(** Settle the integer comparisons of a guard from the arithmetic context. *)
Ltac settle :=
  repeat match goal with
    | |- context [?a >? ?b] => rewrite (Z.gtb_ltb a b)
    | |- context [?a >=? ?b] => rewrite (Z.geb_leb a b)
    | |- context [?a <=? ?b] =>
        first [ rewrite (proj2 (Z.leb_le a b)) by lia
              | rewrite (proj2 (Z.leb_gt a b)) by lia ]
    | |- context [?a <? ?b] =>
        first [ rewrite (proj2 (Z.ltb_lt a b)) by lia
              | rewrite (proj2 (Z.ltb_ge a b)) by lia ]
    | |- context [?a =? ?b] =>
        first [ rewrite (proj2 (Z.eqb_eq a b)) by lia
              | rewrite (proj2 (Z.eqb_neq a b)) by lia ]
    end.

(** Follow every answer the automation layer may give to the remaining calls. *)
Ltac explore :=
  repeat (run;
          try match goal with
            | |- context [dispatch ?c ?w] =>
                let E := fresh "E" in
                destruct (dispatch c w) as [[?|?] ?] eqn:E
            | |- context [match ?x with Some _ => _ | None => _ end] =>
                is_var x; destruct x
            end).

(** Bring a journal into the form [j ++ [e1; ...; en]]. *)
Ltac journal_norm := rewrite <- ?app_assoc; cbn [app].

Section Handle.
Context {W : Type} `{Automation W}.

(** What the handler of a method throws when the call [c] raised
    [description]: [`${failure}${error}`] with [failure] ending in
    [Error: ]. *)
Definition wrapped (failure description : string) : error :=
  Error (failure ++ to_string (Error description)).

Definition outcome {X : Type} (failure : string) (a : string + X) : error + X :=
  match a with
  | inl description => inl (wrapped failure description)
  | inr x => inr x
  end.

(** *** The application handle *)

Definition live (w : W) (app documents : ref) : Prop :=
  (exists visible, reads w (Get TBool app "Visible") visible) /\
  reads w (Get TObj app "Documents") (Some documents) /\
  (exists count, reads w (Get TInt documents "Count") count).

Definition probing (app documents : ref) : list event :=
  [EGet app "Visible"; EGet app "Documents"; EGet documents "Count"].

Lemma probe_live (s : state W) (app documents : ref) :
  live (world s) app documents ->
  probe app s = (inr tt, noted (probing app documents) s).
Proof.
  intros ([visible Hv] & Hd & [count Hc]). unfold reads in *.
  destruct s as [held w j]; cbn [wordApp world journal] in *.
  unfold probing. run. now journal_norm.
Qed.

Lemma getWordApplication_live (s : state W) (app documents : ref) :
  wordApp s = Some app -> live (world s) app documents ->
  getWordApplication s = (inr app, noted (probing app documents) s).
Proof.
  intros Happ Hlive. unfold getWordApplication.
  cbv [bind get_wordApp try_catch]. rewrite Happ.
  cbv [bind]. rewrite (probe_live _ _ _ Hlive). reflexivity.
Qed.

(** With no handle held, acquisition is creation. *)
Lemma getWordApplication_unset (s : state W) :
  wordApp s = None -> getWordApplication s = acquire s.
Proof.
  intros Hnone. unfold getWordApplication. cbv [bind get_wordApp]. now rewrite Hnone.
Qed.

(** When the probe of the held handle throws, the handle is dropped and
    acquisition is creation, from the state the probe left. *)
Lemma getWordApplication_stale (s s1 : state W) (stale : ref) (e : error) :
  wordApp s = Some stale -> probe stale s = (inl e, s1) ->
  getWordApplication s = acquire (State None (world s1) (journal s1)).
Proof.
  intros Hheld Hprobe. unfold getWordApplication.
  cbv [bind get_wordApp try_catch]. rewrite Hheld.
  cbv [bind]. rewrite Hprobe. reflexivity.
Qed.

(** Creation, answer by answer. *)
Lemma acquire_refused (s : state W) (description : string) (w : W) :
  dispatch (New "Word.Application") (world s) = (inl description, w) ->
  acquire s =
    (inl (initialization_failure (Error description)),
     State (wordApp s) w (journal s ++ [ENew "Word.Application"])).
Proof. intros E. destruct s as [held w0 j]. cbn [world] in E. now run. Qed.

Lemma acquire_created (s : state W) (app : ref) (w1 w2 : W) (a : string + unit) :
  dispatch (New "Word.Application") (world s) = (inr app, w1) ->
  dispatch (Put app "Visible" (VBool true)) w1 = (a, w2) ->
  acquire s =
    (match a with
     | inl description => inl (initialization_failure (Error description))
     | inr _ => inr app
     end,
     State (Some app) w2
           (journal s ++ [ENew "Word.Application"; EPut app "Visible" (VBool true)])).
Proof.
  intros E1 E2. destruct s as [held w0 j]. cbn [world] in E1.
  run. destruct a; now journal_norm.
Qed.

End Handle.

(** ** Every operation of the service leaves a trace *)

Section Speaks.
Context {W : Type} `{Automation W}.

(** [m] issues at least one call, whatever the automation layer answers. *)
Definition speaks {A : Type} (m : M W A) : Prop :=
  forall s, exists e evs, issued s (snd (m s)) (e :: evs).

Lemma speaks_bind {A B : Type} (m : M W A) (k : A -> M W B) :
  speaks m -> (forall a, extends (k a)) -> speaks (bind m k).
Proof.
  intros Hm Hk s. unfold bind. destruct (Hm s) as (e & evs & Hevs).
  destruct (m s) as [[err | a] s1]; simpl in *.
  - now exists e, evs.
  - destruct (Hk a s1) as [evs' Hevs']. exists e, (evs ++ evs').
    unfold issued in *. rewrite Hevs', Hevs. now rewrite <- app_assoc.
Qed.

Lemma speaks_getWordApplication : speaks getWordApplication.
Proof.
  intros [[held|] w j]; unfold getWordApplication; explore;
    eexists; eexists; journal_norm; reflexivity.
Qed.

Lemma speaks_getActiveDocument : speaks getActiveDocument.
Proof.
  unfold getActiveDocument. apply speaks_bind.
  - apply speaks_getWordApplication.
  - extends_tac.
Qed.

Lemma speaks_changes {A : Type} (m : M W A) (s : state W) :
  speaks m -> journal (snd (m s)) <> journal s.
Proof.
  intros Hm. destruct (Hm s) as (e & evs & Hevs). unfold issued in Hevs.
  rewrite Hevs. intros Heq. rewrite <- (app_nil_r (journal s)) in Heq at 2.
  apply app_inv_head in Heq. discriminate.
Qed.

Lemma speaks_setInlinePictureSize (shapeIndex : Z) (heightPoints widthPoints : float)
      (lockAspectRatio : bool) :
  speaks (setInlinePictureSize shapeIndex heightPoints widthPoints lockAspectRatio).
Proof.
  unfold setInlinePictureSize. apply speaks_bind.
  - apply speaks_getActiveDocument.
  - unfold lazy_or, Count, Item. extends_tac.
Qed.

End Speaks.

(** ** Tool handlers *)

Section ToolProperties.
Context {W : Type} `{Automation W}.

(** C10.  Whatever the shape index, when neither the requested height nor
    the requested width is positive ([heightPoints <= 0] and
    [widthPoints <= 0]) the word_setInlinePictureSize handler answers with
    its no-size-change text, flagged as not an error, in the very state it
    was called in: the service is not called, so the index is never
    checked and no out-of-bounds error can arise.  (A call of the service
    would have shown: it always leaves at least one call in the
    journal.) *)
Theorem setInlinePictureSizeTool_without_size
        (s : state W) (shapeIndex : Z) (heightPoints widthPoints : float)
        (lockAspectRatio : bool) :
  le heightPoints 0 = true ->
  le widthPoints 0 = true ->
  setInlinePictureSizeTool shapeIndex heightPoints widthPoints lockAspectRatio s =
    ({| content := ["No size change specified (height and width were not positive values)."];
        isError := Some false |}, s)
  /\ journal (snd (setInlinePictureSize shapeIndex heightPoints widthPoints lockAspectRatio s))
     <> journal s.
Proof.
  intros Hh Hw. split.
  - unfold setInlinePictureSizeTool. now rewrite Hh, Hw.
  - apply speaks_changes, speaks_setInlinePictureSize.
Qed.

(** C7.  When the find-and-replace of the service returns (no exception),
    the handler's result is flagged as an error exactly when replaceAll was
    requested and the returned value says nothing was found; with
    replaceAll false it is never flagged.  The returned value is the
    answer of [find.Execute], called last, with [Replace] set to 2
    (replace all) or 1 (replace one). *)
Theorem findReplaceTool_flags_unmatched_replaceAll
        (s s' : state W) (findText replaceText : string)
        (matchCase matchWholeWord replaceAll found : bool) :
  findAndReplace findText replaceText matchCase matchWholeWord replaceAll s = (inr found, s') ->
  let result := findReplaceTool findText replaceText matchCase matchWholeWord replaceAll s in
  snd result = s'
  /\ (flagged (fst result) <-> replaceAll = true /\ found = false)
  /\ (replaceAll = false -> ~ flagged (fst result))
  /\ exists (find : ref) (w : W) (before : list event),
      dispatch (Invoke TBool find "Execute" (execute_with (if replaceAll then 2 else 1))) w
        = (inr found, world s')
      /\ journal s'
         = before ++ [EInvoke find "Execute" (execute_with (if replaceAll then 2 else 1))].
Proof.
  intros Hrun. cbv zeta. unfold findReplaceTool. rewrite Hrun. cbn [fst snd].
  unfold flagged; cbn [isError].
  split; [reflexivity|]. split; [split|]; [| |split].
  - intros Hflag. injection Hflag as Hflag.
    apply andb_true_iff in Hflag as [Hfound Hall]. apply negb_true_iff in Hfound. tauto.
  - intros [-> ->]. reflexivity.
  - intros -> Hflag. destruct found; discriminate.
  - revert Hrun. unfold findAndReplace. cbv [bind].
    destruct (getActiveDocument s) as [[e | doc] [held w j]]; [discriminate|].
    explore; intros Hrun; try discriminate Hrun.
    injection Hrun as -> <-.
    match goal with
    | E : dispatch (Invoke TBool ?find "Execute" _) ?w0 = (inr found, ?w1) |- _ =>
        exists find, w0
    end.
    eexists. split; [eassumption | reflexivity].
Qed.

End ToolProperties.

(** ** The application handle *)

Section HandleProperties.
Context {W : Type} `{Automation W}.

(** Control reaches the creation of a new application in state [s0]:
    either no handle was held, or the probe of the held handle threw and
    the handle was dropped. *)
Definition reaches_creation (s s0 : state W) : Prop :=
  (wordApp s = None /\ s0 = s)
  \/ (exists stale e s1,
         wordApp s = Some stale /\ probe stale s = (inl e, s1)
         /\ s0 = State None (world s1) (journal s1)).

Lemma reaches_creation_acquire (s s0 : state W) :
  reaches_creation s s0 -> getWordApplication s = acquire s0 /\ wordApp s0 = None.
Proof.
  intros [[Hnone ->] | (stale & e & s1 & Hheld & Hprobe & ->)].
  - split; [now apply getWordApplication_unset | assumption].
  - split; [now apply (getWordApplication_stale s s1 stale e) | reflexivity].
Qed.

Lemma acquire_starts_with_New (s : state W) :
  exists evs, issued s (snd (acquire s)) (ENew "Word.Application" :: evs).
Proof.
  destruct s as [held w j]. explore; eexists; journal_norm; reflexivity.
Qed.

(** When control reaches the creation of the application object and that
    creation throws, getWordApplication throws the initialization error
    whose message ends with the rendering of the cause, the stored handle
    is null afterwards, and the next call starts over with a creation. *)
Lemma refused_creation_leaves_handle_unset
        (s s0 : state W) (description : string) (w : W) :
  reaches_creation s s0 ->
  dispatch (New "Word.Application") (world s0) = (inl description, w) ->
  let s' := State None w (journal s0 ++ [ENew "Word.Application"]) in
  getWordApplication s =
    (inl (Error ("Failed to initialize Word.Application. Make sure Microsoft Word is installed. Error: Error: "
                   ++ description)), s')
  /\ getWordApplication s' = acquire s'
  /\ exists evs, issued s' (snd (getWordApplication s')) (ENew "Word.Application" :: evs).
Proof.
  intros Hreach Hnew s'.
  destruct (reaches_creation_acquire s s0 Hreach) as [Hacquire Hnone].
  assert (Hnext : getWordApplication s' = acquire s')
    by (now apply getWordApplication_unset).
  split; [| split].
  - rewrite Hacquire, (acquire_refused s0 description w Hnew), Hnone. reflexivity.
  - exact Hnext.
  - rewrite Hnext. apply acquire_starts_with_New.
Qed.

(** The probe makes nothing but lookups, the first of them the read of
    [Visible]. *)
Lemma probe_looks_up (s s1 : state W) (app : ref) (r : error + unit) :
  probe app s = (r, s1) ->
  wordApp s1 = wordApp s
  /\ exists evs, issued s s1 (EGet app "Visible" :: evs) /\ forallb is_lookup evs = true.
Proof.
  destruct s as [held w j]. explore; intros Hrun; injection Hrun as <- <-;
    (split; [reflexivity |]); eexists; (split; [journal_norm; reflexivity | reflexivity]).
Qed.

(** C3.  The service stores at most one handle ([wordApp] is its only
    field).  While the held handle answers the probe (Visible, then
    Documents, then its Count), getWordApplication returns it and creates
    nothing.  When the probe throws, having made nothing but lookups, the
    handle is dropped first and what follows is the creation run with no
    handle held; when the creation succeeds, the call returns the handle
    the automation layer just created and stores exactly that one; and
    whatever handle the call returns is one created in this call, after
    the probe. *)
Theorem stale_handle_is_replaced (s : state W) (held : ref) :
  wordApp s = Some held ->
  (forall documents : ref,
      live (world s) held documents ->
      getWordApplication s = (inr held, noted (probing held documents) s))
  /\ (forall (e : error) (s1 : state W),
         probe held s = (inl e, s1) ->
         (exists evs, issued s s1 (EGet held "Visible" :: evs)
                      /\ forallb is_lookup evs = true)
         /\ getWordApplication s = acquire (State None (world s1) (journal s1))
         /\ (forall (created : ref) (w1 w2 : W),
                dispatch (New "Word.Application") (world s1) = (inr created, w1) ->
                dispatch (Put created "Visible" (VBool true)) w1 = (inr tt, w2) ->
                getWordApplication s =
                  (inr created,
                   State (Some created) w2
                         (journal s1
                            ++ [ENew "Word.Application";
                                EPut created "Visible" (VBool true)])))
         /\ (forall (returned : ref) (s' : state W),
                getWordApplication s = (inr returned, s') ->
                wordApp s' = Some returned
                /\ exists w1,
                    dispatch (New "Word.Application") (world s1) = (inr returned, w1))).
Proof.
  intros Hheld. split.
  - intros documents Hlive. now apply getWordApplication_live.
  - intros e s1 Hprobe.
    pose proof (getWordApplication_stale s s1 held e Hheld Hprobe) as Hacquire.
    split; [exact (proj2 (probe_looks_up s s1 held (inl e) Hprobe)) |].
    split; [exact Hacquire | split].
    + intros created w1 w2 Hnew Hvisible. rewrite Hacquire.
      now rewrite (acquire_created (State None (world s1) (journal s1))
                                   created w1 w2 (inr tt) Hnew Hvisible).
    + intros returned s'. rewrite Hacquire. destruct s1 as [held1 w1 j1].
      explore; intros Hrun; try discriminate Hrun.
      injection Hrun as <- <-. split; [reflexivity | now eexists].
Qed.

End HandleProperties.

(** ** Text operations *)

Section TextProperties.
Context {W : Type} `{Automation W}.

(** In world [w] the path [app.ActiveDocument.ActiveWindow.Selection]
    leads to [selection]. *)
Definition selected (w : W) (app doc window selection : ref) : Prop :=
  reads w (Get TObj app "ActiveDocument") (Some doc) /\
  reads w (Get TObj doc "ActiveWindow") (Some window) /\
  reads w (Get TObj window "Selection") (Some selection).

Definition selecting (app doc window : ref) : list event :=
  [EGet app "ActiveDocument"; EGet doc "ActiveWindow"; EGet window "Selection"].

(** The selection's font is [font] and its underline style reads
    [current]. *)
Definition underlined (w : W) (app doc window selection font : ref) (current : Z) : Prop :=
  selected w app doc window selection /\
  reads w (Get TObj selection "Font") (Some font) /\
  reads w (Get TInt font "Underline") current.

(** The calls of one toggleUnderline that writes [v]. *)
Definition toggling (app doc window selection font : ref) (v : Z) : list event :=
  selecting app doc window
    ++ [EGet selection "Font"; EGet font "Underline"; EPut font "Underline" (VInt v)].

Lemma toggleUnderline_writes (s s1 : state W) (app doc window selection font : ref)
      (current style : Z) (a : string + unit) (w' : W) :
  getWordApplication s = (inr app, s1) ->
  underlined (world s1) app doc window selection font current ->
  dispatch (Put font "Underline" (VInt (if current =? style then 0 else style))) (world s1)
    = (a, w') ->
  toggleUnderline style s =
    (outcome "Failed to toggle underline formatting. Error: " a,
     State (wordApp s1) w'
           (journal s1 ++ toggling app doc window selection font
                                   (if current =? style then 0 else style))).
Proof.
  intros Hacq ((Hd & Hw & Hs) & Hf & Hu) Hput. unfold reads in *.
  destruct s1 as [held w j]; cbn [world wordApp journal] in *.
  unfold toggleUnderline. cbv [bind]. rewrite Hacq. run.
  destruct (current =? style); run; destruct a; journal_norm; reflexivity.
Qed.

(** C6.  With the selection's underline style reading [current]:
    toggleUnderline with that same style writes 0 (none) and nothing
    else; with any other style it writes that style, so it switches styles
    without toggling off.  Hence two calls in a row with one style,
    starting from no underline: the first writes the style, and once the
    style reads back, the second writes 0. *)
Theorem toggleUnderline_toggles
        (s s1 : state W) (app doc window selection font : ref) (current : Z) :
  getWordApplication s = (inr app, s1) ->
  underlined (world s1) app doc window selection font current ->
  (forall (a : string + unit) (w' : W),
      dispatch (Put font "Underline" (VInt 0)) (world s1) = (a, w') ->
      toggleUnderline current s =
        (outcome "Failed to toggle underline formatting. Error: " a,
         State (wordApp s1) w' (journal s1 ++ toggling app doc window selection font 0)))
  /\ (forall (style : Z) (a : string + unit) (w' : W),
         style <> current ->
         dispatch (Put font "Underline" (VInt style)) (world s1) = (a, w') ->
         toggleUnderline style s =
           (outcome "Failed to toggle underline formatting. Error: " a,
            State (wordApp s1) w'
                  (journal s1 ++ toggling app doc window selection font style)))
  /\ (current = 0 ->
      forall (style : Z) (w1 : W) (s2 : state W)
             (app2 doc2 window2 selection2 font2 : ref) (a : string + unit) (w2 : W),
        dispatch (Put font "Underline" (VInt style)) (world s1) = (inr tt, w1) ->
        let once :=
          State (wordApp s1) w1
                (journal s1 ++ toggling app doc window selection font style) in
        getWordApplication once = (inr app2, s2) ->
        underlined (world s2) app2 doc2 window2 selection2 font2 style ->
        dispatch (Put font2 "Underline" (VInt 0)) (world s2) = (a, w2) ->
        toggleUnderline style s = (inr tt, once)
        /\ toggleUnderline style once =
             (outcome "Failed to toggle underline formatting. Error: " a,
              State (wordApp s2) w2
                    (journal s2 ++ toggling app2 doc2 window2 selection2 font2 0))).
Proof.
  intros Hacq Hfont. split; [| split].
  - intros a w' Hput.
    pose proof (toggleUnderline_writes s s1 app doc window selection font
                  current current a w' Hacq Hfont) as Hrun.
    rewrite Z.eqb_refl in Hrun. now apply Hrun.
  - intros style a w' Hneq Hput.
    pose proof (toggleUnderline_writes s s1 app doc window selection font
                  current style a w' Hacq Hfont) as Hrun.
    rewrite (proj2 (Z.eqb_neq current style)) in Hrun by congruence. now apply Hrun.
  - intros -> style w1 s2 app2 doc2 window2 selection2 font2 a w2 Hput once Hacq2 Hfont2 Hput2.
    split.
    + pose proof (toggleUnderline_writes s s1 app doc window selection font
                    0 style (inr tt) w1 Hacq Hfont) as Hrun.
      destruct (Z.eqb_spec 0 style) as [<- | Hneq]; now apply Hrun.
    + pose proof (toggleUnderline_writes once s2 app2 doc2 window2 selection2 font2
                    style style a w2 Hacq2 Hfont2) as Hrun.
      rewrite Z.eqb_refl in Hrun. now apply Hrun.
Qed.


End TextProperties.

(** ** Deleting on the in-memory editor *)





(** ** Out-of-range errors *)

(** [needle] occurs in [hay]. *)
Fixpoint contains (needle hay : string) : bool :=
  String.prefix needle hay
  || match hay with
     | EmptyString => false
     | String _ rest => contains needle rest
     end.

(** An out-of-range error is one whose message says that an index is out
    of bounds: the messages [out_of_bounds] and
    [out_of_bounds_for_insertion] build, however often rewrapped. *)
Definition out_of_range (message : string) : bool :=
  contains "is out of bounds" message.

Lemma contains_app_r (needle a b : string) :
  contains needle b = true -> contains needle (a ++ b) = true.
Proof.
  intros Hb. induction a as [| c a IH]; [exact Hb|].
  cbn [append contains]. rewrite IH. apply orb_true_r.
Qed.

Lemma out_of_range_out_of_bounds (pre what : string) (index : Z) :
  out_of_range (pre ++ out_of_bounds what index) = true.
Proof.
  unfold out_of_range, out_of_bounds. repeat apply contains_app_r. reflexivity.
Qed.

Lemma out_of_range_out_of_bounds_for_insertion (pre what : string) (index : Z) :
  out_of_range (pre ++ out_of_bounds_for_insertion what index) = true.
Proof.
  unfold out_of_range, out_of_bounds_for_insertion. repeat apply contains_app_r. reflexivity.
Qed.

(** ** Collections and 1-based indices *)

(** Alternate symbolic running and the settling of guards. *)
Ltac go := repeat (progress (run; settle)).

Section Collections.
Context {W : Type} `{Automation W}.

(** In world [w], [owner.name] is the collection [items] of [count]
    elements. *)
Definition collection (w : W) (owner : ref) (name : string) (items : ref) (count : Z) : Prop :=
  reads w (Get TObj owner name) (Some items) /\
  reads w (Get TInt items "Count") count.

(** In world [w], [items.Item(index)] is [x]. *)
Definition element (w : W) (items : ref) (index : Z) (x : ref) : Prop :=
  reads w (Invoke TObj items "Item" [VInt index]) (Some x).

(** The calls that check [index] against [owner.name.Count] and then
    resolve [owner.name.Item(index)]. *)
Definition checking (owner : ref) (name : string) (items : ref) : list event :=
  [EGet owner name; EGet items "Count"].

Definition resolving (owner : ref) (name : string) (items : ref) (index : Z) : list event :=
  checking owner name items ++ [EGet owner name; EInvoke items "Item" [VInt index]].

End Collections.

(** ** Inline pictures *)

Section ImageProperties.
Context {W : Type} `{Automation W}.

(** The state of setInlinePictureSize after the shape was resolved, its
    size read and its LockAspectRatio written. *)
Definition locked (s1 : state W) (doc shapes shape : ref) (shapeIndex : Z)
           (lockAspectRatio : bool) (w1 : W) : state W :=
  State (wordApp s1) w1
        (journal s1 ++ resolving doc "InlineShapes" shapes shapeIndex
           ++ [EGet shape "Height"; EGet shape "Width";
               EPut shape "LockAspectRatio" (VInt (if lockAspectRatio then -1 else 0))]).

(** The shape [shapeIndex] of the active document is [shape], of size
    [originalHeight] by [originalWidth], and writing its LockAspectRatio
    leads to world [w1]. *)
Definition sizable (s1 : state W) (doc shapes shape : ref) (shapeIndex : Z)
           (originalHeight originalWidth : float) (lockAspectRatio : bool) (w1 : W) : Prop :=
  (exists count, collection (world s1) doc "InlineShapes" shapes count
                 /\ 1 <= shapeIndex <= count)
  /\ element (world s1) shapes shapeIndex shape
  /\ reads (world s1) (Get TNum shape "Height") originalHeight
  /\ reads (world s1) (Get TNum shape "Width") originalWidth
  /\ dispatch (Put shape "LockAspectRatio" (VInt (if lockAspectRatio then -1 else 0)))
              (world s1) = (inr tt, w1).

(** What is left of setInlinePictureSize at that point: the branches on
    the requested size. *)
Lemma setInlinePictureSize_sizable
      (s s1 : state W) (doc shapes shape : ref) (shapeIndex : Z)
      (originalHeight originalWidth heightPoints widthPoints : float)
      (lockAspectRatio : bool) (w1 : W) :
  getActiveDocument s = (inr doc, s1) ->
  sizable s1 doc shapes shape shapeIndex originalHeight originalWidth lockAspectRatio w1 ->
  setInlinePictureSize shapeIndex heightPoints widthPoints lockAspectRatio s =
    try_catch
      (if gt heightPoints 0 && gt widthPoints 0 then
         if lockAspectRatio then
           if gt (PrimFloat.div widthPoints originalWidth)
                 (PrimFloat.div heightPoints originalHeight)
           then put (Some shape) "Width" (VNum widthPoints)
           else put (Some shape) "Height" (VNum heightPoints)
         else
           put (Some shape) "Height" (VNum heightPoints) ;;
           put (Some shape) "Width" (VNum widthPoints)
       else if gt heightPoints 0 then put (Some shape) "Height" (VNum heightPoints)
       else if gt widthPoints 0 then put (Some shape) "Width" (VNum widthPoints)
       else ret tt)
      (fun error => throw (Error ("Failed to set inline picture size. Error: "
                                    ++ to_string error)))
      (locked s1 doc shapes shape shapeIndex lockAspectRatio w1).
Proof.
  intros Hdoc ((count & (Hshapes & Hcount) & Hrange) & Hitem & Hheight & Hwidth & Hlock).
  unfold element, reads, locked, resolving, checking in *.
  destruct s1 as [held w j]; cbn [world wordApp journal] in *.
  unfold setInlinePictureSize. cbv [bind]. rewrite Hdoc. go.
  cbv [try_catch]. journal_norm. reflexivity.
Qed.

Lemma put_answer (s : state W) (shape : ref) (p : string) (v : value)
      (a : string + unit) (w : W) :
  dispatch (Put shape p v) (world s) = (a, w) ->
  try_catch (put (Some shape) p v)
            (fun error => throw (Error ("Failed to set inline picture size. Error: "
                                          ++ to_string error))) s
  = (outcome "Failed to set inline picture size. Error: " a,
     State (wordApp s) w (journal s ++ [EPut shape p v])).
Proof.
  intros Hput. destruct s as [held w0 j]; cbn [world] in *. run. now destruct a.
Qed.

(** C5.  With both requested dimensions positive and the aspect ratio
    locked, on a shape of original size [originalHeight] by
    [originalWidth]: when widthPoints / originalWidth > heightPoints /
    originalHeight the one size property written is Width, with exactly
    widthPoints; otherwise it is Height, with exactly heightPoints.  The
    other dimension is not written by the service. *)
Theorem setInlinePictureSize_locked_writes_dominant
        (s s1 : state W) (doc shapes shape : ref) (shapeIndex : Z)
        (originalHeight originalWidth heightPoints widthPoints : float) (w1 : W) :
  getActiveDocument s = (inr doc, s1) ->
  sizable s1 doc shapes shape shapeIndex originalHeight originalWidth true w1 ->
  gt heightPoints 0 = true ->
  gt widthPoints 0 = true ->
  (gt (PrimFloat.div widthPoints originalWidth)
      (PrimFloat.div heightPoints originalHeight) = true ->
   forall (a : string + unit) (w2 : W),
     dispatch (Put shape "Width" (VNum widthPoints)) w1 = (a, w2) ->
     setInlinePictureSize shapeIndex heightPoints widthPoints true s =
       (outcome "Failed to set inline picture size. Error: " a,
        State (wordApp s1) w2
              (journal (locked s1 doc shapes shape shapeIndex true w1)
                 ++ [EPut shape "Width" (VNum widthPoints)])))
  /\ (gt (PrimFloat.div widthPoints originalWidth)
         (PrimFloat.div heightPoints originalHeight) = false ->
      forall (a : string + unit) (w2 : W),
        dispatch (Put shape "Height" (VNum heightPoints)) w1 = (a, w2) ->
        setInlinePictureSize shapeIndex heightPoints widthPoints true s =
          (outcome "Failed to set inline picture size. Error: " a,
           State (wordApp s1) w2
                 (journal (locked s1 doc shapes shape shapeIndex true w1)
                    ++ [EPut shape "Height" (VNum heightPoints)]))).
Proof.
  intros Hdoc Hshape Hh Hw.
  split; intros Hratio a w2 Hput;
    rewrite (setInlinePictureSize_sizable s s1 doc shapes shape shapeIndex
               originalHeight originalWidth heightPoints widthPoints true w1 Hdoc Hshape);
    rewrite Hh, Hw, Hratio; cbn [andb];
    now rewrite (put_answer (locked s1 doc shapes shape shapeIndex true w1) _ _ _ a w2 Hput).
Qed.

(** C9, as amended.  With a valid shape index: when exactly one requested
    dimension is positive, that dimension is the one size property
    written; when neither is positive, neither Height nor Width is
    written and the operation succeeds.  In each case the shape's
    LockAspectRatio has been written before (-1 for a locked ratio, 0
    otherwise). *)
Theorem setInlinePictureSize_writes_positive_dimension
        (s s1 : state W) (doc shapes shape : ref) (shapeIndex : Z)
        (originalHeight originalWidth heightPoints widthPoints : float)
        (lockAspectRatio : bool) (w1 : W) :
  getActiveDocument s = (inr doc, s1) ->
  sizable s1 doc shapes shape shapeIndex originalHeight originalWidth lockAspectRatio w1 ->
  (gt heightPoints 0 = true -> gt widthPoints 0 = false ->
   forall (a : string + unit) (w2 : W),
     dispatch (Put shape "Height" (VNum heightPoints)) w1 = (a, w2) ->
     setInlinePictureSize shapeIndex heightPoints widthPoints lockAspectRatio s =
       (outcome "Failed to set inline picture size. Error: " a,
        State (wordApp s1) w2
              (journal (locked s1 doc shapes shape shapeIndex lockAspectRatio w1)
                 ++ [EPut shape "Height" (VNum heightPoints)])))
  /\ (gt heightPoints 0 = false -> gt widthPoints 0 = true ->
      forall (a : string + unit) (w2 : W),
        dispatch (Put shape "Width" (VNum widthPoints)) w1 = (a, w2) ->
        setInlinePictureSize shapeIndex heightPoints widthPoints lockAspectRatio s =
          (outcome "Failed to set inline picture size. Error: " a,
           State (wordApp s1) w2
                 (journal (locked s1 doc shapes shape shapeIndex lockAspectRatio w1)
                    ++ [EPut shape "Width" (VNum widthPoints)])))
  /\ (gt heightPoints 0 = false -> gt widthPoints 0 = false ->
      setInlinePictureSize shapeIndex heightPoints widthPoints lockAspectRatio s =
        (inr tt, locked s1 doc shapes shape shapeIndex lockAspectRatio w1)).
Proof.
  intros Hdoc Hshape.
  pose proof (setInlinePictureSize_sizable s s1 doc shapes shape shapeIndex
                originalHeight originalWidth heightPoints widthPoints lockAspectRatio w1
                Hdoc Hshape) as Hrun.
  split; [| split].
  - intros Hh Hw a w2 Hput. rewrite Hrun, Hh, Hw. cbn [andb].
    now rewrite (put_answer (locked s1 doc shapes shape shapeIndex lockAspectRatio w1)
                            _ _ _ a w2 Hput).
  - intros Hh Hw a w2 Hput. rewrite Hrun, Hh, Hw. cbn [andb].
    now rewrite (put_answer (locked s1 doc shapes shape shapeIndex lockAspectRatio w1)
                            _ _ _ a w2 Hput).
  - intros Hh Hw. rewrite Hrun, Hh, Hw. reflexivity.
Qed.

End ImageProperties.

(** ** Tables *)

Section TableProperties.
Context {W : Type} `{Automation W}.

(** Table [tableIndex] of the active document is [table], and its rows are
    the collection [rows] of [count] elements. *)
Definition table_rows (w : W) (doc tables table rows : ref) (tableIndex count : Z) : Prop :=
  (exists tableCount, collection w doc "Tables" tables tableCount
                      /\ 1 <= tableIndex <= tableCount)
  /\ element w tables tableIndex table
  /\ collection w table "Rows" rows count
  /\ 0 <= count.

(** C8.  On a table of N rows: insertTableRow with beforeRowIndex omitted
    calls [Rows.Add()]; with beforeRowIndex = N + 1 it resolves no
    reference row and calls [Rows.Add(undefined)]; where the automation
    layer treats an undefined argument as an omitted one, the two calls of
    the service return the same and leave the same world and handle (the
    second only makes more lookups).  With 1 <= beforeRowIndex <= N the
    row at that index is resolved and passed to [Rows.Add] as the row to
    insert before. *)
Theorem insertTableRow_positions
        (s s1 : state W) (doc tables table rows : ref) (tableIndex N : Z) :
  getActiveDocument s = (inr doc, s1) ->
  table_rows (world s1) doc tables table rows tableIndex N ->
  (forall (a : string + obj) (w' : W),
      dispatch (Invoke TObj rows "Add" []) (world s1) = (a, w') ->
      insertTableRow tableIndex None s =
        (outcome "Failed to insert table row. Error: " a,
         State (wordApp s1) w'
               (journal s1 ++ resolving doc "Tables" tables tableIndex
                  ++ [EGet table "Rows"; EInvoke rows "Add" []])))
  /\ (forall (a : string + obj) (w' : W),
         dispatch (Invoke TObj rows "Add" [VUndefined]) (world s1) = (a, w') ->
         insertTableRow tableIndex (Some (N + 1)) s =
           (outcome "Failed to insert table row. Error: " a,
            State (wordApp s1) w'
                  (journal s1 ++ resolving doc "Tables" tables tableIndex
                     ++ checking table "Rows" rows ++ checking table "Rows" rows
                     ++ [EGet table "Rows"; EInvoke rows "Add" [VUndefined]])))
  /\ (dispatch (Invoke TObj rows "Add" [VUndefined]) (world s1)
        = dispatch (Invoke TObj rows "Add" []) (world s1) ->
      fst (insertTableRow tableIndex (Some (N + 1)) s) = fst (insertTableRow tableIndex None s)
      /\ world (snd (insertTableRow tableIndex (Some (N + 1)) s))
         = world (snd (insertTableRow tableIndex None s))
      /\ wordApp (snd (insertTableRow tableIndex (Some (N + 1)) s))
         = wordApp (snd (insertTableRow tableIndex None s)))
  /\ (forall (beforeRowIndex : Z) (refRow : ref) (a : string + obj) (w' : W),
         1 <= beforeRowIndex <= N ->
         element (world s1) rows beforeRowIndex refRow ->
         dispatch (Invoke TObj rows "Add" [VObj refRow]) (world s1) = (a, w') ->
         insertTableRow tableIndex (Some beforeRowIndex) s =
           (outcome "Failed to insert table row. Error: " a,
            State (wordApp s1) w'
                  (journal s1 ++ resolving doc "Tables" tables tableIndex
                     ++ checking table "Rows" rows ++ checking table "Rows" rows
                     ++ [EGet table "Rows"; EInvoke rows "Item" [VInt beforeRowIndex];
                         EGet table "Rows"; EInvoke rows "Add" [VObj refRow]]))).
Proof.
  intros Hdoc ((tableCount & (Htables & Hcount) & Hrange) & Htable & (Hrows & HN) & Hnonneg).
  unfold element, reads, resolving, checking in *.
  destruct s1 as [held w j]; cbn [world wordApp journal] in *.
  assert (Happend : forall (a : string + obj) (w' : W),
             dispatch (Invoke TObj rows "Add" []) w = (a, w') ->
             insertTableRow tableIndex None s =
               (outcome "Failed to insert table row. Error: " a,
                State held w'
                      (j ++ [EGet doc "Tables"; EGet tables "Count"; EGet doc "Tables";
                             EInvoke tables "Item" [VInt tableIndex];
                             EGet table "Rows"; EInvoke rows "Add" []]))).
  { intros a w' Hadd. unfold insertTableRow. cbv [bind]. rewrite Hdoc. go.
    destruct a; journal_norm; reflexivity. }
  assert (Hlast : forall (a : string + obj) (w' : W),
             dispatch (Invoke TObj rows "Add" [VUndefined]) w = (a, w') ->
             insertTableRow tableIndex (Some (N + 1)) s =
               (outcome "Failed to insert table row. Error: " a,
                State held w'
                      (j ++ [EGet doc "Tables"; EGet tables "Count"; EGet doc "Tables";
                             EInvoke tables "Item" [VInt tableIndex];
                             EGet table "Rows"; EGet rows "Count";
                             EGet table "Rows"; EGet rows "Count";
                             EGet table "Rows"; EInvoke rows "Add" [VUndefined]]))).
  { intros a w' Hadd. unfold insertTableRow. cbv [bind]. rewrite Hdoc. go.
    cbv [of_obj]. go. destruct a; journal_norm; reflexivity. }
  split; [exact Happend | split; [exact Hlast | split]].
  - intros Hsame.
    destruct (dispatch (Invoke TObj rows "Add" []) w) as [a w'] eqn:Hadd.
    rewrite (Hlast a w' Hsame), (Happend a w' eq_refl). now repeat split.
  - intros beforeRowIndex refRow a w' Hbefore Hitem Hadd.
    unfold insertTableRow. cbv [bind]. rewrite Hdoc. go.
    cbv [of_obj]. go. destruct a; journal_norm; reflexivity.
Qed.

End TableProperties.

(** ** Index validation *)

(** Follow every answer and every branch of what remains of a computation. *)
Ltac explore_all :=
  repeat (run;
          try match goal with
            | |- context [dispatch ?c ?w] =>
                let E := fresh "E" in
                destruct (dispatch c w) as [[?|?] ?] eqn:E
            | |- context [match ?x with Some _ => _ | None => _ end] =>
                is_var x; destruct x
            | |- context [if ?b then _ else _] => destruct b eqn:?
            end).

Section IndexProperties.
Context {W : Type} `{Automation W}.

(** Run from [s], with the active document obtained in [s1], [m] throws
    an out-of-range error with message [failure], having made nothing but
    lookups since [s1]: the world and the handle are those of [s1]. *)
Definition rejects {A : Type} (m : M W A) (s s1 : state W) (failure : string) : Prop :=
  out_of_range failure = true
  /\ exists lookups,
      forallb is_lookup lookups = true
      /\ m s = (inl (Error failure), noted lookups s1).

(** Run from [s], with the active document obtained in [s1], [m] gets as
    far as the call [e], having made nothing but lookups between [s1] and
    [e]. *)
Definition proceeds {A : Type} (m : M W A) (s s1 : state W) (e : event) : Prop :=
  exists lookups rest,
    forallb is_lookup lookups = true
    /\ issued s1 (snd (m s)) (lookups ++ e :: rest).

(** Table [tableIndex] of the active document is [table], and its columns
    are the collection [columns] of [count] elements. *)
Definition table_columns (w : W) (doc tables table columns : ref)
           (tableIndex count : Z) : Prop :=
  (exists tableCount, collection w doc "Tables" tables tableCount
                      /\ 1 <= tableIndex <= tableCount)
  /\ element w tables tableIndex table
  /\ collection w table "Columns" columns count
  /\ 0 <= count.

End IndexProperties.

(** Settle a [rejects] goal whose operation is unfolded, given the lookups
    made. *)
Ltac rejecting Hdoc lookups :=
  split;
  [ first [ apply out_of_range_out_of_bounds
          | apply out_of_range_out_of_bounds_for_insertion ]
  | exists lookups; split;
    [ reflexivity
    | cbv [bind try_catch]; rewrite Hdoc; go; rewrite ?app_nil_r; journal_norm;
      reflexivity ] ].

(** Settle a [proceeds] goal whose operation is unfolded, given the lookups
    made before the call. *)
Ltac proceeding Hdoc lookups :=
  cbv [bind try_catch]; rewrite Hdoc; go; explore_all;
  exists lookups; eexists; (split; [reflexivity |]); journal_norm; reflexivity.

Section IndexValidation.
Context {W : Type} `{Automation W}.

Lemma table_index_rejected (s s1 : state W) (doc tables : ref) (N i : Z) :
  getActiveDocument s = (inr doc, s1) ->
  collection (world s1) doc "Tables" tables N ->
  i < 1 \/ N < i ->
  (forall r c, rejects (getTableCell i r c) s s1
                       ("Failed to get cell. Error: Error: " ++ out_of_bounds "Table" i))
  /\ (forall r c text,
         rejects (setTableCellText i r c text) s s1
                 ("Failed to set cell text. Error: Error: Failed to get cell. Error: Error: "
                    ++ out_of_bounds "Table" i))
  /\ (forall before, rejects (insertTableRow i before) s s1
                             ("Failed to insert table row. Error: Error: "
                                ++ out_of_bounds "Table" i))
  /\ (forall before, rejects (insertTableColumn i before) s s1
                             ("Failed to insert table column. Error: Error: "
                                ++ out_of_bounds "Table" i))
  /\ (forall format flags, rejects (applyTableAutoFormat i format flags) s s1
                                   ("Failed to apply table auto format. Error: Error: "
                                      ++ out_of_bounds "Table" i)).
Proof.
  intros Hdoc (Htables & Hcount) Hout. unfold reads in *.
  destruct s1 as [held w j]; cbn [world wordApp journal] in *.
  unfold setTableCellText, getTableCell, insertTableRow, insertTableColumn,
    applyTableAutoFormat.
  destruct (Z_le_gt_dec i 0) as [Hle | Hgt].
  - split; [| split; [| split; [| split]]]; intros; rejecting Hdoc (@nil event).
  - split; [| split; [| split; [| split]]]; intros;
      rejecting Hdoc (checking doc "Tables" tables).
Qed.

Lemma table_index_accepted (s s1 : state W) (doc tables : ref) (N i : Z) :
  getActiveDocument s = (inr doc, s1) ->
  collection (world s1) doc "Tables" tables N ->
  1 <= i <= N ->
  (forall r c, proceeds (getTableCell i r c) s s1 (EInvoke tables "Item" [VInt i]))
  /\ (forall r c text,
         proceeds (setTableCellText i r c text) s s1 (EInvoke tables "Item" [VInt i]))
  /\ (forall before, proceeds (insertTableRow i before) s s1 (EInvoke tables "Item" [VInt i]))
  /\ (forall before,
         proceeds (insertTableColumn i before) s s1 (EInvoke tables "Item" [VInt i]))
  /\ (forall format flags,
         proceeds (applyTableAutoFormat i format flags) s s1
                  (EInvoke tables "Item" [VInt i])).
Proof.
  intros Hdoc (Htables & Hcount) Hin. unfold reads in *.
  destruct s1 as [held w j]; cbn [world wordApp journal] in *.
  unfold proceeds, setTableCellText, getTableCell, insertTableRow, insertTableColumn,
    applyTableAutoFormat.
  split; [| split; [| split; [| split]]]; intros;
    proceeding Hdoc (checking doc "Tables" tables ++ [EGet doc "Tables"]).
Qed.

Lemma row_index_checked (s s1 : state W) (doc tables table rows : ref) (t N b : Z) :
  getActiveDocument s = (inr doc, s1) ->
  table_rows (world s1) doc tables table rows t N ->
  (b < 1 \/ N + 1 < b ->
   rejects (insertTableRow t (Some b)) s s1
           ("Failed to insert table row. Error: Error: "
              ++ out_of_bounds_for_insertion "Row" b))
  /\ (1 <= b <= N ->
      proceeds (insertTableRow t (Some b)) s s1 (EInvoke rows "Item" [VInt b]))
  /\ (b = N + 1 ->
      proceeds (insertTableRow t (Some b)) s s1 (EInvoke rows "Add" [VUndefined])).
Proof.
  intros Hdoc ((tableCount & (Htables & Hcount) & Hrange) & Htable & (Hrows & HN) & Hnonneg).
  unfold element, reads in *.
  destruct s1 as [held w j]; cbn [world wordApp journal] in *.
  unfold proceeds, insertTableRow.
  split; [| split].
  - intros Hout. destruct (Z_le_gt_dec b 0) as [Hle | Hgt].
    + rejecting Hdoc (resolving doc "Tables" tables t).
    + rejecting Hdoc (resolving doc "Tables" tables t ++ checking table "Rows" rows).
  - intros Hin.
    proceeding Hdoc (resolving doc "Tables" tables t ++ checking table "Rows" rows
                       ++ checking table "Rows" rows ++ [EGet table "Rows"]).
  - intros ->. cbv [bind try_catch]. rewrite Hdoc. go. cbv [of_obj]. explore_all;
      exists (resolving doc "Tables" tables t ++ checking table "Rows" rows
                ++ checking table "Rows" rows ++ [EGet table "Rows"]);
      eexists; (split; [reflexivity |]); journal_norm; reflexivity.
Qed.

Lemma column_index_checked (s s1 : state W) (doc tables table columns : ref) (t N b : Z) :
  getActiveDocument s = (inr doc, s1) ->
  table_columns (world s1) doc tables table columns t N ->
  (b < 1 \/ N + 1 < b ->
   rejects (insertTableColumn t (Some b)) s s1
           ("Failed to insert table column. Error: Error: "
              ++ out_of_bounds_for_insertion "Column" b))
  /\ (1 <= b <= N ->
      proceeds (insertTableColumn t (Some b)) s s1 (EInvoke columns "Item" [VInt b]))
  /\ (b = N + 1 ->
      proceeds (insertTableColumn t (Some b)) s s1 (EInvoke columns "Add" [VUndefined])).
Proof.
  intros Hdoc ((tableCount & (Htables & Hcount) & Hrange) & Htable & (Hcols & HN) & Hnonneg).
  unfold element, reads in *.
  destruct s1 as [held w j]; cbn [world wordApp journal] in *.
  unfold proceeds, insertTableColumn.
  split; [| split].
  - intros Hout. destruct (Z_le_gt_dec b 0) as [Hle | Hgt].
    + rejecting Hdoc (resolving doc "Tables" tables t).
    + rejecting Hdoc (resolving doc "Tables" tables t ++ checking table "Columns" columns).
  - intros Hin.
    proceeding Hdoc (resolving doc "Tables" tables t ++ checking table "Columns" columns
                       ++ checking table "Columns" columns ++ [EGet table "Columns"]).
  - intros ->. cbv [bind try_catch]. rewrite Hdoc. go. cbv [of_obj]. explore_all;
      exists (resolving doc "Tables" tables t ++ checking table "Columns" columns
                ++ checking table "Columns" columns ++ [EGet table "Columns"]);
      eexists; (split; [reflexivity |]); journal_norm; reflexivity.
Qed.

Lemma shape_index_checked (s s1 : state W) (doc shapes : ref) (N i : Z)
      (heightPoints widthPoints : float) (lockAspectRatio : bool) :
  getActiveDocument s = (inr doc, s1) ->
  collection (world s1) doc "InlineShapes" shapes N ->
  (i < 1 \/ N < i ->
   rejects (setInlinePictureSize i heightPoints widthPoints lockAspectRatio) s s1
           ("Failed to set inline picture size. Error: Error: "
              ++ out_of_bounds "InlineShape" i))
  /\ (1 <= i <= N ->
      proceeds (setInlinePictureSize i heightPoints widthPoints lockAspectRatio) s s1
               (EInvoke shapes "Item" [VInt i])).
Proof.
  intros Hdoc (Hshapes & Hcount). unfold reads in *.
  destruct s1 as [held w j]; cbn [world wordApp journal] in *.
  unfold proceeds, setInlinePictureSize.
  split.
  - intros Hout. destruct (Z_le_gt_dec i 0) as [Hle | Hgt].
    + rejecting Hdoc (@nil event).
    + rejecting Hdoc (checking doc "InlineShapes" shapes).
  - intros Hin.
    proceeding Hdoc (checking doc "InlineShapes" shapes ++ [EGet doc "InlineShapes"]).
Qed.

Lemma section_index_checked (s s1 : state W) (doc sections : ref) (N i : Z)
      (headerFooterType : Z) (isHeader : bool) (text : string) :
  getActiveDocument s = (inr doc, s1) ->
  collection (world s1) doc "Sections" sections N ->
  (i < 1 \/ N < i ->
   rejects (getHeaderFooter i headerFooterType isHeader) s s1
           ("Failed to get header/footer. Error: Error: " ++ out_of_bounds "Section" i)
   /\ rejects (setHeaderFooterText i headerFooterType isHeader text) s s1
              ("Failed to get header/footer. Error: Error: " ++ out_of_bounds "Section" i))
  /\ (1 <= i <= N ->
      proceeds (getHeaderFooter i headerFooterType isHeader) s s1
               (EInvoke sections "Item" [VInt i])
      /\ proceeds (setHeaderFooterText i headerFooterType isHeader text) s s1
                  (EInvoke sections "Item" [VInt i])).
Proof.
  intros Hdoc (Hsections & Hcount). unfold reads in *.
  destruct s1 as [held w j]; cbn [world wordApp journal] in *.
  unfold proceeds, setHeaderFooterText, getHeaderFooter.
  split.
  - intros Hout. destruct (Z_le_gt_dec i 0) as [Hle | Hgt].
    + split; rejecting Hdoc (@nil event).
    + split; rejecting Hdoc (checking doc "Sections" sections).
  - intros Hin.
    split; proceeding Hdoc (checking doc "Sections" sections ++ [EGet doc "Sections"]).
Qed.

Lemma paragraph_index_checked (s s1 : state W) (doc paragraphs : ref) (N i : Z) :
  getActiveDocument s = (inr doc, s1) ->
  collection (world s1) doc "Paragraphs" paragraphs N ->
  (i < 1 \/ N < i ->
   rejects (selectParagraph i) s s1
           ("Failed to select paragraph. Error: Error: " ++ out_of_bounds "Paragraph" i))
  /\ (1 <= i <= N ->
      proceeds (selectParagraph i) s s1 (EInvoke paragraphs "Item" [VInt i])).
Proof.
  intros Hdoc (Hparagraphs & Hcount). unfold reads in *.
  destruct s1 as [held w j]; cbn [world wordApp journal] in *.
  unfold proceeds, selectParagraph.
  split.
  - intros Hout. destruct (Z_le_gt_dec i 0) as [Hle | Hgt].
    + rejecting Hdoc (@nil event).
    + rejecting Hdoc (checking doc "Paragraphs" paragraphs).
  - intros Hin.
    proceeding Hdoc (checking doc "Paragraphs" paragraphs ++ [EGet doc "Paragraphs"]).
Qed.

(** The row and the column of a cell go to the table's [Cell] lookup as
    they are. *)
Lemma getTableCell_resolved (s s1 : state W) (doc tables table : ref) (N i r c : Z)
      (a : string + obj) (w' : W) :
  getActiveDocument s = (inr doc, s1) ->
  collection (world s1) doc "Tables" tables N ->
  1 <= i <= N ->
  element (world s1) tables i table ->
  dispatch (Invoke TObj table "Cell" [VInt r; VInt c]) (world s1) = (a, w') ->
  getTableCell i r c s =
    (outcome "Failed to get cell. Error: " a,
     State (wordApp s1) w'
           (journal s1 ++ resolving doc "Tables" tables i
              ++ [EInvoke table "Cell" [VInt r; VInt c]])).
Proof.
  intros Hdoc (Htables & Hcount) Hin Htable Hcell. unfold element, reads in *.
  destruct s1 as [held w j]; cbn [world wordApp journal] in *.
  unfold getTableCell. cbv [bind try_catch]. rewrite Hdoc. go.
  destruct a; journal_norm; reflexivity.
Qed.

(** C1, as amended.  With the active document obtained: for the table
    index of getTableCell, setTableCellText, insertTableRow,
    insertTableColumn and applyTableAutoFormat, the inline-shape index of
    setInlinePictureSize, the section index of getHeaderFooter and
    setHeaderFooterText and the paragraph index of selectParagraph,
    against a collection of N elements, and for the insert-before index of
    insertTableRow and insertTableColumn against N + 1: an index outside
    the range makes the operation throw its out-of-bounds error after
    nothing but lookups, and an index inside makes it proceed to resolve
    the element (for the position N + 1, to append).  The row and the
    column of a cell are not checked by the service: getTableCell passes
    them to the [Cell] lookup of the table and returns or rethrows what
    that lookup answers. *)
Theorem index_arguments_are_validated (s s1 : state W) (doc : ref) :
  getActiveDocument s = (inr doc, s1) ->
  (forall (tables : ref) (N i : Z),
      collection (world s1) doc "Tables" tables N ->
      (i < 1 \/ N < i ->
       (forall r c, rejects (getTableCell i r c) s s1
                            ("Failed to get cell. Error: Error: "
                               ++ out_of_bounds "Table" i))
       /\ (forall r c text,
              rejects (setTableCellText i r c text) s s1
                      ("Failed to set cell text. Error: Error: Failed to get cell. Error: Error: "
                         ++ out_of_bounds "Table" i))
       /\ (forall before, rejects (insertTableRow i before) s s1
                                  ("Failed to insert table row. Error: Error: "
                                     ++ out_of_bounds "Table" i))
       /\ (forall before, rejects (insertTableColumn i before) s s1
                                  ("Failed to insert table column. Error: Error: "
                                     ++ out_of_bounds "Table" i))
       /\ (forall format flags,
              rejects (applyTableAutoFormat i format flags) s s1
                      ("Failed to apply table auto format. Error: Error: "
                         ++ out_of_bounds "Table" i)))
      /\ (1 <= i <= N ->
          (forall r c, proceeds (getTableCell i r c) s s1 (EInvoke tables "Item" [VInt i]))
          /\ (forall r c text,
                 proceeds (setTableCellText i r c text) s s1
                          (EInvoke tables "Item" [VInt i]))
          /\ (forall before,
                 proceeds (insertTableRow i before) s s1 (EInvoke tables "Item" [VInt i]))
          /\ (forall before,
                 proceeds (insertTableColumn i before) s s1
                          (EInvoke tables "Item" [VInt i]))
          /\ (forall format flags,
                 proceeds (applyTableAutoFormat i format flags) s s1
                          (EInvoke tables "Item" [VInt i]))))
  /\ (forall (tables table rows : ref) (t N b : Z),
         table_rows (world s1) doc tables table rows t N ->
         (b < 1 \/ N + 1 < b ->
          rejects (insertTableRow t (Some b)) s s1
                  ("Failed to insert table row. Error: Error: "
                     ++ out_of_bounds_for_insertion "Row" b))
         /\ (1 <= b <= N ->
             proceeds (insertTableRow t (Some b)) s s1 (EInvoke rows "Item" [VInt b]))
         /\ (b = N + 1 ->
             proceeds (insertTableRow t (Some b)) s s1 (EInvoke rows "Add" [VUndefined])))
  /\ (forall (tables table columns : ref) (t N b : Z),
         table_columns (world s1) doc tables table columns t N ->
         (b < 1 \/ N + 1 < b ->
          rejects (insertTableColumn t (Some b)) s s1
                  ("Failed to insert table column. Error: Error: "
                     ++ out_of_bounds_for_insertion "Column" b))
         /\ (1 <= b <= N ->
             proceeds (insertTableColumn t (Some b)) s s1
                      (EInvoke columns "Item" [VInt b]))
         /\ (b = N + 1 ->
             proceeds (insertTableColumn t (Some b)) s s1
                      (EInvoke columns "Add" [VUndefined])))
  /\ (forall (shapes : ref) (N i : Z) (heightPoints widthPoints : float)
             (lockAspectRatio : bool),
         collection (world s1) doc "InlineShapes" shapes N ->
         (i < 1 \/ N < i ->
          rejects (setInlinePictureSize i heightPoints widthPoints lockAspectRatio) s s1
                  ("Failed to set inline picture size. Error: Error: "
                     ++ out_of_bounds "InlineShape" i))
         /\ (1 <= i <= N ->
             proceeds (setInlinePictureSize i heightPoints widthPoints lockAspectRatio) s s1
                      (EInvoke shapes "Item" [VInt i])))
  /\ (forall (sections : ref) (N i headerFooterType : Z) (isHeader : bool) (text : string),
         collection (world s1) doc "Sections" sections N ->
         (i < 1 \/ N < i ->
          rejects (getHeaderFooter i headerFooterType isHeader) s s1
                  ("Failed to get header/footer. Error: Error: "
                     ++ out_of_bounds "Section" i)
          /\ rejects (setHeaderFooterText i headerFooterType isHeader text) s s1
                     ("Failed to get header/footer. Error: Error: "
                        ++ out_of_bounds "Section" i))
         /\ (1 <= i <= N ->
             proceeds (getHeaderFooter i headerFooterType isHeader) s s1
                      (EInvoke sections "Item" [VInt i])
             /\ proceeds (setHeaderFooterText i headerFooterType isHeader text) s s1
                         (EInvoke sections "Item" [VInt i])))
  /\ (forall (paragraphs : ref) (N i : Z),
         collection (world s1) doc "Paragraphs" paragraphs N ->
         (i < 1 \/ N < i ->
          rejects (selectParagraph i) s s1
                  ("Failed to select paragraph. Error: Error: "
                     ++ out_of_bounds "Paragraph" i))
         /\ (1 <= i <= N ->
             proceeds (selectParagraph i) s s1 (EInvoke paragraphs "Item" [VInt i])))
  /\ (forall (tables table : ref) (N i r c : Z) (a : string + obj) (w' : W),
         collection (world s1) doc "Tables" tables N ->
         1 <= i <= N ->
         element (world s1) tables i table ->
         dispatch (Invoke TObj table "Cell" [VInt r; VInt c]) (world s1) = (a, w') ->
         getTableCell i r c s =
           (outcome "Failed to get cell. Error: " a,
            State (wordApp s1) w'
                  (journal s1 ++ resolving doc "Tables" tables i
                     ++ [EInvoke table "Cell" [VInt r; VInt c]]))).
Proof.
  intros Hdoc.
  split; [| split; [| split; [| split; [| split; [| split]]]]].
  - intros tables N i Htables. split; intros Hi.
    + now apply (table_index_rejected s s1 doc tables N i).
    + now apply (table_index_accepted s s1 doc tables N i).
  - intros tables table rows t N b Hrows.
    now apply (row_index_checked s s1 doc tables table rows t N b).
  - intros tables table columns t N b Hcolumns.
    now apply (column_index_checked s s1 doc tables table columns t N b).
  - intros shapes N i heightPoints widthPoints lockAspectRatio Hshapes.
    now apply (shape_index_checked s s1 doc shapes N i).
  - intros sections N i headerFooterType isHeader text Hsections.
    now apply (section_index_checked s s1 doc sections N i).
  - intros paragraphs N i Hparagraphs.
    now apply (paragraph_index_checked s s1 doc paragraphs N i).
  - intros tables table N i r c a w' Htables Hi Htable Hcell.
    now apply (getTableCell_resolved s s1 doc tables table N i r c a w').
Qed.

End IndexValidation.

(** * Further properties of the service *)

(** ** The life of the handle *)

Section HandleLife.
Context {W : Type} `{Automation W}.

(** X1.  quitWord never throws, whatever the automation layer
    answers.  With a handle held it issues the one call [Quit(0)] on it,
    with none held it issues no call and leaves the world as it is; in
    both cases the field is null afterwards, also when [Quit] raised, so
    the next getWordApplication does not probe the old application but
    goes straight to creating one. *)
Theorem quitWord_drops_the_handle (s : state W) :
  exists w,
    quitWord s =
      (inr tt,
       State None w
             (journal s ++ match wordApp s with
                           | Some app => [EInvoke app "Quit" [VInt 0]]
                           | None => []
                           end))
    /\ (wordApp s = None -> w = world s)
    /\ getWordApplication (snd (quitWord s)) = acquire (snd (quitWord s)).
Proof.
  destruct s as [[app |] w j]; unfold quitWord; cbn [wordApp world journal].
  - cbv [bind get_wordApp wordApp try_catch invoke member ret perform world journal
         set_wordApp event_of].
    destruct (dispatch (Invoke TVoid app "Quit" [VInt 0]) w) as [[description | []] w1];
      exists w1; (split; [reflexivity | split; [discriminate | reflexivity]]).
  - exists w. cbv [bind get_wordApp wordApp ret]. rewrite app_nil_r.
    split; [reflexivity | split; reflexivity].
Qed.

(** X2.  Whenever getWordApplication returns, the handle it
    returns is the one stored in the field.  Either it is the handle that
    was held, and the call issued the three probe reads and nothing else;
    or it was created in this call: the journal of the call is some
    lookups (the reads of a probe that failed, if any), then one creation
    of Word.Application and the write of [Visible = true] on the new
    object, and nothing after. *)
Theorem returned_handle_is_stored (s s' : state W) (app : ref) :
  getWordApplication s = (inr app, s') ->
  wordApp s' = Some app
  /\ ((wordApp s = Some app /\ exists documents, issued s s' (probing app documents))
      \/ (exists before,
             issued s s' (before ++ [ENew "Word.Application"; EPut app "Visible" (VBool true)])
             /\ forallb is_lookup before = true)).
Proof.
  destruct s as [[held |] w j]; unfold getWordApplication, probing; explore;
    intros Hrun; inversion Hrun; subst; clear Hrun;
    (split; [reflexivity |]);
    first
      [ left; split; [reflexivity |]; eexists; journal_norm; reflexivity
      | right; exists []; split; [journal_norm; reflexivity | reflexivity]
      | right; eexists [_]; split; [journal_norm; reflexivity | reflexivity]
      | right; eexists [_; _]; split; [journal_norm; reflexivity | reflexivity]
      | right; eexists [_; _; _]; split; [journal_norm; reflexivity | reflexivity] ].
Qed.

(** X3.  A held handle whose probe reads answer (Visible,
    Documents, Documents.Count, none of them changing the world) is
    returned as it is: getWordApplication creates nothing and writes
    nothing, its only calls are the three reads, and the same holds for
    the call after it. *)
Theorem held_handle_is_reused (s : state W) (app documents : ref) :
  wordApp s = Some app ->
  live (world s) app documents ->
  let s1 := noted (probing app documents) s in
  getWordApplication s = (inr app, s1)
  /\ getWordApplication s1 = (inr app, noted (probing app documents) s1).
Proof.
  intros Hheld Hlive s1. split.
  - now apply getWordApplication_live.
  - apply getWordApplication_live; [exact Hheld | exact Hlive].
Qed.

End HandleLife.

(** ** What a method can throw *)

Section Failures.
Context {W : Type} `{Automation W}.

(** Every exception of [m] is an [Error] whose message is one of the
    [failures] followed by the text of a cause. *)
Definition raises {A : Type} (failures : list string) (m : M W A) : Prop :=
  forall s e s', m s = (inl e, s') ->
    exists failure cause, In failure failures /\ e = Error (failure ++ to_string cause)%string.

Definition initializing : string :=
  "Failed to initialize Word.Application. Make sure Microsoft Word is installed. Error: ".

Definition documenting : string := "Failed to get active document. Error: ".

(** The failures of a method that starts with [getWordApplication], and of
    one that starts with [getActiveDocument]. *)
Definition on_application (failure : string) : list string := [initializing; failure].
Definition on_document (failure : string) : list string :=
  [initializing; documenting; failure].

Lemma raises_incl {A : Type} (fs fs' : list string) (m : M W A) :
  incl fs fs' -> raises fs m -> raises fs' m.
Proof.
  intros Hincl Hm s e s' Hrun. destruct (Hm s e s' Hrun) as (f & cause & Hin & ->).
  exists f, cause. split; [now apply Hincl | reflexivity].
Qed.

Lemma raises_bind {A B : Type} (fs : list string) (m : M W A) (k : A -> M W B) :
  raises fs m -> (forall a, raises fs (k a)) -> raises fs (bind m k).
Proof.
  intros Hm Hk s e s'. unfold bind. destruct (m s) as [[e1 | a] s1] eqn:E.
  - intros Hrun. inversion Hrun; subst. exact (Hm s e s' E).
  - exact (Hk a s1 e s').
Qed.

(** A handler that wraps what it caught: whatever the body does, the
    method throws the wrapped error only. *)
Lemma raises_wrapping {A : Type} (failure : string) (m : M W A) :
  raises [failure] (try_catch m (fun error => throw (Error (failure ++ to_string error)))).
Proof.
  intros s e s'. unfold try_catch, throw. destruct (m s) as [[e1 | a] s1].
  - intros Hrun. inversion Hrun; subst. exists failure, e1. split; [now left | reflexivity].
  - discriminate.
Qed.

Lemma append_assoc (a b c : string) : (a ++ b ++ c = (a ++ b) ++ c)%string.
Proof. induction a as [| x a IH]; simpl; [reflexivity | now rewrite IH]. Qed.

(** The same for a failure text that names a file in its middle. *)
Lemma raises_wrapping_path {A : Type} (before path after : string) (m : M W A) :
  raises [(before ++ path ++ after)%string]
         (try_catch m (fun error =>
                         throw (Error (before ++ path ++ after ++ to_string error)))).
Proof.
  intros s e s'. unfold try_catch, throw. destruct (m s) as [[e1 | a] s1].
  - intros Hrun. inversion Hrun; subst. exists (before ++ path ++ after)%string, e1.
    split; [now left |]. now rewrite <- !append_assoc.
  - discriminate.
Qed.

Lemma raises_acquire : raises [initializing] acquire.
Proof. exact (raises_wrapping initializing create). Qed.

Lemma raises_getWordApplication : raises [initializing] getWordApplication.
Proof.
  intros s e s'. unfold getWordApplication. cbv [bind get_wordApp].
  destruct (wordApp s) as [app |]; [| apply raises_acquire].
  cbv [try_catch set_wordApp ret]. destruct (probe app s) as [[e1 | []] s1].
  - apply raises_acquire.
  - discriminate.
Qed.

Lemma raises_on_application {A : Type} (failure : string) (body : ref -> M W A) :
  (forall app, raises [failure] (body app)) ->
  raises (on_application failure) (bind getWordApplication body).
Proof.
  intros Hbody. apply raises_bind.
  - apply (raises_incl [initializing]); [| apply raises_getWordApplication].
    intros f [<- | []]. now left.
  - intros app. apply (raises_incl [failure]); [| apply Hbody].
    intros f [<- | []]. right. now left.
Qed.

Lemma raises_getActiveDocument : raises (on_application documenting) getActiveDocument.
Proof. apply raises_on_application. intros app. apply raises_wrapping. Qed.

Lemma raises_on_document {A : Type} (failure : string) (body : ref -> M W A) :
  (forall doc, raises [failure] (body doc)) ->
  raises (on_document failure) (bind getActiveDocument body).
Proof.
  intros Hbody. apply raises_bind.
  - apply (raises_incl (on_application documenting)); [| apply raises_getActiveDocument].
    intros f [<- | [<- | []]]; [now left | right; now left].
  - intros doc. apply (raises_incl [failure]); [| apply Hbody].
    intros f [<- | []]. right. right. now left.
Qed.

End Failures.

(** A method of the service: its acquisition, then a body whose handler
    wraps whatever was caught. *)
Ltac raises_tac :=
  intros;
  first [ apply raises_on_application; intros; first [apply raises_wrapping | apply raises_wrapping_path]
        | apply raises_on_document; intros; first [apply raises_wrapping | apply raises_wrapping_path]
        | apply raises_wrapping ].

Section FailureProperties.
Context {W : Type} `{Automation W}.

(** X4.  What each method of the service can throw.  Every
    exception is an [Error] (never a TypeError: one raised inside a
    method by a null object is caught and wrapped) whose message is a
    fixed failure text followed by the text of the cause; the failure
    text is that of the initialization of Word, for a method that starts
    with the active document that of getActiveDocument, or the method's
    own.  setTableCellText wraps everything, acquisition included, in its
    own text.  (setHeaderFooterText is not in the list, see X17;
    closeDocument and quitWord throw nothing, see X6 and X1.) *)
Theorem failures_carry_their_cause :
  (* the handle and the document *)
  raises [initializing] getWordApplication
  /\ raises (on_application documenting) getActiveDocument
  (* documents *)
  /\ raises (on_application "Failed to create new document. Error: ") createDocument
  /\ (forall filePath,
        raises (on_application ("Failed to open document: " ++ filePath ++ ". Error: "))
               (openDocument filePath))
  /\ raises (on_document "Failed to save active document. Error: ") saveActiveDocument
  /\ (forall filePath fileFormat,
        raises (on_document ("Failed to save document as: " ++ filePath ++ ". Error: "))
               (saveActiveDocumentAs filePath fileFormat))
  (* text and character formatting *)
  /\ (forall text, raises (on_application "Failed to insert text. Error: ") (insertText text))
  /\ (forall count unit,
        raises (on_application "Failed to delete text. Error: ") (deleteText count unit))
  /\ (forall findText replaceText matchCase matchWholeWord replaceAll,
        raises (on_document "Failed to find and replace text. Error: ")
               (findAndReplace findText replaceText matchCase matchWholeWord replaceAll))
  /\ raises (on_application "Failed to toggle bold formatting. Error: ") toggleBold
  /\ raises (on_application "Failed to toggle italic formatting. Error: ") toggleItalic
  /\ (forall style,
        raises (on_application "Failed to toggle underline formatting. Error: ")
               (toggleUnderline style))
  (* paragraph formatting *)
  /\ (forall alignment,
        raises (on_application "Failed to set paragraph alignment. Error: ")
               (setParagraphAlignment alignment))
  /\ (forall points,
        raises (on_application "Failed to set left indent. Error: ")
               (setParagraphLeftIndent points))
  /\ (forall points,
        raises (on_application "Failed to set right indent. Error: ")
               (setParagraphRightIndent points))
  /\ (forall points,
        raises (on_application "Failed to set first line indent. Error: ")
               (setParagraphFirstLineIndent points))
  /\ (forall points,
        raises (on_application "Failed to set space before paragraph. Error: ")
               (setParagraphSpaceBefore points))
  /\ (forall points,
        raises (on_application "Failed to set space after paragraph. Error: ")
               (setParagraphSpaceAfter points))
  /\ (forall rule value,
        raises (on_application "Failed to set line spacing. Error: ")
               (setParagraphLineSpacing rule value))
  (* tables *)
  /\ (forall numRows numCols defaultTableBehavior autoFitBehavior,
        raises (on_application "Failed to add table. Error: ")
               (addTable numRows numCols defaultTableBehavior autoFitBehavior))
  /\ (forall tableIndex rowIndex colIndex,
        raises (on_document "Failed to get cell. Error: ")
               (getTableCell tableIndex rowIndex colIndex))
  /\ (forall tableIndex rowIndex colIndex text,
        raises ["Failed to set cell text. Error: "]
               (setTableCellText tableIndex rowIndex colIndex text))
  /\ (forall tableIndex beforeRowIndex,
        raises (on_document "Failed to insert table row. Error: ")
               (insertTableRow tableIndex beforeRowIndex))
  /\ (forall tableIndex beforeColIndex,
        raises (on_document "Failed to insert table column. Error: ")
               (insertTableColumn tableIndex beforeColIndex))
  /\ (forall tableIndex formatName applyFormatting,
        raises (on_document "Failed to apply table auto format. Error: ")
               (applyTableAutoFormat tableIndex formatName applyFormatting))
  (* pictures *)
  /\ (forall filePath linkToFile saveWithDocument,
        raises (on_application "Failed to insert picture. Error: ")
               (insertPicture filePath linkToFile saveWithDocument))
  /\ (forall shapeIndex heightPoints widthPoints lockAspectRatio,
        raises (on_document "Failed to set inline picture size. Error: ")
               (setInlinePictureSize shapeIndex heightPoints widthPoints lockAspectRatio))
  (* headers and footers *)
  /\ (forall sectionIndex headerFooterType isHeader,
        raises (on_document "Failed to get header/footer. Error: ")
               (getHeaderFooter sectionIndex headerFooterType isHeader))
  (* page setup *)
  /\ (forall top bottom left right,
        raises (on_document "Failed to set page margins. Error: ")
               (setPageMargins top bottom left right))
  /\ (forall orientation,
        raises (on_document "Failed to set page orientation. Error: ")
               (setPageOrientation orientation))
  /\ (forall paperSize,
        raises (on_document "Failed to set paper size. Error: ") (setPaperSize paperSize))
  (* cursor and selection *)
  /\ raises (on_application "Failed to move cursor to start. Error: ") moveCursorToStart
  /\ raises (on_application "Failed to move cursor to end. Error: ") moveCursorToEnd
  /\ (forall unit count extend,
        raises (on_application "Failed to move cursor. Error: ") (moveCursor unit count extend))
  /\ raises (on_application "Failed to select all. Error: ") selectAll
  /\ (forall paragraphIndex,
        raises (on_document "Failed to select paragraph. Error: ")
               (selectParagraph paragraphIndex))
  /\ (forall toStart,
        raises (on_application "Failed to collapse selection. Error: ")
               (collapseSelection toStart))
  /\ raises (on_application "Failed to get selection text. Error: ") getSelectionText
  /\ raises (on_application "Failed to get selection info. Error: ") getSelectionInfo.
Proof.
  repeat match goal with |- _ /\ _ => split end;
    try solve [raises_tac].
  apply raises_getWordApplication.
Qed.

End FailureProperties.

(** ** Which methods assign the handle *)

Section HandleFrame.
Context {W : Type} `{Automation W}.

(** [m] leaves the field [wordApp] as it found it. *)
Definition keeps {A : Type} (m : M W A) : Prop :=
  forall s, wordApp (snd (m s)) = wordApp s.

(** After [m], returned or thrown, the field [wordApp] is as the
    acquisition at the start of [m] left it. *)
Definition settled {A : Type} (m : M W A) : Prop :=
  forall s, wordApp (snd (m s)) = wordApp (snd (getWordApplication s)).

Lemma keeps_ret {A : Type} (a : A) : keeps (ret a).
Proof. now intros s. Qed.

Lemma keeps_throw {A : Type} (e : error) : keeps (@throw W A e).
Proof. now intros s. Qed.

Lemma keeps_bind {A B : Type} (m : M W A) (k : A -> M W B) :
  keeps m -> (forall a, keeps (k a)) -> keeps (bind m k).
Proof.
  intros Hm Hk s. unfold bind. specialize (Hm s).
  destruct (m s) as [[e | a] s1]; simpl in *; [assumption |].
  now rewrite (Hk a s1).
Qed.

Lemma keeps_try_catch {A : Type} (m : M W A) (h : error -> M W A) :
  keeps m -> (forall e, keeps (h e)) -> keeps (try_catch m h).
Proof.
  intros Hm Hh s. unfold try_catch. specialize (Hm s).
  destruct (m s) as [[e | a] s1]; simpl in *; [| assumption].
  now rewrite (Hh e s1).
Qed.

Lemma keeps_perform {X : Type} (c : call X) : keeps (perform c).
Proof. intros s. unfold perform. now destruct (dispatch c (world s)). Qed.

Lemma keeps_member (o : obj) (p : string) : keeps (member o p).
Proof. destruct o; [apply keeps_ret | apply keeps_throw]. Qed.

Lemma keeps_get (t : ty) (o : obj) (p : string) : keeps (get t o p).
Proof. apply keeps_bind; [apply keeps_member | intro; apply keeps_perform]. Qed.

Lemma keeps_put (o : obj) (p : string) (v : value) : keeps (put o p v).
Proof. apply keeps_bind; [apply keeps_member | intro; apply keeps_perform]. Qed.

Lemma keeps_invoke (t : ty) (o : obj) (m : string) (args : list value) :
  keeps (invoke t o m args).
Proof. apply keeps_bind; [apply keeps_member | intro; apply keeps_perform]. Qed.

Lemma settled_getWordApplication : settled getWordApplication.
Proof. now intros s. Qed.

Lemma settled_bind {A B : Type} (m : M W A) (k : A -> M W B) :
  settled m -> (forall a, keeps (k a)) -> settled (bind m k).
Proof.
  intros Hm Hk s. unfold bind. specialize (Hm s).
  destruct (m s) as [[e | a] s1]; simpl in *; [assumption |].
  now rewrite (Hk a s1).
Qed.

Lemma settled_try_catch {A : Type} (m : M W A) (h : error -> M W A) :
  settled m -> (forall e, keeps (h e)) -> settled (try_catch m h).
Proof.
  intros Hm Hh s. unfold try_catch. specialize (Hm s).
  destruct (m s) as [[e | a] s1]; simpl in *; [| assumption].
  now rewrite (Hh e s1).
Qed.

End HandleFrame.

(** Decompose a computation that does not mention the field. *)
Ltac keeps_step :=
  match goal with
  | |- forall _, _ => intro
  | |- keeps (bind _ _) => apply keeps_bind
  | |- keeps (try_catch _ _) => apply keeps_try_catch
  | |- keeps (if ?b then _ else _) => destruct b
  | |- keeps (match ?x with _ => _ end) => destruct x
  | |- keeps (get ?t ?o ?p) => exact (keeps_get t o p)
  | |- keeps (put ?o ?p ?v) => exact (keeps_put o p v)
  | |- keeps (invoke ?t ?o ?m ?args) => exact (keeps_invoke t o m args)
  | |- keeps (ret _) => apply keeps_ret
  | |- keeps (throw _) => apply keeps_throw
  | |- keeps (member _ _) => apply keeps_member
  end.

Ltac settled_step :=
  match goal with
  | |- forall _, _ => intro
  | |- settled getWordApplication => exact settled_getWordApplication
  | |- settled (bind _ _) => apply settled_bind
  | |- settled (try_catch _ _) => apply settled_try_catch
  | L : _ |- settled _ => apply L
  end.

Ltac settled_tac := repeat first [settled_step | keeps_step].

Section HandleFrameLemmas.
Context {W : Type} `{Automation W}.

Lemma settled_getActiveDocument : settled getActiveDocument.
Proof. unfold getActiveDocument. settled_tac. Qed.

Lemma settled_getTableCell (tableIndex rowIndex colIndex : Z) :
  settled (getTableCell tableIndex rowIndex colIndex).
Proof.
  pose proof settled_getActiveDocument.
  unfold getTableCell, lazy_or, Count, Item. settled_tac.
Qed.

Lemma settled_getHeaderFooter (sectionIndex headerFooterType : Z) (isHeader : bool) :
  settled (getHeaderFooter sectionIndex headerFooterType isHeader).
Proof.
  pose proof settled_getActiveDocument.
  unfold getHeaderFooter, lazy_or, Count, Item. settled_tac.
Qed.

End HandleFrameLemmas.

Ltac settled_method :=
  intros;
  pose proof settled_getActiveDocument;
  pose proof settled_getTableCell;
  pose proof settled_getHeaderFooter;
  cbv [createDocument openDocument saveActiveDocument saveActiveDocumentAs
       insertText deleteText findAndReplace toggleBold toggleItalic toggleUnderline
       setParagraphAlignment setParagraphLeftIndent setParagraphRightIndent
       setParagraphFirstLineIndent setParagraphSpaceBefore setParagraphSpaceAfter
       setParagraphLineSpacing ParagraphFormat addTable setTableCellText
       insertTableRow insertTableColumn applyTableAutoFormat insertPicture
       setInlinePictureSize setHeaderFooterText setPageMargins setPageOrientation
       setPaperSize moveCursorToStart moveCursorToEnd moveCursor selectAll
       selectParagraph collapseSelection getSelectionText getSelectionInfo
       Selection lazy_or Count Item];
  settled_tac.

Section HandleFrameProperties.
Context {W : Type} `{Automation W}.

(** X5.  No method other than getWordApplication and
    quitWord assigns the handle.  After any other method, whether it
    returned or threw, the field [wordApp] is what the acquisition at the
    start of the method left; closeDocument, which does not acquire,
    leaves the field as it found it.  A failure in the middle of an
    operation therefore never drops or replaces the application. *)
Theorem only_acquisition_assigns_the_handle :
  settled getActiveDocument
  /\ (forall doc saveChanges, keeps (closeDocument doc saveChanges))
  /\ settled createDocument
  /\ (forall filePath, settled (openDocument filePath))
  /\ settled saveActiveDocument
  /\ (forall filePath fileFormat, settled (saveActiveDocumentAs filePath fileFormat))
  /\ (forall text, settled (insertText text))
  /\ (forall count unit, settled (deleteText count unit))
  /\ (forall findText replaceText matchCase matchWholeWord replaceAll,
        settled (findAndReplace findText replaceText matchCase matchWholeWord replaceAll))
  /\ settled toggleBold
  /\ settled toggleItalic
  /\ (forall style, settled (toggleUnderline style))
  /\ (forall alignment, settled (setParagraphAlignment alignment))
  /\ (forall points, settled (setParagraphLeftIndent points))
  /\ (forall points, settled (setParagraphRightIndent points))
  /\ (forall points, settled (setParagraphFirstLineIndent points))
  /\ (forall points, settled (setParagraphSpaceBefore points))
  /\ (forall points, settled (setParagraphSpaceAfter points))
  /\ (forall rule value, settled (setParagraphLineSpacing rule value))
  /\ (forall numRows numCols defaultTableBehavior autoFitBehavior,
        settled (addTable numRows numCols defaultTableBehavior autoFitBehavior))
  /\ (forall tableIndex rowIndex colIndex, settled (getTableCell tableIndex rowIndex colIndex))
  /\ (forall tableIndex rowIndex colIndex text,
        settled (setTableCellText tableIndex rowIndex colIndex text))
  /\ (forall tableIndex beforeRowIndex, settled (insertTableRow tableIndex beforeRowIndex))
  /\ (forall tableIndex beforeColIndex, settled (insertTableColumn tableIndex beforeColIndex))
  /\ (forall tableIndex formatName applyFormatting,
        settled (applyTableAutoFormat tableIndex formatName applyFormatting))
  /\ (forall filePath linkToFile saveWithDocument,
        settled (insertPicture filePath linkToFile saveWithDocument))
  /\ (forall shapeIndex heightPoints widthPoints lockAspectRatio,
        settled (setInlinePictureSize shapeIndex heightPoints widthPoints lockAspectRatio))
  /\ (forall sectionIndex headerFooterType isHeader,
        settled (getHeaderFooter sectionIndex headerFooterType isHeader))
  /\ (forall sectionIndex headerFooterType isHeader text,
        settled (setHeaderFooterText sectionIndex headerFooterType isHeader text))
  /\ (forall top bottom left right, settled (setPageMargins top bottom left right))
  /\ (forall orientation, settled (setPageOrientation orientation))
  /\ (forall paperSize, settled (setPaperSize paperSize))
  /\ settled moveCursorToStart
  /\ settled moveCursorToEnd
  /\ (forall unit count extend, settled (moveCursor unit count extend))
  /\ settled selectAll
  /\ (forall paragraphIndex, settled (selectParagraph paragraphIndex))
  /\ (forall toStart, settled (collapseSelection toStart))
  /\ settled getSelectionText
  /\ settled getSelectionInfo.
Proof.
  repeat match goal with |- _ /\ _ => split end;
    try solve [settled_method].
  intros doc saveChanges. cbv beta zeta delta [closeDocument]. repeat keeps_step.
Qed.

End HandleFrameProperties.

(** ** Closing the document *)

Section Closing.
Context {W : Type} `{Automation W}.

(** The one call of [closeDocument]. *)
Definition closing (doc : ref) (saveChanges : value) : call unit :=
  Invoke TVoid doc "Close" [or_default saveChanges (VInt 0)].

Lemma closeDocument_run (s : state W) (doc : ref) (saveChanges : value) :
  closeDocument doc saveChanges s =
    (inr tt,
     State (wordApp s) (snd (dispatch (closing doc saveChanges) (world s)))
           (journal s ++ [event_of (closing doc saveChanges)])).
Proof.
  destruct s as [held w j]. unfold closeDocument, closing.
  cbv [try_catch invoke bind member ret perform world wordApp journal].
  now destruct (dispatch _ w) as [[description | []] w1].
Qed.

(** X6.  closeDocument issues exactly one call,
    [doc.Close(saveChanges ?? 0)], and returns whatever that call answers:
    an exception of the automation layer is swallowed.  The handle is not
    touched. *)
Theorem closeDocument_never_throws (s : state W) (doc : ref) (saveChanges : value) :
  closeDocument doc saveChanges s =
    (inr tt,
     State (wordApp s)
           (snd (dispatch (Invoke TVoid doc "Close" [or_default saveChanges (VInt 0)])
                          (world s)))
           (journal s ++ [EInvoke doc "Close" [or_default saveChanges (VInt 0)]])).
Proof. apply closeDocument_run. Qed.

Definition closed : CallToolResult :=
  {| content := ["Successfully closed the active document."]; isError := None |}.

Definition nothing_to_close : CallToolResult :=
  {| content := ["No active document to close."]; isError := Some false |}.

(** X7.  Once the active document was obtained, the
    word_closeDocument handler answers [Successfully closed the active
    document.], not flagged as an error, whatever [Close] answered, also
    when it raised: the one call after the document lookup is
    [Close(saveChanges ?? 0)]. *)
Theorem closeDocumentTool_reports_success
        (s s1 : state W) (doc : ref) (saveChanges : value) :
  getActiveDocument s = (inr doc, s1) ->
  closeDocumentTool saveChanges s =
    (closed,
     State (wordApp s1) (snd (dispatch (closing doc saveChanges) (world s1)))
           (journal s1 ++ [EInvoke doc "Close" [or_default saveChanges (VInt 0)]])).
Proof.
  intros Hdoc. unfold closeDocumentTool. rewrite Hdoc.
  now rewrite closeDocument_run.
Qed.

(** X8.  With the application acquired and
    [ActiveDocument] reading null, getActiveDocument throws its own
    no-document error wrapped in its own failure text, after the one read
    of [ActiveDocument]; the word_closeDocument handler recognises it and
    answers [No active document to close.] with isError false. *)
Theorem closeDocumentTool_without_document
        (s s1 : state W) (app : ref) (w : W) (saveChanges : value) :
  getWordApplication s = (inr app, s1) ->
  dispatch (Get TObj app "ActiveDocument") (world s1) = (inr None, w) ->
  let s2 := State (wordApp s1) w (journal s1 ++ [EGet app "ActiveDocument"]) in
  getActiveDocument s =
    (inl (Error "Failed to get active document. Error: Error: No active document found in Word."),
     s2)
  /\ closeDocumentTool saveChanges s = (nothing_to_close, s2).
Proof.
  intros Happ Hdoc s2.
  assert (Hfail : getActiveDocument s =
                    (inl (Error "Failed to get active document. Error: Error: No active document found in Word."),
                     s2)).
  { unfold getActiveDocument. cbv [bind]. rewrite Happ.
    destruct s1 as [held w1 j1]. cbn [world] in Hdoc. now run. }
  split; [exact Hfail |].
  unfold closeDocumentTool. rewrite Hfail. reflexivity.
Qed.

End Closing.

(** ** Line spacing *)

Section Spacing.
Context {W : Type} `{Automation W}.
Variable number_to_string : float -> string.

Lemma speaks_setParagraphLineSpacing (rule : Z) (value : option float) :
  speaks (setParagraphLineSpacing rule value).
Proof.
  unfold setParagraphLineSpacing. apply speaks_bind.
  - apply speaks_getWordApplication.
  - unfold ParagraphFormat, Selection. extends_tac.
Qed.

(** X9.  With a rule of 3 or more (AtLeast, Exactly,
    Multiple) and no value, the word_setLineSpacing handler answers with
    its flagged [lineSpacingValue is required] text in the very state it
    was called in: the service is not called.  (A call of the service
    would have shown: it always leaves at least one call in the
    journal.) *)
Theorem setLineSpacingTool_requires_value (s : state W) (rule : Z) :
  3 <= rule ->
  setLineSpacingTool number_to_string rule None s =
    ({| content := ["Failed to set line spacing: lineSpacingValue is required when lineSpacingRule is AtLeast, Exactly, or Multiple."];
        isError := Some true |}, s)
  /\ journal (snd (setParagraphLineSpacing rule None s)) <> journal s.
Proof.
  intros Hrule. split.
  - unfold setLineSpacingTool. rewrite Z.geb_leb, (proj2 (Z.leb_le 3 rule) Hrule).
    reflexivity.
  - apply speaks_changes, speaks_setParagraphLineSpacing.
Qed.

(** X10.  With a rule below 3 (Single, 1.5 lines,
    Double) a given value is ignored: the service and the
    word_setLineSpacing handler behave exactly as if it had been left
    out, results, calls and message alike. *)
Theorem line_spacing_value_is_ignored_below_rule_3 (s : state W) (rule : Z) (value : float) :
  rule < 3 ->
  setParagraphLineSpacing rule (Some value) s = setParagraphLineSpacing rule None s
  /\ setLineSpacingTool number_to_string rule (Some value) s
     = setLineSpacingTool number_to_string rule None s.
Proof.
  intros Hrule.
  assert (Hguard : (rule >=? 3) = false)
    by (rewrite Z.geb_leb; now apply Z.leb_gt).
  unfold setLineSpacingTool, setParagraphLineSpacing. rewrite Hguard. split; reflexivity.
Qed.

(** The selection's paragraph format is [format]. *)
Definition formatted (w : W) (app doc window selection format : ref) : Prop :=
  selected w app doc window selection /\
  reads w (Get TObj selection "ParagraphFormat") (Some format).

(** X11.  With a rule of 3 or more,
    setParagraphLineSpacing writes [LineSpacingRule] on the paragraph
    format of the selection first.  Without a value that is its only
    write.  With a value, [LineSpacing] is written after it, on the same
    object, only if the first write did not raise; a first write that
    raises ends the call with the wrapped error. *)
Theorem setParagraphLineSpacing_writes_rule_then_value
        (s s1 : state W) (app doc window selection format : ref)
        (rule : Z) (value : float) (ruled : string + unit) (w2 : W) :
  getWordApplication s = (inr app, s1) ->
  formatted (world s1) app doc window selection format ->
  3 <= rule ->
  dispatch (Put format "LineSpacingRule" (VInt rule)) (world s1) = (ruled, w2) ->
  let written :=
    journal s1 ++ selecting app doc window
      ++ [EGet selection "ParagraphFormat"; EPut format "LineSpacingRule" (VInt rule)] in
  setParagraphLineSpacing rule None s =
    (outcome "Failed to set line spacing. Error: " ruled, State (wordApp s1) w2 written)
  /\ match ruled with
     | inl description =>
         setParagraphLineSpacing rule (Some value) s =
           (inl (wrapped "Failed to set line spacing. Error: " description),
            State (wordApp s1) w2 written)
     | inr _ =>
         forall (spaced : string + unit) (w3 : W),
           dispatch (Put format "LineSpacing" (VNum value)) w2 = (spaced, w3) ->
           setParagraphLineSpacing rule (Some value) s =
             (outcome "Failed to set line spacing. Error: " spaced,
              State (wordApp s1) w3
                    (written ++ [EPut format "LineSpacing" (VNum value)]))
     end.
Proof.
  intros Hacq ((Hd & Hw & Hs) & Hf) Hrule Hput written. unfold reads in *.
  subst written. unfold selecting.
  assert (Hguard : (rule >=? 3) = true)
    by (rewrite Z.geb_leb; now apply Z.leb_le).
  destruct s1 as [held w j]; cbn [world wordApp journal] in *.
  unfold setParagraphLineSpacing, ParagraphFormat. rewrite Hguard.
  cbv [bind]. rewrite Hacq. run. split.
  - destruct ruled as [description | []]; journal_norm; reflexivity.
  - destruct ruled as [description | []].
    + journal_norm. reflexivity.
    + intros spaced w3 Hspaced. run.
      destruct spaced as [description | []]; journal_norm; reflexivity.
Qed.

End Spacing.

(** ** Page setup *)

Section PageSetup.
Context {W : Type} `{Automation W}.



End PageSetup.

(** ** Inline pictures: both dimensions, aspect ratio free *)

Section FreePicture.
Context {W : Type} `{Automation W}.

(** X13.  With both requested
    dimensions positive and lockAspectRatio false, setInlinePictureSize
    writes [LockAspectRatio = 0], then Height with heightPoints, then
    Width with widthPoints.  When the write of Height raises, Width is not
    written; when the write of Width raises, Height stays written. *)
Theorem setInlinePictureSize_free_writes_height_then_width
        (s s1 : state W) (doc shapes shape : ref) (shapeIndex : Z)
        (originalHeight originalWidth heightPoints widthPoints : float)
        (w1 w2 : W) (heighted : string + unit) :
  getActiveDocument s = (inr doc, s1) ->
  sizable s1 doc shapes shape shapeIndex originalHeight originalWidth false w1 ->
  gt heightPoints 0 = true ->
  gt widthPoints 0 = true ->
  dispatch (Put shape "Height" (VNum heightPoints)) w1 = (heighted, w2) ->
  let prepared := journal (locked s1 doc shapes shape shapeIndex false w1) in
  match heighted with
  | inl description =>
      setInlinePictureSize shapeIndex heightPoints widthPoints false s =
        (inl (wrapped "Failed to set inline picture size. Error: " description),
         State (wordApp s1) w2 (prepared ++ [EPut shape "Height" (VNum heightPoints)]))
  | inr _ =>
      forall (widthed : string + unit) (w3 : W),
        dispatch (Put shape "Width" (VNum widthPoints)) w2 = (widthed, w3) ->
        setInlinePictureSize shapeIndex heightPoints widthPoints false s =
          (outcome "Failed to set inline picture size. Error: " widthed,
           State (wordApp s1) w3
                 (prepared ++ [EPut shape "Height" (VNum heightPoints);
                               EPut shape "Width" (VNum widthPoints)]))
  end.
Proof.
  intros Hdoc Hshape Hh Hw Hput prepared. subst prepared.
  rewrite (setInlinePictureSize_sizable s s1 doc shapes shape shapeIndex
             originalHeight originalWidth heightPoints widthPoints false w1 Hdoc Hshape).
  rewrite Hh, Hw. cbn [andb]. unfold locked. cbn [journal].
  destruct heighted as [description | []].
  - run. journal_norm. reflexivity.
  - intros widthed w3 Hwidth. run.
    destruct widthed as [description | []]; journal_norm; reflexivity.
Qed.

End FreePicture.

(** ** Table columns *)

Section ColumnProperties.
Context {W : Type} `{Automation W}.

(** X14.  On a table of N columns: insertTableColumn with
    beforeColIndex omitted calls [Columns.Add()]; with beforeColIndex =
    N + 1 it resolves no reference column and calls
    [Columns.Add(undefined)]; with 1 <= beforeColIndex <= N the column at
    that index is resolved and passed to [Columns.Add] as the column to
    insert before.  In each case the answer of [Add] is returned, or its
    exception thrown wrapped. *)
Theorem insertTableColumn_positions
        (s s1 : state W) (doc tables table columns : ref) (tableIndex N : Z) :
  getActiveDocument s = (inr doc, s1) ->
  table_columns (world s1) doc tables table columns tableIndex N ->
  (forall (a : string + obj) (w' : W),
      dispatch (Invoke TObj columns "Add" []) (world s1) = (a, w') ->
      insertTableColumn tableIndex None s =
        (outcome "Failed to insert table column. Error: " a,
         State (wordApp s1) w'
               (journal s1 ++ resolving doc "Tables" tables tableIndex
                  ++ [EGet table "Columns"; EInvoke columns "Add" []])))
  /\ (forall (a : string + obj) (w' : W),
         dispatch (Invoke TObj columns "Add" [VUndefined]) (world s1) = (a, w') ->
         insertTableColumn tableIndex (Some (N + 1)) s =
           (outcome "Failed to insert table column. Error: " a,
            State (wordApp s1) w'
                  (journal s1 ++ resolving doc "Tables" tables tableIndex
                     ++ checking table "Columns" columns ++ checking table "Columns" columns
                     ++ [EGet table "Columns"; EInvoke columns "Add" [VUndefined]])))
  /\ (forall (beforeColIndex : Z) (refCol : ref) (a : string + obj) (w' : W),
         1 <= beforeColIndex <= N ->
         element (world s1) columns beforeColIndex refCol ->
         dispatch (Invoke TObj columns "Add" [VObj refCol]) (world s1) = (a, w') ->
         insertTableColumn tableIndex (Some beforeColIndex) s =
           (outcome "Failed to insert table column. Error: " a,
            State (wordApp s1) w'
                  (journal s1 ++ resolving doc "Tables" tables tableIndex
                     ++ checking table "Columns" columns ++ checking table "Columns" columns
                     ++ [EGet table "Columns"; EInvoke columns "Item" [VInt beforeColIndex];
                         EGet table "Columns"; EInvoke columns "Add" [VObj refCol]]))).
Proof.
  intros Hdoc ((tableCount & (Htables & Hcount) & Hrange) & Htable & (Hcols & HN) & Hnonneg).
  unfold element, reads, resolving, checking in *.
  destruct s1 as [held w j]; cbn [world wordApp journal] in *.
  split; [| split].
  - intros a w' Hadd. unfold insertTableColumn. cbv [bind]. rewrite Hdoc. go.
    destruct a; journal_norm; reflexivity.
  - intros a w' Hadd. unfold insertTableColumn. cbv [bind]. rewrite Hdoc. go.
    cbv [of_obj]. go. destruct a; journal_norm; reflexivity.
  - intros beforeColIndex refCol a w' Hbefore Hitem Hadd.
    unfold insertTableColumn. cbv [bind]. rewrite Hdoc. go.
    cbv [of_obj]. go. destruct a; journal_norm; reflexivity.
Qed.

End ColumnProperties.

(** ** Cells *)

Section CellProperties.
Context {W : Type} `{Automation W}.

(** X15.  setTableCellText wraps a failure of
    getTableCell once more in its own failure text.  When the cell is
    found it reads the cell's [Range] and writes its [Text], and these are
    its only calls after the lookup of the cell; when the lookup answers
    null the TypeError of the access is thrown wrapped as well. *)
Theorem setTableCellText_writes_the_cell
        (s : state W) (tableIndex rowIndex colIndex : Z) (text : string) :
  (forall (e : error) (s1 : state W),
      getTableCell tableIndex rowIndex colIndex s = (inl e, s1) ->
      setTableCellText tableIndex rowIndex colIndex text s =
        (inl (Error ("Failed to set cell text. Error: " ++ to_string e)), s1))
  /\ (forall (cell range : ref) (s1 : state W) (a : string + unit) (w : W),
         getTableCell tableIndex rowIndex colIndex s = (inr (Some cell), s1) ->
         reads (world s1) (Get TObj cell "Range") (Some range) ->
         dispatch (Put range "Text" (VStr text)) (world s1) = (a, w) ->
         setTableCellText tableIndex rowIndex colIndex text s =
           (outcome "Failed to set cell text. Error: " a,
            State (wordApp s1) w
                  (journal s1 ++ [EGet cell "Range"; EPut range "Text" (VStr text)])))
  /\ (forall (s1 : state W),
         getTableCell tableIndex rowIndex colIndex s = (inr None, s1) ->
         exists cause,
           setTableCellText tableIndex rowIndex colIndex text s =
             (inl (Error ("Failed to set cell text. Error: " ++ to_string (TypeError cause))),
              s1)).
Proof.
  split; [| split].
  - intros e s1 Hcell. unfold setTableCellText. cbv [try_catch bind]. now rewrite Hcell.
  - intros cell range s1 a w Hcell Hrange Hput. unfold reads in *.
    unfold setTableCellText. cbv [try_catch bind]. rewrite Hcell.
    destruct s1 as [held w1 j]; cbn [world wordApp journal] in *. run.
    destruct a as [description | []]; journal_norm; reflexivity.
  - intros s1 Hcell. unfold setTableCellText. cbv [try_catch bind]. rewrite Hcell.
    eexists. reflexivity.
Qed.

End CellProperties.

(** ** Headers and footers *)

Section HeaderFooterProperties.
Context {W : Type} `{Automation W}.

(** Section [sectionIndex] of the active document is [section], and its
    headers (or footers) are the collection [items]. *)
Definition section_items (w : W) (doc sections section items : ref)
           (sectionIndex : Z) (isHeader : bool) : Prop :=
  (exists count, collection w doc "Sections" sections count
                 /\ 1 <= sectionIndex <= count)
  /\ element w sections sectionIndex section
  /\ reads w (Get TObj section (if isHeader then "Headers" else "Footers")) (Some items).

(** The lookups of getHeaderFooter up to the headers (or footers) of the
    section. *)
Definition reaching (doc sections section : ref) (sectionIndex : Z) (isHeader : bool)
  : list event :=
  resolving doc "Sections" sections sectionIndex
    ++ [EGet section (if isHeader then "Headers" else "Footers")].

Definition absent (sectionIndex headerFooterType : Z) (isHeader : bool) : error :=
  Error ("Failed to get header/footer. Error: Error: The requested " ++ kind isHeader
           ++ " type (" ++ show headerFooterType
           ++ ") does not exist or is not active for section "
           ++ show sectionIndex ++ ". Check document settings.").

(** X16.  With a valid section index,
    getHeaderFooter reads the section's Headers (or Footers) and only then
    looks at the type: a type outside 1..3 fails with the invalid-type
    error without any [Item] lookup.  With a type in 1..3 the item is
    looked up; a null item fails with the does-not-exist error without
    reading [Exists]; else [Exists] is read, and the item is returned
    when it is true and the same error thrown when it is false. *)
Theorem getHeaderFooter_checks_type_and_existence
        (s s1 : state W) (doc sections section items : ref)
        (sectionIndex headerFooterType : Z) (isHeader : bool) :
  getActiveDocument s = (inr doc, s1) ->
  section_items (world s1) doc sections section items sectionIndex isHeader ->
  let reached := reaching doc sections section sectionIndex isHeader in
  let item := EInvoke items "Item" [VInt headerFooterType] in
  (headerFooterType < 1 \/ 3 < headerFooterType ->
   getHeaderFooter sectionIndex headerFooterType isHeader s =
     (inl (Error ("Failed to get header/footer. Error: Error: Invalid header/footer type: "
                    ++ show headerFooterType ++ ". Use 1, 2, or 3.")),
      noted reached s1))
  /\ (1 <= headerFooterType <= 3 ->
      reads (world s1) (Invoke TObj items "Item" [VInt headerFooterType]) None ->
      getHeaderFooter sectionIndex headerFooterType isHeader s =
        (inl (absent sectionIndex headerFooterType isHeader),
         noted (reached ++ [item]) s1))
  /\ (forall (headerFooter : ref) (exists_ : bool),
         1 <= headerFooterType <= 3 ->
         reads (world s1) (Invoke TObj items "Item" [VInt headerFooterType])
               (Some headerFooter) ->
         reads (world s1) (Get TBool headerFooter "Exists") exists_ ->
         getHeaderFooter sectionIndex headerFooterType isHeader s =
           (if exists_ then inr (Some headerFooter)
            else inl (absent sectionIndex headerFooterType isHeader),
            noted (reached ++ [item; EGet headerFooter "Exists"]) s1)).
Proof.
  intros Hdoc ((count & (Hsections & Hcount) & Hrange) & Hsection & Hitems) reached item.
  subst reached item. unfold element, reads, reaching, resolving, checking, absent in *.
  destruct s1 as [held w j]; cbn [world wordApp journal] in *.
  split; [| split].
  - intros Htype. unfold getHeaderFooter. cbv [bind]. rewrite Hdoc. go.
    destruct isHeader; go.
    + replace ((headerFooterType <? 1) || (3 <? headerFooterType)) with true
        by (symmetry; apply orb_true_iff; rewrite !Z.ltb_lt; lia).
      run. journal_norm. reflexivity.
    + replace ((headerFooterType <? 1) || (3 <? headerFooterType)) with true
        by (symmetry; apply orb_true_iff; rewrite !Z.ltb_lt; lia).
      run. journal_norm. reflexivity.
  - intros Htype Hitem. unfold getHeaderFooter. cbv [bind]. rewrite Hdoc. go.
    destruct isHeader; go; cbv [orb negb kind]; run; journal_norm; reflexivity.
  - intros headerFooter exists_ Htype Hitem Hexists.
    unfold getHeaderFooter. cbv [bind]. rewrite Hdoc. go.
    destruct isHeader; go; cbv [orb]; run; destruct exists_; cbv [negb kind]; run;
      journal_norm; reflexivity.
Qed.

(** X17.  setHeaderFooterText throws what it caught as it
    is.  A failure of getHeaderFooter passes through unchanged, an
    exception of the write of [Range.Text] is thrown with the bare
    description of the automation layer, and when the header's [Range]
    reads null a TypeError escapes: the one method of the service whose
    exceptions do not carry its own failure text. *)
Theorem setHeaderFooterText_rethrows_unwrapped
        (s : state W) (sectionIndex headerFooterType : Z) (isHeader : bool) (text : string) :
  (forall (e : error) (s1 : state W),
      getHeaderFooter sectionIndex headerFooterType isHeader s = (inl e, s1) ->
      setHeaderFooterText sectionIndex headerFooterType isHeader text s = (inl e, s1))
  /\ (forall (headerFooter range : ref) (s1 : state W) (a : string + unit) (w : W),
         getHeaderFooter sectionIndex headerFooterType isHeader s
           = (inr (Some headerFooter), s1) ->
         reads (world s1) (Get TObj headerFooter "Range") (Some range) ->
         dispatch (Put range "Text" (VStr text)) (world s1) = (a, w) ->
         setHeaderFooterText sectionIndex headerFooterType isHeader text s =
           (match a with inl description => inl (Error description) | inr _ => inr tt end,
            State (wordApp s1) w
                  (journal s1 ++ [EGet headerFooter "Range"; EPut range "Text" (VStr text)])))
  /\ (forall (headerFooter : ref) (s1 : state W),
         getHeaderFooter sectionIndex headerFooterType isHeader s
           = (inr (Some headerFooter), s1) ->
         reads (world s1) (Get TObj headerFooter "Range") None ->
         exists cause,
           setHeaderFooterText sectionIndex headerFooterType isHeader text s =
             (inl (TypeError cause), noted [EGet headerFooter "Range"] s1)).
Proof.
  split; [| split].
  - intros e s1 Hhf. unfold setHeaderFooterText. cbv [try_catch bind throw]. now rewrite Hhf.
  - intros headerFooter range s1 a w Hhf Hrange Hput. unfold reads in *.
    unfold setHeaderFooterText. cbv [try_catch bind]. rewrite Hhf.
    destruct s1 as [held w1 j]; cbn [world wordApp journal] in *. run.
    destruct a as [description | []]; journal_norm; reflexivity.
  - intros headerFooter s1 Hhf Hrange. unfold reads in *.
    unfold setHeaderFooterText. cbv [try_catch bind]. rewrite Hhf.
    destruct s1 as [held w1 j]; cbn [world wordApp journal] in *. run.
    eexists. reflexivity.
Qed.

End HeaderFooterProperties.

(** ** Without an active document *)

Section WithoutDocument.
Context {W : Type} `{Automation W}.

(** Run from [s], [m] throws [e] and leaves the state [s']. *)
Definition fails {A : Type} (m : M W A) (s : state W) (e : error) (s' : state W) : Prop :=
  m s = (inl e, s').

(** X18.  When getActiveDocument fails, every method that
    starts with it throws that very error and leaves the very state the
    lookup left: no further call is issued and no text of the method is
    added.  setTableCellText alone wraps the error in its own failure
    text. *)
Theorem document_failure_is_passed_on (s s1 : state W) (e : error) :
  getActiveDocument s = (inl e, s1) ->
  fails saveActiveDocument s e s1
  /\ (forall filePath fileFormat, fails (saveActiveDocumentAs filePath fileFormat) s e s1)
  /\ (forall findText replaceText matchCase matchWholeWord replaceAll,
         fails (findAndReplace findText replaceText matchCase matchWholeWord replaceAll) s e s1)
  /\ (forall tableIndex rowIndex colIndex,
         fails (getTableCell tableIndex rowIndex colIndex) s e s1)
  /\ (forall tableIndex rowIndex colIndex text,
         fails (setTableCellText tableIndex rowIndex colIndex text) s
               (Error ("Failed to set cell text. Error: " ++ to_string e)) s1)
  /\ (forall tableIndex beforeRowIndex, fails (insertTableRow tableIndex beforeRowIndex) s e s1)
  /\ (forall tableIndex beforeColIndex,
         fails (insertTableColumn tableIndex beforeColIndex) s e s1)
  /\ (forall tableIndex formatName applyFormatting,
         fails (applyTableAutoFormat tableIndex formatName applyFormatting) s e s1)
  /\ (forall shapeIndex heightPoints widthPoints lockAspectRatio,
         fails (setInlinePictureSize shapeIndex heightPoints widthPoints lockAspectRatio)
               s e s1)
  /\ (forall sectionIndex headerFooterType isHeader,
         fails (getHeaderFooter sectionIndex headerFooterType isHeader) s e s1)
  /\ (forall sectionIndex headerFooterType isHeader text,
         fails (setHeaderFooterText sectionIndex headerFooterType isHeader text) s e s1)
  /\ (forall top bottom left right, fails (setPageMargins top bottom left right) s e s1)
  /\ (forall orientation, fails (setPageOrientation orientation) s e s1)
  /\ (forall paperSize, fails (setPaperSize paperSize) s e s1)
  /\ (forall paragraphIndex, fails (selectParagraph paragraphIndex) s e s1).
Proof.
  intros Hdoc.
  repeat match goal with |- _ /\ _ => split end;
    intros; unfold fails;
    cbv [saveActiveDocument saveActiveDocumentAs findAndReplace getTableCell
         setTableCellText insertTableRow insertTableColumn applyTableAutoFormat
         setInlinePictureSize getHeaderFooter setHeaderFooterText setPageMargins
         setPageOrientation setPaperSize selectParagraph bind try_catch throw];
    rewrite Hdoc; reflexivity.
Qed.

(** X19.  With the application acquired and
    [ActiveDocument] raising or reading null, every method that works on
    the selection fails after that one read, with its own failure text
    followed by the cause: the description the read raised, or the
    TypeError of the access through null.  These methods do not report
    the no-document error of getActiveDocument.  (deleteText with count
    0 touches nothing and is excepted.) *)
Theorem selection_methods_without_document
        (s s1 : state W) (app : ref) (a : string + obj) (w : W) :
  getWordApplication s = (inr app, s1) ->
  dispatch (Get TObj app "ActiveDocument") (world s1) = (a, w) ->
  (forall doc, a <> inr (Some doc)) ->
  exists cause : error,
    (forall description, a = inl description -> cause = Error description)
    /\ (a = inr None -> exists reason, cause = TypeError reason)
    /\ let s2 := State (wordApp s1) w (journal s1 ++ [EGet app "ActiveDocument"]) in
       let thrown (failure : string) : error := Error (failure ++ to_string cause) in
       (forall text, fails (insertText text) s (thrown "Failed to insert text. Error: ") s2)
       /\ (forall count unit,
              count <> 0 ->
              fails (deleteText count unit) s (thrown "Failed to delete text. Error: ") s2)
       /\ fails toggleBold s (thrown "Failed to toggle bold formatting. Error: ") s2
       /\ fails toggleItalic s (thrown "Failed to toggle italic formatting. Error: ") s2
       /\ (forall style,
              fails (toggleUnderline style) s
                    (thrown "Failed to toggle underline formatting. Error: ") s2)
       /\ (forall alignment,
              fails (setParagraphAlignment alignment) s
                    (thrown "Failed to set paragraph alignment. Error: ") s2)
       /\ (forall points,
              fails (setParagraphLeftIndent points) s
                    (thrown "Failed to set left indent. Error: ") s2)
       /\ (forall points,
              fails (setParagraphRightIndent points) s
                    (thrown "Failed to set right indent. Error: ") s2)
       /\ (forall points,
              fails (setParagraphFirstLineIndent points) s
                    (thrown "Failed to set first line indent. Error: ") s2)
       /\ (forall points,
              fails (setParagraphSpaceBefore points) s
                    (thrown "Failed to set space before paragraph. Error: ") s2)
       /\ (forall points,
              fails (setParagraphSpaceAfter points) s
                    (thrown "Failed to set space after paragraph. Error: ") s2)
       /\ (forall rule value,
              fails (setParagraphLineSpacing rule value) s
                    (thrown "Failed to set line spacing. Error: ") s2)
       /\ (forall numRows numCols defaultTableBehavior autoFitBehavior,
              fails (addTable numRows numCols defaultTableBehavior autoFitBehavior) s
                    (thrown "Failed to add table. Error: ") s2)
       /\ (forall filePath linkToFile saveWithDocument,
              fails (insertPicture filePath linkToFile saveWithDocument) s
                    (thrown "Failed to insert picture. Error: ") s2)
       /\ fails moveCursorToStart s (thrown "Failed to move cursor to start. Error: ") s2
       /\ fails moveCursorToEnd s (thrown "Failed to move cursor to end. Error: ") s2
       /\ (forall unit count extend,
              fails (moveCursor unit count extend) s
                    (thrown "Failed to move cursor. Error: ") s2)
       /\ fails selectAll s (thrown "Failed to select all. Error: ") s2
       /\ (forall toStart,
              fails (collapseSelection toStart) s
                    (thrown "Failed to collapse selection. Error: ") s2)
       /\ fails getSelectionText s (thrown "Failed to get selection text. Error: ") s2
       /\ fails getSelectionInfo s (thrown "Failed to get selection info. Error: ") s2.
Proof.
  intros Hacq Hdoc Hnone.
  destruct s1 as [held w1 j]; cbn [world wordApp journal] in *.
  assert (Hcases : (exists description, a = inl description) \/ a = inr None).
  { destruct a as [description | [doc |]];
      [left; now exists description | now destruct (Hnone doc) | now right]. }
  destruct Hcases as [[description ->] | ->].
  - exists (Error description).
    split; [intros d Hd; now inversion Hd |]. split; [discriminate |].
    cbv zeta.
    repeat match goal with |- _ /\ _ => split end;
      intros; unfold fails;
      cbv [insertText deleteText toggleBold toggleItalic toggleUnderline
           setParagraphAlignment setParagraphLeftIndent setParagraphRightIndent
           setParagraphFirstLineIndent setParagraphSpaceBefore setParagraphSpaceAfter
           setParagraphLineSpacing ParagraphFormat addTable insertPicture
           moveCursorToStart moveCursorToEnd moveCursor selectAll collapseSelection
           getSelectionText getSelectionInfo];
      cbv [bind]; rewrite Hacq;
      try match goal with
        | |- context [?c >? 0] =>
            destruct (c >? 0) eqn:?; [| destruct (c <? 0) eqn:?; [| exfalso; lia]]
        end;
      try match goal with |- context [if ?b then _ else _] => destruct b end;
      run; reflexivity.
  - exists (TypeError "Cannot read properties of undefined (reading 'ActiveWindow')").
    split; [discriminate |]. split; [intros _; eexists; reflexivity |].
    cbv zeta.
    repeat match goal with |- _ /\ _ => split end;
      intros; unfold fails;
      cbv [insertText deleteText toggleBold toggleItalic toggleUnderline
           setParagraphAlignment setParagraphLeftIndent setParagraphRightIndent
           setParagraphFirstLineIndent setParagraphSpaceBefore setParagraphSpaceAfter
           setParagraphLineSpacing ParagraphFormat addTable insertPicture
           moveCursorToStart moveCursorToEnd moveCursor selectAll collapseSelection
           getSelectionText getSelectionInfo];
      cbv [bind]; rewrite Hacq;
      try match goal with
        | |- context [?c >? 0] =>
            destruct (c >? 0) eqn:?; [| destruct (c <? 0) eqn:?; [| exfalso; lia]]
        end;
      try match goal with |- context [if ?b then _ else _] => destruct b end;
      run; reflexivity.
Qed.

End WithoutDocument.

(** ** What the selection tools show *)

Section SelectionTools.
Context {W : Type} `{Automation W}.

(** The selection reads as [text], from [start] to [end_], of type [type]. *)
Definition described (w : W) (selection : ref) (text : string) (start end_ type : Z) : Prop :=
  reads w (Get TStr selection "Text") text /\
  reads w (Get TInt selection "Start") start /\
  reads w (Get TInt selection "End") end_ /\
  reads w (Get TInt selection "Type") type.

Definition describing (app doc window selection : ref) : list event :=
  selecting app doc window
    ++ [EGet selection "Text"; EGet selection "Start"; EGet selection "End";
        EGet selection "Type"; EGet selection "Type"].

Lemma getSelectionInfo_described
      (s s1 : state W) (app doc window selection : ref) (text : string)
      (start end_ type : Z) :
  getWordApplication s = (inr app, s1) ->
  selected (world s1) app doc window selection ->
  described (world s1) selection text start end_ type ->
  getSelectionInfo s =
    (inr {| info_text := text; info_start := start; info_end := end_;
            info_isActive := negb (type =? 0); info_type := type |},
     noted (describing app doc window selection) s1).
Proof.
  intros Hacq (Hd & Hw & Hs) (Htext & Hstart & Hend & Htype). unfold reads in *.
  destruct s1 as [held w j]; cbn [world wordApp journal] in *.
  unfold getSelectionInfo, describing, selecting. cbv [bind]. rewrite Hacq. run.
  journal_norm. reflexivity.
Qed.

Lemma typeMap_None (type : Z) : typeMap type = Some "None" <-> type = 0.
Proof.
  unfold typeMap. split.
  - destruct (type =? 0) eqn:E0; [intros _; now apply Z.eqb_eq |].
    repeat match goal with
      | |- context [if ?b then _ else _] => destruct b
      end; discriminate.
  - intros ->. reflexivity.
Qed.

(** X20.  With the selection's Text, Start, End and Type
    reading stably, the word_getSelectionInfo handler answers six lines,
    unflagged, after reading the selection path once and then Text,
    Start, End and Type twice.  The text line shows [(empty)] for an empty
    text (as for a text that is literally that), the Is Active line is
    false exactly when the type is 0, the type line reads None exactly
    then, and a type outside 0..7 is shown as [Unknown (type)]. *)
Theorem getSelectionInfoTool_reports_the_selection
        (s s1 : state W) (app doc window selection : ref) (text : string)
        (start end_ type : Z) :
  getWordApplication s = (inr app, s1) ->
  selected (world s1) app doc window selection ->
  described (world s1) selection text start end_ type ->
  let result := fst (getSelectionInfoTool s) in
  snd (getSelectionInfoTool s) = noted (describing app doc window selection) s1
  /\ isError result = None
  /\ length (content result) = 6%nat
  /\ nth 2 (content result) "" = ("- Start Position: " ++ show start)%string
  /\ nth 3 (content result) "" = ("- End Position: " ++ show end_)%string
  /\ (nth 1 (content result) "" = "- Text: (empty)" <-> text = "" \/ text = "(empty)")
  /\ (nth 4 (content result) "" = "- Is Active: false" <-> type = 0)
  /\ (nth 5 (content result) "" = "- Selection Type: None" <-> type = 0)
  /\ (type < 0 \/ 7 < type ->
      nth 5 (content result) "" = ("- Selection Type: Unknown (" ++ show type ++ ")")%string).
Proof.
  intros Hacq Hsel Hdesc result. subst result. unfold getSelectionInfoTool.
  rewrite (getSelectionInfo_described s s1 app doc window selection text start end_ type
             Hacq Hsel Hdesc).
  cbn [fst snd content isError info_text info_start info_end info_isActive info_type
       nth length].
  split; [reflexivity |]. split; [reflexivity |]. split; [reflexivity |].
  split; [reflexivity |]. split; [reflexivity |].
  split; [| split; [| split]].
  - split.
    + destruct text as [| c rest]; [intros _; now left |].
      intros Heq. right. cbn [String.eqb append] in Heq. congruence.
    + intros [-> | ->]; reflexivity.
  - split.
    + destruct (type =? 0) eqn:E; [intros _; now apply Z.eqb_eq |].
      intros Heq. cbn [negb show_bool append] in Heq. discriminate Heq.
    + intros ->. reflexivity.
  - split.
    + intros Heq. apply typeMap_None.
      destruct (typeMap type) as [name |] eqn:E.
      * cbn [append] in Heq. congruence.
      * cbn [append] in Heq. discriminate Heq.
    + intros ->. reflexivity.
  - intros Hout. unfold typeMap.
    repeat match goal with
      | |- context [?a =? ?b] => rewrite (proj2 (Z.eqb_neq a b)) by lia
      end.
    reflexivity.
Qed.

(** X21.  With the selection's Text reading [text], the
    word_getSelectionText handler answers two lines, unflagged: its
    header and the text, or [(empty selection)] when the text is empty;
    the second line is never empty.  Its calls are the selection path and
    the one read of Text. *)
Theorem getSelectionTextTool_shows_the_selection
        (s s1 : state W) (app doc window selection : ref) (text : string) :
  getWordApplication s = (inr app, s1) ->
  selected (world s1) app doc window selection ->
  reads (world s1) (Get TStr selection "Text") text ->
  exists shown,
    getSelectionTextTool s =
      ({| content := ["Current selection text:"; shown]; isError := None |},
       noted (selecting app doc window ++ [EGet selection "Text"]) s1)
    /\ shown <> ""
    /\ (text <> "" -> shown = text)
    /\ (text = "" -> shown = "(empty selection)").
Proof.
  intros Hacq (Hd & Hw & Hs) Htext. unfold reads in *.
  destruct s1 as [held w j]; cbn [world wordApp journal] in *.
  exists (if String.eqb text "" then "(empty selection)" else text).
  split; [| split; [| split]].
  - unfold getSelectionTextTool, getSelectionText, selecting. cbv [bind]. rewrite Hacq.
    run. journal_norm. reflexivity.
  - destruct text; cbn [String.eqb]; discriminate.
  - destruct text; cbn [String.eqb]; [intros Hne; now destruct Hne | reflexivity].
  - intros ->. reflexivity.
Qed.

End SelectionTools.

(** * Concrete runs

    The service on the in-memory automation layers: one run for each
    property above, and the runs that show where the specification says
    more than the code does. *)

(** The running Word of [Fake.office], probed and asked for its document. *)
Definition office_session : state Fake.store := Fake.holding Fake.office.

Definition office_document : state Fake.store := snd (getActiveDocument office_session).

Lemma office_document_open :
  getActiveDocument office_session = (inr Fake.doc, office_document).
Proof. reflexivity. Defined.

(** ** Index validation (C1) *)

(** Against C1 as stated.  Table 1 of the office document has two rows.
    setTableCellText on its row 5 does fail, but not with an out-of-range error of the service:
    the error is the one the [Cell] lookup of the automation layer raised,
    rewrapped. *)
Lemma cell_row_index_is_not_validated :
  reads Fake.office (Get TInt Fake.rows "Count") 2
  /\ fst (setTableCellText 1 5 1 "x" office_session)
     = inl (Error ("Failed to set cell text. Error: Error: Failed to get cell. Error: Error: "
                     ++ "The requested member of the collection does not exist."))
  /\ out_of_range
       ("Failed to set cell text. Error: Error: Failed to get cell. Error: Error: "
          ++ "The requested member of the collection does not exist.") = false.
Proof. repeat split. Qed.

Lemma index_arguments_are_validated_witness :
  fst (getTableCell 2 1 1 office_session)
  = inl (Error "Failed to get cell. Error: Error: Table index 2 is out of bounds.")
  /\ world (snd (getTableCell 2 1 1 office_session)) = Fake.office.
Proof.
  destruct (index_arguments_are_validated office_session office_document Fake.doc
              office_document_open) as (Htables & _).
  destruct (Htables Fake.tables 1 2 (conj eq_refl eq_refl)) as (Hout & _).
  destruct (Hout (or_intror eq_refl)) as (Hcell & _).
  destruct (Hcell 1 1) as (_ & lookups & _ & Hrun).
  rewrite Hrun. split; reflexivity.
Defined.

(** ** The application handle (C2, C3) *)

(** C2, where the code departs from it.  On [Fake.headless] creating the
    application succeeds and making it visible throws.  getWordApplication, called with no handle held,
    throws the initialization error that wraps the cause, as the claim says; but the
    handle is not left unset: the new object was stored before the write
    of [Visible] and the handler does not reset the field.  The next call
    does not start over: it probes the stored object and returns it,
    creating nothing and writing nothing, and that application still
    reads as not visible. *)
Theorem failed_acquisition_can_leave_handle_set :
  let first := getWordApplication (Fake.fresh Fake.headless) in
  let second := getWordApplication (snd first) in
  fst first
  = inl (Error ("Failed to initialize Word.Application. Make sure Microsoft Word is installed. Error: Error: "
                  ++ "Access is denied."))
  /\ journal (snd first)
     = [ENew "Word.Application"; EPut 100%nat "Visible" (VBool true)]
  /\ wordApp (snd first) = Some 100%nat
  /\ second = (inr 100%nat, noted (probing 100%nat Fake.documents) (snd first))
  /\ Fake.prop 100%nat "Visible" (Fake.props (world (snd second))) = Some (VBool false).
Proof. repeat split. Qed.

Lemma refused_creation_leaves_handle_unset_witness :
  fst (getWordApplication (Fake.fresh Fake.not_installed))
  = inl (Error ("Failed to initialize Word.Application. Make sure Microsoft Word is installed. Error: Error: "
                  ++ "Class not registered"))
  /\ wordApp (snd (getWordApplication (Fake.fresh Fake.not_installed))) = None.
Proof.
  destruct (refused_creation_leaves_handle_unset
              (Fake.fresh Fake.not_installed) (Fake.fresh Fake.not_installed)
              "Class not registered" Fake.not_installed
              (or_introl (conj eq_refl eq_refl)) eq_refl) as (Hrun & _).
  rewrite Hrun. split; reflexivity.
Defined.

Lemma stale_handle_is_replaced_witness :
  probe Fake.app (Fake.holding Fake.gone)
  = (inl (Error "The RPC server is unavailable."),
     State (Some Fake.app) Fake.gone [EGet Fake.app "Visible"])
  /\ fst (getWordApplication (Fake.holding Fake.gone)) = inr 100%nat
  /\ wordApp (snd (getWordApplication (Fake.holding Fake.gone))) = Some 100%nat
  /\ 100%nat <> Fake.app.
Proof.
  assert (Hprobe : probe Fake.app (Fake.holding Fake.gone)
                   = (inl (Error "The RPC server is unavailable."),
                      State (Some Fake.app) Fake.gone [EGet Fake.app "Visible"]))
    by reflexivity.
  destruct (stale_handle_is_replaced (Fake.holding Fake.gone) Fake.app eq_refl)
    as (_ & Hstale).
  destruct (Hstale (Error "The RPC server is unavailable.")
                   (State (Some Fake.app) Fake.gone [EGet Fake.app "Visible"]) Hprobe)
    as (_ & _ & Hcreated & _).
  split; [exact Hprobe |].
  pose (w1 := snd (dispatch (New "Word.Application") Fake.gone)).
  pose (w2 := snd (dispatch (Put 100%nat "Visible" (VBool true)) w1)).
  rewrite (Hcreated 100%nat w1 w2 eq_refl eq_refl).
  repeat split. discriminate.
Defined.

(** ** Text (C4, C6, C7) *)



Lemma toggleUnderline_toggles_witness :
  let s1 := snd (getWordApplication office_session) in
  let w1 := snd (dispatch (Put Fake.font "Underline" (VInt 1)) Fake.office) in
  let once :=
    State (Some Fake.app) w1
          (journal s1 ++ toggling Fake.app Fake.doc Fake.window Fake.selection Fake.font 1) in
  let s2 := snd (getWordApplication once) in
  let w2 := snd (dispatch (Put Fake.font "Underline" (VInt 0)) w1) in
  (toggleUnderline 1 office_session = (inr tt, once)
   /\ toggleUnderline 1 once
      = (inr tt,
         State (Some Fake.app) w2
               (journal s2
                  ++ toggling Fake.app Fake.doc Fake.window Fake.selection Fake.font 0)))
  /\ Fake.prop Fake.font "Underline" (Fake.props Fake.office) = Some (VInt 0)
  /\ Fake.prop Fake.font "Underline" (Fake.props w1) = Some (VInt 1)
  /\ Fake.prop Fake.font "Underline" (Fake.props w2) = Some (VInt 0).
Proof.
  intros s1 w1 once s2 w2.
  assert (Hacquired : getWordApplication office_session = (inr Fake.app, s1)) by reflexivity.
  assert (Hplain : underlined (world s1) Fake.app Fake.doc Fake.window Fake.selection
                              Fake.font 0) by (repeat split).
  assert (Hput : dispatch (Put Fake.font "Underline" (VInt 1)) (world s1) = (inr tt, w1))
    by reflexivity.
  assert (Hacquired2 : getWordApplication once = (inr Fake.app, s2)) by reflexivity.
  assert (Hsingle : underlined (world s2) Fake.app Fake.doc Fake.window Fake.selection
                               Fake.font 1) by (repeat split).
  assert (Hput2 : dispatch (Put Fake.font "Underline" (VInt 0)) (world s2) = (inr tt, w2))
    by reflexivity.
  destruct (toggleUnderline_toggles office_session s1 Fake.app Fake.doc Fake.window
              Fake.selection Fake.font 0 Hacquired Hplain) as (_ & _ & Htwice).
  split; [| repeat split].
  exact (Htwice eq_refl 1 w1 s2 Fake.app Fake.doc Fake.window Fake.selection Fake.font
                (inr tt) w2 Hput Hacquired2 Hsingle Hput2).
Defined.

Lemma findReplaceTool_flags_unmatched_replaceAll_witness :
  fst (findAndReplace "X" "Y" false false true office_session) = inr false
  /\ flagged (fst (findReplaceTool "X" "Y" false false true office_session))
  /\ fst (findAndReplace "X" "Y" false false false office_session) = inr false
  /\ ~ flagged (fst (findReplaceTool "X" "Y" false false false office_session)).
Proof.
  assert (Hall : findAndReplace "X" "Y" false false true office_session
                 = (inr false, snd (findAndReplace "X" "Y" false false true office_session)))
    by (vm_compute; reflexivity).
  assert (Hone : findAndReplace "X" "Y" false false false office_session
                 = (inr false, snd (findAndReplace "X" "Y" false false false office_session)))
    by (vm_compute; reflexivity).
  destruct (findReplaceTool_flags_unmatched_replaceAll
              office_session (snd (findAndReplace "X" "Y" false false true office_session))
              "X" "Y" false false true false Hall) as (_ & Hflag & _).
  destruct (findReplaceTool_flags_unmatched_replaceAll
              office_session (snd (findAndReplace "X" "Y" false false false office_session))
              "X" "Y" false false false false Hone) as (_ & _ & Hplain & _).
  split; [exact (f_equal fst Hall) | split; [| split]].
  - apply Hflag. split; reflexivity.
  - exact (f_equal fst Hone).
  - exact (Hplain eq_refl).
Defined.

(** ** Tables (C8) *)

Lemma insertTableRow_positions_witness :
  fst (insertTableRow 1 (Some 3) office_session) = fst (insertTableRow 1 None office_session)
  /\ world (snd (insertTableRow 1 (Some 3) office_session))
     = world (snd (insertTableRow 1 None office_session))
  /\ fst (insertTableRow 1 None office_session) = inr (Some Fake.added).
Proof.
  assert (Hrows : table_rows (world office_document) Fake.doc Fake.tables Fake.table
                             Fake.rows 1 2).
  { split; [exists 1; split; [split; reflexivity | lia] |].
    repeat split. discriminate. }
  assert (Hsame : dispatch (Invoke TObj Fake.rows "Add" [VUndefined]) (world office_document)
                  = dispatch (Invoke TObj Fake.rows "Add" []) (world office_document))
    by reflexivity.
  assert (Hadd : dispatch (Invoke TObj Fake.rows "Add" []) (world office_document)
                 = (inr (Some Fake.added), Fake.office)) by reflexivity.
  destruct (insertTableRow_positions office_session office_document
              Fake.doc Fake.tables Fake.table Fake.rows 1 2
              office_document_open Hrows) as (Happend & _ & Hequal & _).
  destruct (Hequal Hsame) as (Hresult & Hworld & _).
  split; [exact Hresult | split; [exact Hworld |]].
  exact (f_equal fst (Happend (inr (Some Fake.added)) Fake.office Hadd)).
Defined.

(** ** Inline pictures (C5, C9, C10) *)

(** The inline picture of the office document, with its aspect-ratio lock
    about to be written. *)
Lemma office_picture (lockAspectRatio : bool) :
  sizable office_document Fake.doc Fake.shapes Fake.shape 1 100 200 lockAspectRatio
          (snd (dispatch (Put Fake.shape "LockAspectRatio"
                              (VInt (if lockAspectRatio then -1 else 0)))
                         Fake.office)).
Proof.
  split; [exists 1; split; [split; reflexivity | lia] |].
  destruct lockAspectRatio; repeat split.
Defined.

Lemma setInlinePictureSize_locked_writes_dominant_witness :
  gt (PrimFloat.div 150 200) (PrimFloat.div 50 100) = true
  /\ fst (setInlinePictureSize 1 50 150 true office_session) = inr tt
  /\ journal (snd (setInlinePictureSize 1 50 150 true office_session))
     = journal office_document
         ++ resolving Fake.doc "InlineShapes" Fake.shapes 1
         ++ [EGet Fake.shape "Height"; EGet Fake.shape "Width";
             EPut Fake.shape "LockAspectRatio" (VInt (-1));
             EPut Fake.shape "Width" (VNum 150)].
Proof.
  pose (w1 := snd (dispatch (Put Fake.shape "LockAspectRatio" (VInt (-1))) Fake.office)).
  pose (w2 := snd (dispatch (Put Fake.shape "Width" (VNum 150)) w1)).
  assert (Hput : dispatch (Put Fake.shape "Width" (VNum 150)) w1 = (inr tt, w2))
    by reflexivity.
  destruct (setInlinePictureSize_locked_writes_dominant
              office_session office_document Fake.doc Fake.shapes Fake.shape 1
              100 200 50 150 w1 office_document_open (office_picture true)
              eq_refl eq_refl) as (Hwidth & _).
  pose proof (Hwidth eq_refl (inr tt) w2 Hput) as Hrun.
  split; [reflexivity | split].
  - exact (f_equal fst Hrun).
  - exact (eq_trans (f_equal (fun r => journal (snd r)) Hrun)
                    (eq_sym (app_assoc _ _ _))).
Defined.

(** Against C9 as stated.  The picture of the office document has its
    aspect ratio unlocked (LockAspectRatio reads 0).  setInlinePictureSize with neither dimension
    positive succeeds, and the lock reads -1 afterwards: a property of the
    shape has changed. *)
Lemma setInlinePictureSize_without_size_sets_the_lock :
  gt 0 0 = false
  /\ fst (setInlinePictureSize 1 0 0 true office_session) = inr tt
  /\ Fake.prop Fake.shape "LockAspectRatio" (Fake.props Fake.office) = Some (VInt 0)
  /\ Fake.prop Fake.shape "LockAspectRatio"
               (Fake.props (world (snd (setInlinePictureSize 1 0 0 true office_session))))
     = Some (VInt (-1)).
Proof. repeat split. Qed.

Lemma setInlinePictureSize_writes_positive_dimension_witness :
  fst (setInlinePictureSize 1 50 0 false office_session) = inr tt
  /\ journal (snd (setInlinePictureSize 1 50 0 false office_session))
     = journal office_document
         ++ resolving Fake.doc "InlineShapes" Fake.shapes 1
         ++ [EGet Fake.shape "Height"; EGet Fake.shape "Width";
             EPut Fake.shape "LockAspectRatio" (VInt 0);
             EPut Fake.shape "Height" (VNum 50)].
Proof.
  pose (w1 := snd (dispatch (Put Fake.shape "LockAspectRatio" (VInt 0)) Fake.office)).
  pose (w2 := snd (dispatch (Put Fake.shape "Height" (VNum 50)) w1)).
  assert (Hput : dispatch (Put Fake.shape "Height" (VNum 50)) w1 = (inr tt, w2))
    by reflexivity.
  destruct (setInlinePictureSize_writes_positive_dimension
              office_session office_document Fake.doc Fake.shapes Fake.shape 1
              100 200 50 0 false w1 office_document_open (office_picture false))
    as (Hheight & _).
  pose proof (Hheight eq_refl eq_refl (inr tt) w2 Hput) as Hrun.
  split.
  - exact (f_equal fst Hrun).
  - exact (eq_trans (f_equal (fun r => journal (snd r)) Hrun)
                    (eq_sym (app_assoc _ _ _))).
Defined.

Lemma setInlinePictureSizeTool_without_size_witness :
  le 0 0 = true
  /\ le (-1) 0 = true
  /\ setInlinePictureSizeTool 7 0 (-1) true office_session
     = ({| content := ["No size change specified (height and width were not positive values)."];
           isError := Some false |}, office_session).
Proof.
  split; [reflexivity | split; [reflexivity |]].
  exact (proj1 (setInlinePictureSizeTool_without_size
                  office_session 7 0 (-1) true eq_refl eq_refl)).
Defined.

(** * Concrete runs of the further properties *)

(** The office with a page setup, a paragraph format, a selected word, and a
    document that can be saved and closed; [faults] lists the calls that
    raise. *)
Definition pageSetup : ref := 60%nat.
Definition paragraphFormat : ref := 61%nat.

Definition studio (faults : list (event * string)) : Fake.store :=
  Fake.Store 100%nat
    (Fake.props Fake.office
       ++ [ (Fake.doc, "PageSetup", VObj pageSetup);
            (Fake.selection, "ParagraphFormat", VObj paragraphFormat);
            (Fake.selection, "Text", VStr "word");
            (Fake.selection, "Start", VInt 3);
            (Fake.selection, "End", VInt 7);
            (Fake.selection, "Type", VInt 2) ])
    (Fake.methods Fake.office
       ++ [ (Fake.doc, "Close", [VInt 0], VUndefined);
            (Fake.doc, "Save", [], VUndefined) ])
    faults.

Definition studio_session (faults : list (event * string)) : state Fake.store :=
  Fake.holding (studio faults).

(** A running Word with no document open. *)
Definition vacant : Fake.store :=
  Fake.Store 100%nat
    [ (Fake.app, "Visible", VBool true);
      (Fake.app, "Documents", VObj Fake.documents);
      (Fake.documents, "Count", VInt 0);
      (Fake.app, "ActiveDocument", VUndefined) ]
    [] [].

Definition vacant_session : state Fake.store := Fake.holding vacant.

Definition probed {W : Type} (s : state W) : state W :=
  noted (probing Fake.app Fake.documents) s.

Lemma office_live : live Fake.office Fake.app Fake.documents.
Proof.
  split; [exists true; reflexivity | split; [reflexivity | exists 1; reflexivity]].
Defined.

Lemma studio_selected :
  selected (studio []) Fake.app Fake.doc Fake.window Fake.selection.
Proof. repeat split. Defined.

Lemma studio_acquired :
  getWordApplication (studio_session []) = (inr Fake.app, probed (studio_session [])).
Proof. reflexivity. Defined.

Lemma vacant_acquired :
  getWordApplication vacant_session = (inr Fake.app, probed vacant_session).
Proof. reflexivity. Defined.

(** ** The handle *)

Lemma returned_handle_is_stored_witness :
  wordApp (snd (getWordApplication (Fake.fresh Fake.office))) = Some 100%nat.
Proof.
  assert (Hrun : getWordApplication (Fake.fresh Fake.office)
                 = (inr 100%nat, snd (getWordApplication (Fake.fresh Fake.office))))
    by reflexivity.
  exact (proj1 (returned_handle_is_stored _ _ _ Hrun)).
Defined.

Lemma held_handle_is_reused_witness :
  getWordApplication (probed office_session) = (inr Fake.app, probed (probed office_session)).
Proof.
  exact (proj2 (held_handle_is_reused office_session Fake.app Fake.documents
                  eq_refl office_live)).
Defined.

(** ** Closing *)

Definition close_refused : list (event * string) :=
  [(EInvoke Fake.doc "Close" [VInt 0], "The document is locked.")].

Lemma closeDocumentTool_reports_success_witness :
  fst (dispatch (closing Fake.doc VUndefined) (studio close_refused))
  = inl "The document is locked."
  /\ fst (closeDocumentTool VUndefined (studio_session close_refused)) = closed.
Proof.
  assert (Hdoc : getActiveDocument (studio_session close_refused)
                 = (inr Fake.doc, snd (getActiveDocument (studio_session close_refused))))
    by reflexivity.
  split; [reflexivity |].
  exact (f_equal fst (closeDocumentTool_reports_success _ _ _ VUndefined Hdoc)).
Defined.

Lemma closeDocumentTool_without_document_witness :
  fst (closeDocumentTool (VInt (-1)) vacant_session) = nothing_to_close
  /\ world (snd (closeDocumentTool (VInt (-1)) vacant_session)) = vacant.
Proof.
  assert (Hdoc : dispatch (Get TObj Fake.app "ActiveDocument") (world (probed vacant_session))
                 = (inr None, vacant)) by reflexivity.
  pose proof (proj2 (closeDocumentTool_without_document
                       vacant_session (probed vacant_session) Fake.app vacant (VInt (-1))
                       vacant_acquired Hdoc)) as Hrun.
  split.
  - exact (f_equal fst Hrun).
  - exact (f_equal (fun r => world (snd r)) Hrun).
Defined.

(** ** Line spacing *)

Definition plain (x : float) : string := "12".

Lemma setLineSpacingTool_requires_value_witness :
  fst (setLineSpacingTool plain 4 None office_session)
  = {| content := ["Failed to set line spacing: lineSpacingValue is required when lineSpacingRule is AtLeast, Exactly, or Multiple."];
       isError := Some true |}
  /\ snd (setLineSpacingTool plain 4 None office_session) = office_session.
Proof.
  assert (Hrule : 3 <= 4) by lia.
  pose proof (proj1 (setLineSpacingTool_requires_value plain office_session 4 Hrule)) as Hrun.
  split.
  - exact (f_equal fst Hrun).
  - exact (f_equal snd Hrun).
Defined.

Lemma line_spacing_value_is_ignored_below_rule_3_witness :
  setParagraphLineSpacing 1 (Some 12%float) (studio_session [])
  = setParagraphLineSpacing 1 None (studio_session []).
Proof.
  assert (Hrule : 1 < 3) by lia.
  exact (proj1 (line_spacing_value_is_ignored_below_rule_3 plain (studio_session []) 1 12
                  Hrule)).
Defined.

Lemma studio_formatted :
  formatted (studio []) Fake.app Fake.doc Fake.window Fake.selection paragraphFormat.
Proof. repeat split. Defined.

Lemma setParagraphLineSpacing_writes_rule_then_value_witness :
  fst (setParagraphLineSpacing 4 (Some 12%float) (studio_session [])) = inr tt
  /\ journal (snd (setParagraphLineSpacing 4 (Some 12%float) (studio_session [])))
     = (journal (probed (studio_session []))
          ++ selecting Fake.app Fake.doc Fake.window
          ++ [EGet Fake.selection "ParagraphFormat";
              EPut paragraphFormat "LineSpacingRule" (VInt 4)])
         ++ [EPut paragraphFormat "LineSpacing" (VNum 12)].
Proof.
  assert (Hrule : 3 <= 4) by lia.
  pose (w2 := snd (dispatch (Put paragraphFormat "LineSpacingRule" (VInt 4)) (studio []))).
  pose (w3 := snd (dispatch (Put paragraphFormat "LineSpacing" (VNum 12)) w2)).
  assert (Hruled : dispatch (Put paragraphFormat "LineSpacingRule" (VInt 4))
                            (world (probed (studio_session []))) = (inr tt, w2))
    by reflexivity.
  assert (Hspaced : dispatch (Put paragraphFormat "LineSpacing" (VNum 12)) w2 = (inr tt, w3))
    by reflexivity.
  pose proof (proj2 (setParagraphLineSpacing_writes_rule_then_value
                       (studio_session []) (probed (studio_session []))
                       Fake.app Fake.doc Fake.window Fake.selection paragraphFormat
                       4 12 (inr tt) w2 studio_acquired studio_formatted Hrule Hruled)
                    (inr tt) w3 Hspaced) as Hrun.
  split.
  - exact (f_equal fst Hrun).
  - exact (f_equal (fun r => journal (snd r)) Hrun).
Defined.

(** ** Page margins *)



(** ** Pictures, tables, headers *)

Lemma setInlinePictureSize_free_writes_height_then_width_witness :
  fst (setInlinePictureSize 1 50 150 false office_session) = inr tt
  /\ journal (snd (setInlinePictureSize 1 50 150 false office_session))
     = journal (locked office_document Fake.doc Fake.shapes Fake.shape 1 false
                       (snd (dispatch (Put Fake.shape "LockAspectRatio" (VInt 0)) Fake.office)))
         ++ [EPut Fake.shape "Height" (VNum 50); EPut Fake.shape "Width" (VNum 150)].
Proof.
  pose (w1 := snd (dispatch (Put Fake.shape "LockAspectRatio" (VInt 0)) Fake.office)).
  pose (w2 := snd (dispatch (Put Fake.shape "Height" (VNum 50)) w1)).
  pose (w3 := snd (dispatch (Put Fake.shape "Width" (VNum 150)) w2)).
  assert (Hheight : dispatch (Put Fake.shape "Height" (VNum 50)) w1 = (inr tt, w2))
    by reflexivity.
  assert (Hwidth : dispatch (Put Fake.shape "Width" (VNum 150)) w2 = (inr tt, w3))
    by reflexivity.
  pose proof (setInlinePictureSize_free_writes_height_then_width
                office_session office_document Fake.doc Fake.shapes Fake.shape 1
                100 200 50 150 w1 w2 (inr tt) office_document_open (office_picture false)
                eq_refl eq_refl Hheight (inr tt) w3 Hwidth) as Hrun.
  split.
  - exact (f_equal fst Hrun).
  - exact (f_equal (fun r => journal (snd r)) Hrun).
Defined.

Lemma office_columns :
  table_columns (world office_document) Fake.doc Fake.tables Fake.table Fake.columns 1 2.
Proof.
  split; [exists 1; split; [split; reflexivity | lia] |].
  repeat split. discriminate.
Defined.

Lemma insertTableColumn_positions_witness :
  fst (insertTableColumn 1 (Some 2) office_session) = inr (Some Fake.added)
  /\ journal (snd (insertTableColumn 1 (Some 2) office_session))
     = journal office_document ++ resolving Fake.doc "Tables" Fake.tables 1
         ++ checking Fake.table "Columns" Fake.columns
         ++ checking Fake.table "Columns" Fake.columns
         ++ [EGet Fake.table "Columns"; EInvoke Fake.columns "Item" [VInt 2];
             EGet Fake.table "Columns"; EInvoke Fake.columns "Add" [VObj Fake.column2]].
Proof.
  assert (Hrange : 1 <= 2 <= 2) by lia.
  assert (Hitem : element (world office_document) Fake.columns 2 Fake.column2)
    by reflexivity.
  assert (Hadd : dispatch (Invoke TObj Fake.columns "Add" [VObj Fake.column2])
                          (world office_document)
                 = (inr (Some Fake.added), Fake.office)) by reflexivity.
  destruct (insertTableColumn_positions office_session office_document
              Fake.doc Fake.tables Fake.table Fake.columns 1 2
              office_document_open office_columns) as (_ & _ & Hbefore).
  pose proof (Hbefore 2 Fake.column2 (inr (Some Fake.added)) Fake.office
                      Hrange Hitem Hadd) as Hrun.
  split.
  - exact (f_equal fst Hrun).
  - exact (f_equal (fun r => journal (snd r)) Hrun).
Defined.

Lemma office_cell :
  getTableCell 1 1 1 office_session
  = (inr (Some Fake.cell11), snd (getTableCell 1 1 1 office_session)).
Proof. reflexivity. Defined.

Lemma setTableCellText_writes_the_cell_witness :
  fst (setTableCellText 1 1 1 "new" office_session) = inr tt
  /\ journal (snd (setTableCellText 1 1 1 "new" office_session))
     = journal (snd (getTableCell 1 1 1 office_session))
         ++ [EGet Fake.cell11 "Range"; EPut Fake.range "Text" (VStr "new")].
Proof.
  pose (w := snd (dispatch (Put Fake.range "Text" (VStr "new")) Fake.office)).
  assert (Hrange : reads (world (snd (getTableCell 1 1 1 office_session)))
                         (Get TObj Fake.cell11 "Range") (Some Fake.range))
    by reflexivity.
  assert (Hput : dispatch (Put Fake.range "Text" (VStr "new"))
                          (world (snd (getTableCell 1 1 1 office_session)))
                 = (inr tt, w)) by reflexivity.
  destruct (setTableCellText_writes_the_cell office_session 1 1 1 "new")
    as (_ & Hwrite & _).
  pose proof (Hwrite Fake.cell11 Fake.range _ (inr tt) w office_cell Hrange Hput) as Hrun.
  split.
  - exact (f_equal fst Hrun).
  - exact (f_equal (fun r => journal (snd r)) Hrun).
Defined.

Lemma office_headers :
  section_items (world office_document) Fake.doc Fake.sections Fake.section Fake.headers
                1 true.
Proof.
  split; [exists 1; split; [split; reflexivity | lia] |].
  split; reflexivity.
Defined.

Lemma getHeaderFooter_checks_type_and_existence_witness :
  fst (getHeaderFooter 1 4 true office_session)
  = inl (Error "Failed to get header/footer. Error: Error: Invalid header/footer type: 4. Use 1, 2, or 3.")
  /\ fst (getHeaderFooter 1 1 true office_session) = inr (Some Fake.header).
Proof.
  destruct (getHeaderFooter_checks_type_and_existence
              office_session office_document Fake.doc Fake.sections Fake.section
              Fake.headers 1 4 true office_document_open office_headers)
    as (Hinvalid & _).
  destruct (getHeaderFooter_checks_type_and_existence
              office_session office_document Fake.doc Fake.sections Fake.section
              Fake.headers 1 1 true office_document_open office_headers)
    as (_ & _ & Hfound).
  assert (Hout : 4 < 1 \/ 3 < 4) by lia.
  assert (Hin : 1 <= 1 <= 3) by lia.
  assert (Hitem : reads (world office_document)
                        (Invoke TObj Fake.headers "Item" [VInt 1]) (Some Fake.header))
    by reflexivity.
  assert (Hexists : reads (world office_document) (Get TBool Fake.header "Exists") true)
    by reflexivity.
  split.
  - exact (f_equal fst (Hinvalid Hout)).
  - exact (f_equal fst (Hfound Fake.header true Hin Hitem Hexists)).
Defined.

Lemma office_header :
  getHeaderFooter 1 1 true office_session
  = (inr (Some Fake.header), snd (getHeaderFooter 1 1 true office_session)).
Proof. reflexivity. Defined.

Lemma setHeaderFooterText_rethrows_unwrapped_witness :
  fst (setHeaderFooterText 1 1 true "Title" office_session) = inr tt
  /\ fst (setHeaderFooterText 1 2 true "Title" office_session)
     = inl (Error ("Failed to get header/footer. Error: Error: "
                     ++ "The requested member of the collection does not exist.")).
Proof.
  pose (w := snd (dispatch (Put Fake.range "Text" (VStr "Title")) Fake.office)).
  assert (Hrange : reads (world (snd (getHeaderFooter 1 1 true office_session)))
                         (Get TObj Fake.header "Range") (Some Fake.range))
    by reflexivity.
  assert (Hput : dispatch (Put Fake.range "Text" (VStr "Title"))
                          (world (snd (getHeaderFooter 1 1 true office_session)))
                 = (inr tt, w)) by reflexivity.
  destruct (setHeaderFooterText_rethrows_unwrapped office_session 1 1 true "Title")
    as (_ & Hwrite & _).
  destruct (setHeaderFooterText_rethrows_unwrapped office_session 1 2 true "Title")
    as (Hpass & _).
  assert (Hmissing : getHeaderFooter 1 2 true office_session
                     = (inl (Error ("Failed to get header/footer. Error: Error: "
                                      ++ "The requested member of the collection does not exist.")),
                        snd (getHeaderFooter 1 2 true office_session)))
    by reflexivity.
  split.
  - exact (f_equal fst (Hwrite Fake.header Fake.range _ (inr tt) w office_header
                               Hrange Hput)).
  - exact (f_equal fst (Hpass _ _ Hmissing)).
Defined.

(** ** Without a document *)

Lemma vacant_document :
  getActiveDocument vacant_session
  = (inl (Error "Failed to get active document. Error: Error: No active document found in Word."),
     snd (getActiveDocument vacant_session)).
Proof. reflexivity. Defined.

Lemma document_failure_is_passed_on_witness :
  setPageOrientation 1 vacant_session
  = (inl (Error "Failed to get active document. Error: Error: No active document found in Word."),
     snd (getActiveDocument vacant_session))
  /\ fst (setTableCellText 1 1 1 "x" vacant_session)
     = inl (Error ("Failed to set cell text. Error: Error: "
                     ++ "Failed to get active document. Error: Error: No active document found in Word.")).
Proof.
  pose proof (document_failure_is_passed_on vacant_session _ _ vacant_document) as Hall.
  split.
  - exact (proj1 (proj2 (proj2 (proj2 (proj2 (proj2 (proj2 (proj2 (proj2 (proj2 (proj2
             (proj2 (proj2 Hall)))))))))))) 1).
  - exact (f_equal fst
             (proj1 (proj2 (proj2 (proj2 (proj2 Hall)))) 1 1 1 "x")).
Defined.

Lemma selection_methods_without_document_witness :
  exists reason,
    fst (insertText "x" vacant_session)
    = inl (Error ("Failed to insert text. Error: " ++ to_string (TypeError reason)))
    /\ world (snd (insertText "x" vacant_session)) = vacant.
Proof.
  assert (Hdoc : dispatch (Get TObj Fake.app "ActiveDocument") (world (probed vacant_session))
                 = (inr None, vacant)) by reflexivity.
  assert (Hnone : forall doc : ref, @inr string obj None <> inr (Some doc))
    by (intros doc Heq; discriminate Heq).
  destruct (selection_methods_without_document
              vacant_session (probed vacant_session) Fake.app (inr None) vacant
              vacant_acquired Hdoc Hnone) as (cause & _ & Hcause & Hinsert & _).
  destruct (Hcause eq_refl) as [reason Hreason].
  exists reason. rewrite <- Hreason. split.
  - exact (f_equal fst (Hinsert "x")).
  - exact (f_equal (fun r => world (snd r)) (Hinsert "x")).
Defined.

(** ** The selection tools *)

Lemma studio_described : described (studio []) Fake.selection "word" 3 7 2.
Proof. repeat split. Defined.

Lemma getSelectionInfoTool_reports_the_selection_witness :
  content (fst (getSelectionInfoTool (studio_session [])))
  = ["Selection Information:"; "- Text: word"; "- Start Position: 3"; "- End Position: 7";
     "- Is Active: true"; "- Selection Type: Column"]
  /\ snd (getSelectionInfoTool (studio_session []))
     = noted (describing Fake.app Fake.doc Fake.window Fake.selection)
             (probed (studio_session [])).
Proof.
  split; [reflexivity |].
  exact (proj1 (getSelectionInfoTool_reports_the_selection
                  (studio_session []) (probed (studio_session []))
                  Fake.app Fake.doc Fake.window Fake.selection "word" 3 7 2
                  studio_acquired studio_selected studio_described)).
Defined.

Lemma getSelectionTextTool_shows_the_selection_witness :
  exists shown,
    getSelectionTextTool (studio_session [])
    = ({| content := ["Current selection text:"; shown]; isError := None |},
       noted (selecting Fake.app Fake.doc Fake.window ++ [EGet Fake.selection "Text"])
             (probed (studio_session [])))
    /\ shown = "word".
Proof.
  assert (Htext : reads (world (probed (studio_session [])))
                        (Get TStr Fake.selection "Text") "word") by reflexivity.
  assert (Hne : "word" <> "") by (intros Heq; discriminate Heq).
  destruct (getSelectionTextTool_shows_the_selection
              (studio_session []) (probed (studio_session []))
              Fake.app Fake.doc Fake.window Fake.selection "word"
              studio_acquired studio_selected Htext) as (shown & Hrun & _ & Hshown & _).
  exists shown. split; [exact Hrun | exact (Hshown Hne)].
Defined.
